(** * django_components/context.py: the context store of component rendering

    [context.py] keeps the render state of nested components (current and
    parent component id, slot -> component associations, filled slots, the
    outer root context) under reserved keys of Django's [Context], a stack
    of dictionaries.  The dictionaries and the contexts are mutable Python
    objects that the module shares by reference, so the embedding has an
    explicit object store: every function of the module is a computation
    over the store that returns a value or raises. *)

From stdpp Require Import gmap strings list fin_maps.

Open Scope string_scope.
Open Scope list_scope.
Open Scope nat_scope.

(** ** Python values and objects *)

(** An address of the object store. *)
Abbreviation loc := nat.

(** The values a context layer holds.  Dictionaries and contexts are
    objects: a value refers to them by address. *)
Inductive val :=
  | VNone
  | VBool (b : bool)
  | VInt (z : Z)
  | VStr (s : string)
  | VOpaque (n : nat)   (* an object this module only passes on: a fill, a loop state *)
  | VRef (r : loc).

(** The two kinds of mutable object of the module: a [dict], and a
    [Context], of which only the attribute [dicts] (the stack of layers,
    bottom first) is modelled; the module reads no other attribute. *)
Inductive obj :=
  | ODict (d : gmap string val)
  | OCtx (dicts : list loc).

(** The store: object [r] is the [r]-th allocated one.  Nothing is freed. *)
Abbreviation heap := (list obj).

Inductive exn :=
  | KeyError (k : string)
  | IndexError
  | AttributeError
  | TypeError
  | ContextPopException.

(** ** Computations over the store *)

Inductive res (A : Type) :=
  | Ok (a : A) (h : heap)
  | Raise (e : exn) (h : heap).
Arguments Ok {A} a h.
Arguments Raise {A} e h.

Definition M (A : Type) : Type := heap → res A.

Definition ret {A} (a : A) : M A := λ h, Ok a h.
Definition raise {A} (e : exn) : M A := λ h, Raise e h.
Definition bind {A B} (m : M A) (k : A → M B) : M B :=
  λ h, match m h with
       | Ok a h' => k a h'
       | Raise e h' => Raise e h'
       end.

Notation "'let*' x ':=' m 'in' k" := (bind m (λ x, k))
  (at level 10, x pattern, m at level 100, k at level 200).
Notation "m ';;' k" := (bind m (λ _, k))
  (at level 100, k at level 200, right associativity).

Definition get_heap : M heap := λ h, Ok h h.
Definition alloc (o : obj) : M loc := λ h, Ok (length h) (h ++ [o]).
Definition store (r : loc) (o : obj) : M unit := λ h, Ok () (<[r := o]> h).

(** Reading an object as a dictionary, or as a context. *)
Definition load_dict (r : loc) : M (gmap string val) :=
  λ h, match h !! r with
       | Some (ODict d) => Ok d h
       | _ => Raise TypeError h
       end.

Definition load_dicts (r : loc) : M (list loc) :=
  λ h, match h !! r with
       | Some (OCtx ds) => Ok ds h
       | _ => Raise AttributeError h
       end.

(** A value used as an object: anything but a reference has none of the
    attributes the module asks for. *)
Definition the_ref (v : val) : M loc :=
  match v with
  | VRef r => ret r
  | _ => raise AttributeError
  end.

(** Python's truth value: [None], [False], [0], the empty string and the
    empty dict are false.  A [Context] defines neither [__bool__] nor
    [__len__], so it is true. *)
Definition truthy (h : heap) (v : val) : bool :=
  match v with
  | VNone => false
  | VBool b => b
  | VInt z => negb (Z.eqb z 0)
  | VStr s => negb (String.eqb s "")
  | VOpaque _ => true
  | VRef r => match h !! r with
              | Some (ODict d) => negb (bool_decide (d = ∅))
              | _ => true
              end
  end.

Definition is_true (v : val) : M bool := λ h, Ok (truthy h v) h.

(** ** [dict] *)

(** [{}] and [dict(d)]. *)
Definition dict_new (d : gmap string val) : M loc := alloc (ODict d).

(** [k in d] *)
Definition dict_contains (r : loc) (k : string) : M bool :=
  let* d := load_dict r in ret (bool_decide (is_Some (d !! k))).

(** [d[k]] *)
Definition dict_getitem (r : loc) (k : string) : M val :=
  let* d := load_dict r in
  match d !! k with
  | Some v => ret v
  | None => raise (KeyError k)
  end.

(** [d.get(k, default)] *)
Definition dict_get (r : loc) (k : string) (otherwise : val) : M val :=
  let* d := load_dict r in ret (default otherwise (d !! k)).

(** [d[k] = v] *)
Definition dict_setitem (r : loc) (k : string) (v : val) : M unit :=
  let* d := load_dict r in store r (ODict (<[k := v]> d)).

(** [d.copy()]: a new dictionary with the same entries (a shallow copy). *)
Definition dict_copy (r : loc) : M loc :=
  let* d := load_dict r in dict_new d.

(** ** [django.template.Context]

    Django is a dependency of the module, not part of it; these are the
    methods of [BaseContext] and [Context] the module calls, after
    [django/template/context.py]. *)

(** The bottom layer of every new context. *)
Definition builtins : gmap string val :=
  {[ "True" := VBool true; "False" := VBool false; "None" := VNone ]}.

(** [for d in ds: if key in d: return d[key]]; [None] when a layer is not
    a dictionary. *)
Fixpoint find_key (h : heap) (ds : list loc) (k : string) : option (option val) :=
  match ds with
  | [] => Some None
  | r :: ds' =>
      match h !! r with
      | Some (ODict d) =>
          match d !! k with
          | Some v => Some (Some v)
          | None => find_key h ds' k
          end
      | _ => None
      end
  end.

(** [Context()]: [_reset_dicts] makes the stack [[builtins]]. *)
Definition Context_new : M loc :=
  let* b := dict_new builtins in alloc (OCtx [b]).

(** [c.new()]: a copy of [c] whose stack is reset to [[builtins]]. *)
Definition ctx_new (c : loc) : M loc :=
  load_dicts c ;; Context_new.

(** [key in c]: [any(key in d for d in self.dicts)]. *)
Definition ctx_contains (c : loc) (k : string) : M bool :=
  let* ds := load_dicts c in
  let* h := get_heap in
  match find_key h ds k with
  | Some o => ret (bool_decide (is_Some o))
  | None => raise TypeError
  end.

(** [c.get(key, otherwise)]: the layers are searched from the top. *)
Definition ctx_get (c : loc) (k : string) (otherwise : val) : M val :=
  let* ds := load_dicts c in
  let* h := get_heap in
  match find_key h (reverse ds) k with
  | Some o => ret (default otherwise o)
  | None => raise TypeError
  end.

(** [c[key]]: as [get], but a missing key raises [KeyError]. *)
Definition ctx_getitem (c : loc) (k : string) : M val :=
  let* ds := load_dicts c in
  let* h := get_heap in
  match find_key h (reverse ds) k with
  | Some (Some v) => ret v
  | Some None => raise (KeyError k)
  | None => raise TypeError
  end.

(** [c.dicts[-1]] *)
Definition ctx_top (c : loc) : M loc :=
  let* ds := load_dicts c in
  match last ds with
  | Some r => ret r
  | None => raise IndexError
  end.

(** [c.dicts[i]] for an index [i >= 0]. *)
Definition ctx_layer (c : loc) (i : nat) : M loc :=
  let* ds := load_dicts c in
  match ds !! i with
  | Some r => ret r
  | None => raise IndexError
  end.

(** [c[key] = value]: [self.dicts[-1][key] = value]. *)
Definition ctx_setitem (c : loc) (k : string) (v : val) : M unit :=
  let* top := ctx_top c in dict_setitem top k v.

(** [c.push(d)] and [c.update(d)] for a dictionary [d]: both build
    [ContextDict(c, d)], a new dictionary with the entries of [d], and
    append it to the stack. *)
Definition ctx_push (c : loc) (d : loc) : M unit :=
  let* ds := load_dicts c in
  let* layer := dict_copy d in
  store c (OCtx (ds ++ [layer])).

Definition ctx_update := ctx_push.

(** [c.push()]: a new empty layer. *)
Definition ctx_push_empty (c : loc) : M unit :=
  let* ds := load_dicts c in
  let* layer := dict_new ∅ in
  store c (OCtx (ds ++ [layer])).

(** [c.pop()]: [if len(self.dicts) == 1: raise ContextPopException] and
    then [return self.dicts.pop()]. *)
Definition ctx_pop (c : loc) : M loc :=
  let* ds := load_dicts c in
  if bool_decide (length ds = 1) then raise ContextPopException
  else
    match last ds with
    | Some r => store c (OCtx (removelast ds)) ;; ret r
    | None => raise IndexError
    end.

(** [c.flatten()]: [flat = {}; for d in self.dicts: flat.update(d)]. *)
Fixpoint flatten_layers (h : heap) (ds : list loc) (flat : gmap string val)
  : option (gmap string val) :=
  match ds with
  | [] => Some flat
  | r :: ds' =>
      match h !! r with
      | Some (ODict d) => flatten_layers h ds' (d ∪ flat)
      | _ => None
      end
  end.

Definition ctx_flatten (c : loc) : M loc :=
  let* ds := load_dicts c in
  let* h := get_heap in
  match flatten_layers h ds ∅ with
  | Some flat => dict_new flat
  | None => raise TypeError
  end.

(** ** Collaborators outside [context.py] *)

(** Modelled from the spec: [SlotContextBehavior] and
    [app_settings.SLOT_CONTEXT_BEHAVIOR] live in [app_settings.py], another
    module of the package.  The spec names the recognised options
    [DEFAULT] and [ISOLATED]; [context.py] only compares the setting with
    [ISOLATED].  The setting is a parameter of the functions that read it. *)
Inductive SlotContextBehavior := DEFAULT | ISOLATED.

Definition is_isolated (b : SlotContextBehavior) : bool :=
  match b with ISOLATED => true | DEFAULT => false end.

(** Modelled from the spec: [logger.trace_msg] is the tracing hook called
    on fill get and set, "best-effort, no contract on failure"; it does not
    touch the store. *)
Definition trace_msg (action node_type node_name node_id : string) : M unit :=
  ret ().

(** Modelled from the spec: [utils.find_last_index] is defined in another
    module of the package.  [copy_forloop_context] uses it to "locate the
    deepest layer that carries the iteration marker": the greatest index of
    [l] whose element satisfies [p], if there is one. *)
Fixpoint find_last_index {A} (l : list A) (p : A → bool) : option nat :=
  match l with
  | [] => None
  | x :: l' =>
      match find_last_index l' p with
      | Some i => Some (S i)
      | None => if p x then Some 0 else None
      end
  end.

(** [lambda d: key in d] on a layer of the store. *)
Definition layer_has (h : heap) (k : string) (r : loc) : bool :=
  match h !! r with
  | Some (ODict d) => bool_decide (is_Some (d !! k))
  | _ => false
  end.

(** ** [context.py] *)

Definition _FILLED_SLOTS_CONTENT_CONTEXT_KEY := "_DJANGO_COMPONENTS_FILLED_SLOTS".
Definition _OUTER_ROOT_CTX_CONTEXT_KEY := "_DJANGO_COMPONENTS_OUTER_ROOT_CTX".
Definition _SLOT_COMPONENT_ASSOC_KEY := "_DJANGO_COMPONENTS_SLOT_COMP_ASSOC".
Definition _PARENT_COMP_KEY := "_DJANGO_COMPONENTS_PARENT_COMP".
Definition _CURRENT_COMP_KEY := "_DJANGO_COMPONENTS_CURRENT_COMP".

(** [f"{component_id}__{slot_name}"] *)
Definition slot_key (component_id slot_name : string) : string :=
  (component_id ++ "__" ++ slot_name)%string.

Definition set_component_id (context : loc) (component_id : string) : M unit :=
  let* prev := ctx_get context _CURRENT_COMP_KEY VNone in
  ctx_setitem context _PARENT_COMP_KEY prev ;;
  ctx_setitem context _CURRENT_COMP_KEY (VStr component_id).

Definition get_slot_fill (context : loc) (component_id slot_name : string) : M val :=
  trace_msg "GET" "FILL" slot_name component_id ;;
  let* fills := ctx_getitem context _FILLED_SLOTS_CONTENT_CONTEXT_KEY in
  let* r := the_ref fills in
  dict_get r (slot_key component_id slot_name) VNone.

Definition set_slot_fill (context : loc) (component_id slot_name : string)
    (value : val) : M unit :=
  trace_msg "SET" "FILL" slot_name component_id ;;
  let* fills := ctx_getitem context _FILLED_SLOTS_CONTENT_CONTEXT_KEY in
  let* r := the_ref fills in
  dict_setitem r (slot_key component_id slot_name) value.

Definition get_outer_root_context (context : loc) : M val :=
  ctx_get context _OUTER_ROOT_CTX_CONTEXT_KEY VNone.

Definition set_slot_component_association (context : loc)
    (slot_id component_id : string) : M unit :=
  let* latest_dict := ctx_top context in
  let* owned := dict_contains latest_dict _SLOT_COMPONENT_ASSOC_KEY in
  (if owned then ret ()
   else
     let* assoc := ctx_getitem context _SLOT_COMPONENT_ASSOC_KEY in
     let* r := the_ref assoc in
     let* clone := dict_copy r in
     dict_setitem latest_dict _SLOT_COMPONENT_ASSOC_KEY (VRef clone)) ;;
  let* assoc := ctx_getitem context _SLOT_COMPONENT_ASSOC_KEY in
  let* r := the_ref assoc in
  dict_setitem r slot_id (VStr component_id).

Definition get_slot_component_association (context : loc) (slot_id : string) : M val :=
  let* assoc := ctx_getitem context _SLOT_COMPONENT_ASSOC_KEY in
  let* r := the_ref assoc in
  dict_getitem r slot_id.

Definition copy_forloop_context (from_context to_context : loc) : M unit :=
  let* inside := ctx_contains from_context "forloop" in
  if inside then
    let* ds := load_dicts from_context in
    let* h := get_heap in
    match find_last_index ds (layer_has h "forloop") with
    | Some forloop_dict_index =>
        let* layer := ctx_layer from_context forloop_dict_index in
        ctx_update to_context layer
    | None => raise IndexError
    end
  else ret ().

Section Settings.

Variable SLOT_CONTEXT_BEHAVIOR : SlotContextBehavior.

(** The condition of the special case: [and] evaluates its operands from
    the left and stops at the first false one. *)
Definition is_isolated_top_level (context : loc) (outer_ctx : val) : M bool :=
  let* given := is_true outer_ctx in
  if given then
    let* parent := ctx_get context _PARENT_COMP_KEY VNone in
    let* has_parent := is_true parent in
    if has_parent then ret false
    else if is_isolated SLOT_CONTEXT_BEHAVIOR
         then ctx_contains context _OUTER_ROOT_CTX_CONTEXT_KEY
         else ret false
  else ret false.

(** [outer_ctx and len(outer_ctx.dicts) > 1] *)
Definition has_own_layer (outer_ctx : val) : M bool :=
  let* given := is_true outer_ctx in
  if given then
    let* o := the_ref outer_ctx in
    let* ds := load_dicts o in
    ret (bool_decide (1 < length ds))
  else ret false.

(** [if key in context: outer_root_context[key] = context[key]] *)
Definition include_mapping (context outer_root_context : loc) (k : string) : M unit :=
  let* present := ctx_contains context k in
  if present then
    let* v := ctx_getitem context k in
    ctx_setitem outer_root_context k v
  else ret ().

(** The [if] / [elif] / [else] that builds [outer_root_context]. *)
Definition new_outer_root_context (context : loc) (outer_ctx : val) : M loc :=
  let* special := is_isolated_top_level context outer_ctx in
  if special then
    let* o := the_ref outer_ctx in
    let* outer_root_context := ctx_new o in
    let* flat := ctx_flatten o in
    ctx_push outer_root_context flat ;;
    ret outer_root_context
  else
    let* nested := has_own_layer outer_ctx in
    if nested then
      let* o := the_ref outer_ctx in
      let* outer_root_context := ctx_new o in
      let* own := ctx_layer o 1 in
      ctx_push outer_root_context own ;;
      ret outer_root_context
    else Context_new.

Definition set_outer_root_context (context : loc) (outer_ctx : val) : M unit :=
  let* outer_root_context := new_outer_root_context context outer_ctx in
  include_mapping context outer_root_context _SLOT_COMPONENT_ASSOC_KEY ;;
  include_mapping context outer_root_context _FILLED_SLOTS_CONTENT_CONTEXT_KEY ;;
  ctx_setitem context _OUTER_ROOT_CTX_CONTEXT_KEY (VRef outer_root_context).

(** [if key not in context: context[key] = {}] *)
Definition init_mapping (context : loc) (k : string) : M unit :=
  let* present := ctx_contains context k in
  if present then ret ()
  else
    let* d := dict_new ∅ in
    ctx_setitem context k (VRef d).

Definition prepare_context (context : loc) (outer_context : val)
    (component_id : string) : M unit :=
  (match outer_context with
   | VNone => ret ()
   | _ => set_outer_root_context context outer_context
   end) ;;
  init_mapping context _SLOT_COMPONENT_ASSOC_KEY ;;
  init_mapping context _FILLED_SLOTS_CONTENT_CONTEXT_KEY ;;
  let* inside := ctx_contains context "forloop" in
  (if inside then
     let* assoc := ctx_getitem context _SLOT_COMPONENT_ASSOC_KEY in
     let* r := the_ref assoc in
     let* clone := dict_copy r in
     ctx_setitem context _SLOT_COMPONENT_ASSOC_KEY (VRef clone)
   else ret ()) ;;
  set_component_id context component_id.

Definition make_isolated_context_copy (context : loc) : M loc :=
  let* root_ctx := get_outer_root_context context in
  let* no_assoc := dict_new ∅ in
  let* slot_assoc := ctx_get context _SLOT_COMPONENT_ASSOC_KEY (VRef no_assoc) in
  let* no_fills := dict_new ∅ in
  let* slot_fills := ctx_get context _FILLED_SLOTS_CONTENT_CONTEXT_KEY (VRef no_fills) in
  let* context_copy := ctx_new context in
  ctx_setitem context_copy _SLOT_COMPONENT_ASSOC_KEY slot_assoc ;;
  ctx_setitem context_copy _FILLED_SLOTS_CONTENT_CONTEXT_KEY slot_fills ;;
  set_outer_root_context context_copy root_ctx ;;
  copy_forloop_context context context_copy ;;
  let* current := ctx_get context _CURRENT_COMP_KEY VNone in
  ctx_setitem context_copy _CURRENT_COMP_KEY current ;;
  let* parent := ctx_get context _PARENT_COMP_KEY VNone in
  ctx_setitem context_copy _PARENT_COMP_KEY parent ;;
  ret context_copy.

End Settings.

(** ** Predicates on the store *)

(** Every layer of the stack is a dictionary of the store. *)
Definition all_dicts (h : heap) (ds : list loc) : Prop :=
  Forall (λ r, ∃ d, h !! r = Some (ODict d)) ds.

(** [visible h ds k]: the value [k] resolves to in the stack [ds], searched
    from the top. *)
Definition visible (h : heap) (ds : list loc) (k : string) : option val :=
  default None (find_key h (reverse ds) k).

(** [scope h c ds top d]: in the store [h], [c] is a context with the
    stack of layers [ds], all of them dictionaries, whose top layer is the
    dictionary [top], with entries [d]. *)
Record scope (h : heap) (c : loc) (ds : list loc) (top : loc)
    (d : gmap string val) : Prop := {
  scope_ctx : h !! c = Some (OCtx ds);
  scope_last : last ds = Some top;
  scope_top : h !! top = Some (ODict d);
  scope_layers : all_dicts h ds
}.

(** The store after [context[k] = v]. *)
Definition set_top (h : heap) (top : loc) (d : gmap string val)
    (k : string) (v : val) : heap :=
  <[top := ODict (<[k := v]> d)]> h.

(** [unchanged top h h']: every object of [h] but [top] is the same in [h']. *)
Definition unchanged (top : loc) (h h' : heap) : Prop :=
  ∀ r o, r ≠ top → h !! r = Some o → h' !! r = Some o.

(** [preserved h h']: every object of [h] is the same in [h']: the store
    has only grown, or changed at addresses that [h] does not have. *)
Definition preserved (h h' : heap) : Prop :=
  ∀ r o, h !! r = Some o → h' !! r = Some o.

(** The value of the condition of the special case of
    [set_outer_root_context], in a context with the stack [ds]. *)
Definition isolated_top_level (behavior : SlotContextBehavior) (h : heap)
    (ds : list loc) (outer_ctx : val) : bool :=
  truthy h outer_ctx
  && negb (truthy h (default VNone (visible h ds _PARENT_COMP_KEY)))
  && is_isolated behavior
  && bool_decide (is_Some (visible h ds _OUTER_ROOT_CTX_CONTEXT_KEY)).

(** A layer after [if key in context: layer[key] = context[key]], where
    [found] is what the key resolves to in the context. *)
Definition include_into (found : option val) (k : string)
    (d : gmap string val) : gmap string val :=
  match found with
  | Some v => <[k := v]> d
  | None => d
  end.

(** An outer context [set_outer_root_context] can work with: a false
    value ([None] above all), or a context whose layers are dictionaries. *)
Definition outer_ok (h : heap) (outer_ctx : val) : Prop :=
  truthy h outer_ctx = false ∨
  ∃ o ods, outer_ctx = VRef o ∧ h !! o = Some (OCtx ods) ∧ all_dicts h ods.

(** The store a computation leaves behind, whether it returns or raises. *)
Definition store_after {A} (m : M A) (h : heap) : heap :=
  match m h with
  | Ok _ h' | Raise _ h' => h'
  end.

(** An outer context as a caller of [prepare_context] passes it: [None],
    or a context whose layers are dictionaries. *)
Definition context_or_none (h : heap) (outer_ctx : val) : Prop :=
  outer_ctx = VNone ∨
  ∃ o ods, outer_ctx = VRef o ∧ h !! o = Some (OCtx ods) ∧ all_dicts h ods.

(** Inside a loop [prepare_context] copies the association map: what the
    key resolves to, if anything, has to be a dictionary, and one that is
    not the top layer itself. *)
Definition assoc_ok (h : heap) (ds : list loc) (top : loc) : Prop :=
  is_Some (visible h ds "forloop") →
  ∀ v, visible h ds _SLOT_COMPONENT_ASSOC_KEY = Some v →
       ∃ r m, v = VRef r ∧ h !! r = Some (ODict m) ∧ r ≠ top.

(** The component ids a context shows: the current one and its parent. *)
Definition component_ids (context : loc) : M (val * val) :=
  let* current := ctx_get context _CURRENT_COMP_KEY VNone in
  let* parent := ctx_get context _PARENT_COMP_KEY VNone in
  ret (current, parent).

(** Three nested renders, each on a layer of its own ([push], then
    [prepare_context]), and the way back: the ids at the innermost
    component, and after each [pop]. *)
Definition nest_and_walk_back (behavior : SlotContextBehavior) (context : loc)
    (outer_a outer_b outer_c : val) (id_a id_b id_c : string)
    : M (list (val * val)) :=
  ctx_push_empty context ;;
  prepare_context behavior context outer_a id_a ;;
  ctx_push_empty context ;;
  prepare_context behavior context outer_b id_b ;;
  ctx_push_empty context ;;
  prepare_context behavior context outer_c id_c ;;
  let* at_c := component_ids context in
  ctx_pop context ;;
  let* at_b := component_ids context in
  ctx_pop context ;;
  let* at_a := component_ids context in
  ret [at_c; at_b; at_a].

(** ** Example stores *)

(** A context (object 2) of two layers whose upper layer holds an
    association map (object 3) and a fill registry (object 4). *)
Definition rendering_store : heap :=
  [ ODict builtins;
    ODict {[ _SLOT_COMPONENT_ASSOC_KEY := VRef 3;
             _FILLED_SLOTS_CONTENT_CONTEXT_KEY := VRef 4 ]};
    OCtx [0; 1];
    ODict {[ "slot-1" := VStr "comp-A" ]};
    ODict {[ "comp-A__header" := VOpaque 7 ]} ].

(** A context (object 1) as [Context()] makes it: no render state yet. *)
Definition bare_store : heap :=
  [ ODict builtins; OCtx [0] ].

(** A context (object 3) of three layers; the middle layer holds the
    association map (object 4) and the fill registry (object 5), the top
    layer has no render state of its own. *)
Definition nested_store : heap :=
  [ ODict builtins;
    ODict {[ _SLOT_COMPONENT_ASSOC_KEY := VRef 4;
             _FILLED_SLOTS_CONTENT_CONTEXT_KEY := VRef 5 ]};
    ODict {[ "x" := VInt 1 ]};
    OCtx [0; 1; 2];
    ODict {[ "slot-1" := VStr "comp-A" ]};
    ODict ∅ ].

(** A context (object 4) inside two nested loops: layers 1 and 2 were
    pushed by the loops, with the loop state and the loop variable; layer 3
    is above them.  Object 6 is another context, of one layer. *)
Definition looping_store : heap :=
  [ ODict builtins;
    ODict {[ "forloop" := VOpaque 1; "row" := VInt 10 ]};
    ODict {[ "forloop" := VOpaque 2; "cell" := VInt 20 ]};
    ODict {[ "y" := VInt 3 ]};
    OCtx [0; 1; 2; 3];
    ODict builtins;
    OCtx [5] ].

(** A page whose context (object 3) has the layers [defaults], [{a: 1}]
    and [{b: 2}], and a component at the top level of the page, rendered
    for the first time: its context (object 6) has no render state. *)
Definition page_store : heap :=
  [ ODict builtins;
    ODict {[ "a" := VInt 1 ]};
    ODict {[ "b" := VInt 2 ]};
    OCtx [0; 1; 2];
    ODict builtins;
    ODict ∅;
    OCtx [4; 5] ].

(** The same page, with a key in both upper layers, and a component
    context (object 6) that already holds an outer root context (object 8)
    and the two mappings (objects 9 and 10). *)
Definition second_pass_store : heap :=
  [ ODict builtins;
    ODict {[ "a" := VInt 1; "title" := VStr "from a" ]};
    ODict {[ "b" := VInt 2; "title" := VStr "from b" ]};
    OCtx [0; 1; 2];
    ODict builtins;
    ODict {[ _OUTER_ROOT_CTX_CONTEXT_KEY := VRef 8;
             _SLOT_COMPONENT_ASSOC_KEY := VRef 9;
             _FILLED_SLOTS_CONTENT_CONTEXT_KEY := VRef 10 ]};
    OCtx [4; 5];
    ODict builtins;
    OCtx [7];
    ODict ∅;
    ODict ∅ ].

(** A context (object 3) whose top layer was pushed by a loop; the layer
    below holds the association map (object 4) and the fill registry
    (object 5) of the render. *)
Definition loop_render_store : heap :=
  [ ODict builtins;
    ODict {[ _SLOT_COMPONENT_ASSOC_KEY := VRef 4;
             _FILLED_SLOTS_CONTENT_CONTEXT_KEY := VRef 5 ]};
    ODict {[ "forloop" := VOpaque 1; "item" := VInt 10 ]};
    OCtx [0; 1; 2];
    ODict {[ "slot-1" := VStr "comp-A" ]};
    ODict ∅ ].

(** A component context (object 2) and its outer root context (object 4):
    two contexts that resolve the registry key to the same dictionary
    (object 6), and the key of the association map to object 5. *)
Definition shared_registry_store : heap :=
  [ ODict builtins;
    ODict {[ _SLOT_COMPONENT_ASSOC_KEY := VRef 5;
             _FILLED_SLOTS_CONTENT_CONTEXT_KEY := VRef 6 ]};
    OCtx [0; 1];
    ODict {[ "True" := VBool true; "False" := VBool false; "None" := VNone;
             _SLOT_COMPONENT_ASSOC_KEY := VRef 5;
             _FILLED_SLOTS_CONTENT_CONTEXT_KEY := VRef 6 ]};
    OCtx [3];
    ODict {[ "slot-1" := VStr "comp-A" ]};
    ODict {[ "comp-A__header" := VOpaque 7 ]} ].


(** * Reasoning about the store *)

(** ** Running a computation *)

Lemma bind_Ok {A B} (m : M A) (k : A → M B) h a h' :
  m h = Ok a h' → bind m k h = k a h'.
Proof. unfold bind. by intros ->. Qed.

Lemma bind_Raise {A B} (m : M A) (k : A → M B) h e h' :
  m h = Raise e h' → bind m k h = Raise e h'.
Proof. unfold bind. by intros ->. Qed.

(** [run_with H]: the first command of the computation runs as [H] says. *)
Ltac run_with H := rewrite (bind_Ok _ _ _ _ _ H); cbv beta.

Lemma load_dicts_Ok h c ds :
  h !! c = Some (OCtx ds) → load_dicts c h = Ok ds h.
Proof. unfold load_dicts. by intros ->. Qed.

Lemma load_dict_Ok h r d :
  h !! r = Some (ODict d) → load_dict r h = Ok d h.
Proof. unfold load_dict. by intros ->. Qed.

Lemma dict_setitem_Ok h r d k v :
  h !! r = Some (ODict d) →
  dict_setitem r k v h = Ok () (<[r := ODict (<[k := v]> d)]> h).
Proof. intros Hr. unfold dict_setitem. by rewrite (bind_Ok _ _ _ _ _ (load_dict_Ok _ _ _ Hr)). Qed.

Lemma dict_copy_Ok h r d :
  h !! r = Some (ODict d) → dict_copy r h = Ok (length h) (h ++ [ODict d]).
Proof. intros Hr. unfold dict_copy. by rewrite (bind_Ok _ _ _ _ _ (load_dict_Ok _ _ _ Hr)). Qed.

(** ** The store only grows *)

Lemma lookup_alloc (h news : heap) r o :
  h !! r = Some o → (h ++ news) !! r = Some o.
Proof. apply lookup_app_l_Some. Qed.

Lemma lookup_alloc_new (h : heap) o :
  (h ++ [o]) !! length h = Some o.
Proof. by rewrite lookup_app_r, Nat.sub_diag. Qed.

Lemma lookup_replace (h : heap) r o o' :
  h !! r = Some o → <[r := o']> h !! r = Some o'.
Proof. intros Hr%lookup_lt_Some. by apply list_lookup_insert_eq. Qed.

Lemma lookup_kind_ne (h : heap) r c d ds :
  h !! r = Some (ODict d) → h !! c = Some (OCtx ds) → r ≠ c.
Proof. intros Hr Hc ->. congruence. Qed.

(** ** Layers of a context *)

Lemma all_dicts_reverse h ds : all_dicts h ds → all_dicts h (reverse ds).
Proof. unfold all_dicts. by rewrite Forall_reverse. Qed.

Lemma all_dicts_alloc h news ds : all_dicts h ds → all_dicts (h ++ news) ds.
Proof.
  intros Hds. eapply Forall_impl; [exact Hds|]. intros r [d Hd].
  exists d. by apply lookup_alloc.
Qed.

Lemma all_dicts_replace h ds r d d' :
  h !! r = Some (ODict d) → all_dicts h ds → all_dicts (<[r := ODict d']> h) ds.
Proof.
  intros Hr Hds. eapply Forall_impl; [exact Hds|]. intros r0 [d0 Hd0].
  destruct (decide (r0 = r)) as [->|Hne].
  - exists d'. by eapply lookup_replace.
  - exists d0. by rewrite list_lookup_insert_ne.
Qed.

Lemma find_key_total h ds k :
  all_dicts h ds → ∃ o, find_key h ds k = Some o.
Proof.
  induction 1 as [|r ds [d Hd] _ IH]; simpl; [by eexists|].
  rewrite Hd. destruct (d !! k); [by eexists|done].
Qed.

Lemma find_key_visible h ds k :
  all_dicts h ds → find_key h (reverse ds) k = Some (visible h ds k).
Proof.
  intros Hds. unfold visible.
  destruct (find_key_total h (reverse ds) k) as [o ->]; [|done].
  by apply all_dicts_reverse.
Qed.

(** A search sees the store only through the key it looks for, in the
    layers it goes through. *)
Lemma find_key_ext h h' ds k :
  (∀ r d, r ∈ ds → h !! r = Some (ODict d) →
          ∃ d', h' !! r = Some (ODict d') ∧ d' !! k = d !! k) →
  all_dicts h ds → find_key h' ds k = find_key h ds k.
Proof.
  intros Hext Hds. induction Hds as [|r ds [d Hd] _ IH]; simpl; [done|].
  destruct (Hext r d) as (d' & Hd' & Hk); [by left|done|].
  rewrite Hd, Hd', Hk. destruct (d !! k); [done|].
  apply IH. intros r0 d0 Hin. apply Hext. by right.
Qed.

Lemma find_key_alloc h news ds k :
  all_dicts h ds → find_key (h ++ news) ds k = find_key h ds k.
Proof.
  intros Hds. apply find_key_ext; [|done].
  intros r d _ Hd. exists d. split; [by apply lookup_alloc|done].
Qed.

(** Writing key [k'] into a dictionary does not change what another key
    resolves to, whether the dictionary is a layer of the stack or not. *)
Lemma find_key_setitem_ne h ds r d k k' v :
  h !! r = Some (ODict d) → k ≠ k' → all_dicts h ds →
  find_key (<[r := ODict (<[k' := v]> d)]> h) ds k = find_key h ds k.
Proof.
  intros Hr Hne Hds. apply find_key_ext; [|done].
  intros r0 d0 _ Hd0. destruct (decide (r0 = r)) as [->|Hr0].
  - eexists. split; [by eapply lookup_replace|].
    assert (d0 = d) as -> by congruence. by rewrite lookup_insert_ne.
  - exists d0. by rewrite list_lookup_insert_ne.
Qed.

(** Replacing an object that is no layer of the stack changes nothing. *)
Lemma find_key_replace_other h ds r o k :
  r ∉ ds → all_dicts h ds → find_key (<[r := o]> h) ds k = find_key h ds k.
Proof.
  intros Hr Hds. apply find_key_ext; [|done].
  intros r0 d0 Hin Hd0. exists d0. split; [|done].
  rewrite list_lookup_insert_ne; [done|]. by intros ->.
Qed.

(** [key in context] and [context.get(key)] agree on whether the key is
    there, though one searches from the bottom and the other from the top. *)
Lemma find_key_is_Some h ds k o :
  find_key h ds k = Some o →
  is_Some o ↔ ∃ r, r ∈ ds ∧ layer_has h k r = true.
Proof.
  revert o. induction ds as [|r ds IH]; simpl; intros o Ho.
  - simplify_eq. split; [by intros []|]. intros (r & Hin & _). by apply not_elem_of_nil in Hin.
  - unfold layer_has in *. destruct (h !! r) as [[d|]|] eqn:Hr; [|done..].
    destruct (d !! k) as [v|] eqn:Hk.
    + simplify_eq. split; [|by eauto]. intros _. exists r. split; [by left|].
      rewrite Hr. apply bool_decide_eq_true. by rewrite Hk.
    + rewrite (IH _ Ho). split.
      * intros (r0 & Hin & Hr0). exists r0. split; [by right|done].
      * intros (r0 & Hin & Hr0). apply elem_of_cons in Hin as [->|Hin].
        -- rewrite Hr in Hr0. apply bool_decide_eq_true in Hr0.
           rewrite Hk in Hr0. by destruct Hr0.
        -- by exists r0.
Qed.

Lemma find_key_forward h ds k :
  all_dicts h ds →
  ∃ o, find_key h ds k = Some o ∧ (is_Some o ↔ is_Some (visible h ds k)).
Proof.
  intros Hds. destruct (find_key_total h ds k Hds) as [o Ho].
  exists o. split; [done|].
  rewrite (find_key_is_Some _ _ _ _ Ho).
  rewrite (find_key_is_Some _ _ _ _ (find_key_visible h ds k Hds)).
  by setoid_rewrite elem_of_reverse.
Qed.

(** ** A context in the store *)

Lemma unchanged_refl top h : unchanged top h h.
Proof. by intros r o _ Hr. Qed.

Lemma unchanged_trans top h1 h2 h3 :
  unchanged top h1 h2 → unchanged top h2 h3 → unchanged top h1 h3.
Proof. intros H12 H23 r o Hne Hr. by apply H23, H12. Qed.

Lemma unchanged_alloc top h news : unchanged top h (h ++ news).
Proof. intros r o _ Hr. by apply lookup_alloc. Qed.

Lemma unchanged_set_top top h d k v : unchanged top h (set_top h top d k v).
Proof. intros r o Hne Hr. unfold set_top. by rewrite list_lookup_insert_ne. Qed.

Lemma scope_alloc h news c ds top d :
  scope h c ds top d → scope (h ++ news) c ds top d.
Proof.
  intros [Hc Hl Ht Hds]. split; [by apply lookup_alloc|done|by apply lookup_alloc|].
  by apply all_dicts_alloc.
Qed.

Lemma scope_set_top h c ds top d k v :
  scope h c ds top d → scope (set_top h top d k v) c ds top (<[k := v]> d).
Proof.
  intros [Hc Hl Ht Hds]. unfold set_top. split; [|done| |].
  - rewrite list_lookup_insert_ne; [done|]. by eapply lookup_kind_ne.
  - by eapply lookup_replace.
  - by eapply all_dicts_replace.
Qed.

Lemma preserved_alloc h news : preserved h (h ++ news).
Proof. intros r o Hr. by apply lookup_alloc. Qed.

Lemma preserved_replace_new h h' r o :
  preserved h h' → length h ≤ r → preserved h (<[r := o]> h').
Proof.
  intros Hp Hr r0 o0 Hr0. rewrite list_lookup_insert_ne; [by apply Hp|].
  apply lookup_lt_Some in Hr0. lia.
Qed.

Lemma preserved_unchanged top h h' : preserved h h' → unchanged top h h'.
Proof. intros Hp r o _. apply Hp. Qed.

Lemma all_dicts_preserved h h' ds :
  preserved h h' → all_dicts h ds → all_dicts h' ds.
Proof.
  intros Hp Hds. eapply Forall_impl; [exact Hds|]. intros r [d Hd].
  exists d. by apply Hp.
Qed.

Lemma scope_preserved h h' c ds top d :
  preserved h h' → scope h c ds top d → scope h' c ds top d.
Proof.
  intros Hp [Hc Hl Ht Hds]. split; [by apply Hp|done|by apply Hp|].
  by eapply all_dicts_preserved.
Qed.

Lemma visible_preserved h h' ds k :
  preserved h h' → all_dicts h ds → visible h' ds k = visible h ds k.
Proof.
  intros Hp Hds. unfold visible. rewrite (find_key_ext h h'); [done| |].
  - intros r d _ Hd. exists d. split; [by apply Hp|done].
  - by apply all_dicts_reverse.
Qed.

Lemma visible_alloc h news ds k :
  all_dicts h ds → visible (h ++ news) ds k = visible h ds k.
Proof.
  intros Hds. unfold visible. rewrite find_key_alloc; [done|].
  by apply all_dicts_reverse.
Qed.

Lemma visible_top h c ds top d k v :
  scope h c ds top d → d !! k = Some v → visible h ds k = Some v.
Proof.
  intros [Hc Hl Ht Hds] Hk. apply last_Some in Hl as [ds' ->].
  unfold visible. rewrite reverse_snoc. simpl. by rewrite Ht, Hk.
Qed.

Lemma visible_set_top_eq h c ds top d k v :
  scope h c ds top d → visible (set_top h top d k v) ds k = Some v.
Proof.
  intros Hs. eapply visible_top; [by apply scope_set_top|].
  by rewrite lookup_insert_eq.
Qed.

(** Writing a key into any dictionary of the store. *)
Lemma visible_setitem_ne h ds r d k k' v :
  h !! r = Some (ODict d) → k ≠ k' → all_dicts h ds →
  visible (<[r := ODict (<[k' := v]> d)]> h) ds k = visible h ds k.
Proof.
  intros Hr Hne Hds. unfold visible.
  rewrite find_key_setitem_ne; [done..|]. by apply all_dicts_reverse.
Qed.

(** ** The methods of [Context] on a scope *)

Section ContextMethods.

Context (h : heap) (c : loc) (ds : list loc).
Hypothesis Hc : h !! c = Some (OCtx ds).
Hypothesis Hds : all_dicts h ds.

Lemma ctx_get_Ok k otherwise :
  ctx_get c k otherwise h = Ok (default otherwise (visible h ds k)) h.
Proof.
  unfold ctx_get. rewrite (bind_Ok _ _ _ _ _ (load_dicts_Ok _ _ _ Hc)).
  unfold bind, get_heap. by rewrite find_key_visible.
Qed.

Lemma ctx_getitem_Ok k v :
  visible h ds k = Some v → ctx_getitem c k h = Ok v h.
Proof.
  intros Hk. unfold ctx_getitem. rewrite (bind_Ok _ _ _ _ _ (load_dicts_Ok _ _ _ Hc)).
  unfold bind, get_heap. by rewrite find_key_visible, Hk.
Qed.

Lemma ctx_getitem_KeyError k :
  visible h ds k = None → ctx_getitem c k h = Raise (KeyError k) h.
Proof.
  intros Hk. unfold ctx_getitem. rewrite (bind_Ok _ _ _ _ _ (load_dicts_Ok _ _ _ Hc)).
  unfold bind, get_heap. by rewrite find_key_visible, Hk.
Qed.

Lemma ctx_contains_Ok k :
  ctx_contains c k h = Ok (bool_decide (is_Some (visible h ds k))) h.
Proof.
  unfold ctx_contains. rewrite (bind_Ok _ _ _ _ _ (load_dicts_Ok _ _ _ Hc)).
  unfold bind, get_heap.
  destruct (find_key_forward h ds k Hds) as (o & -> & Ho).
  unfold ret. f_equal. by apply bool_decide_ext.
Qed.

End ContextMethods.

Lemma ctx_top_Ok h c ds top d :
  scope h c ds top d → ctx_top c h = Ok top h.
Proof.
  intros [Hc Hl Ht Hds]. unfold ctx_top.
  rewrite (bind_Ok _ _ _ _ _ (load_dicts_Ok _ _ _ Hc)). by rewrite Hl.
Qed.

Lemma ctx_setitem_Ok h c ds top d k v :
  scope h c ds top d → ctx_setitem c k v h = Ok () (set_top h top d k v).
Proof.
  intros Hs. unfold ctx_setitem. rewrite (bind_Ok _ _ _ _ _ (ctx_top_Ok _ _ _ _ _ Hs)).
  apply dict_setitem_Ok, Hs.
Qed.

Lemma visible_None h ds k :
  all_dicts h ds →
  visible h ds k = None ↔ ∀ r, r ∈ ds → layer_has h k r = false.
Proof.
  intros Hds. pose proof (find_key_is_Some _ _ _ _ (find_key_visible h ds k Hds)) as Hv.
  setoid_rewrite elem_of_reverse in Hv. split.
  - intros Hnone r Hin. destruct (layer_has h k r) eqn:Hr; [|done].
    destruct Hv as [_ Hv]. rewrite Hnone in Hv.
    destruct Hv as [? [=]]. by exists r.
  - intros Hno. destruct (visible h ds k) as [v|] eqn:Hk; [|done].
    destruct Hv as [Hv _]. destruct Hv as (r & Hin & Hr); [by eexists|].
    rewrite (Hno r Hin) in Hr. done.
Qed.

(** ** The fill registry and the association map *)

(** A composite fill key is never the reserved key of the registry: the
    reserved key has no two underscores in a row. *)
Lemma slot_key_not_reserved component_id slot_name :
  slot_key component_id slot_name ≠ _FILLED_SLOTS_CONTENT_CONTEXT_KEY.
Proof.
  unfold slot_key, _FILLED_SLOTS_CONTENT_CONTEXT_KEY. intros H.
  repeat (destruct component_id as [|? component_id]; simpl in H;
          [discriminate H | injection H as _ H]).
  destruct component_id; discriminate H.
Qed.

(** The accessors of the registry, when the registry is visible. *)
Section Registry.

Context (h : heap) (c : loc) (ds : list loc) (r : loc) (m : gmap string val).
Hypothesis Hc : h !! c = Some (OCtx ds).
Hypothesis Hds : all_dicts h ds.
Hypothesis Hreg : visible h ds _FILLED_SLOTS_CONTENT_CONTEXT_KEY = Some (VRef r).
Hypothesis Hr : h !! r = Some (ODict m).

Lemma get_slot_fill_Ok component_id slot_name :
  get_slot_fill c component_id slot_name h
  = Ok (default VNone (m !! slot_key component_id slot_name)) h.
Proof.
  unfold get_slot_fill, trace_msg.
  rewrite (bind_Ok _ _ h () h eq_refl).
  rewrite (bind_Ok _ _ _ _ _ (ctx_getitem_Ok h c ds Hc Hds _ _ Hreg)).
  rewrite (bind_Ok _ _ h r h eq_refl).
  unfold dict_get. by rewrite (bind_Ok _ _ _ _ _ (load_dict_Ok _ _ _ Hr)).
Qed.

Lemma set_slot_fill_Ok component_id slot_name value :
  set_slot_fill c component_id slot_name value h
  = Ok () (<[r := ODict (<[slot_key component_id slot_name := value]> m)]> h).
Proof.
  unfold set_slot_fill, trace_msg.
  rewrite (bind_Ok _ _ h () h eq_refl).
  rewrite (bind_Ok _ _ _ _ _ (ctx_getitem_Ok h c ds Hc Hds _ _ Hreg)).
  rewrite (bind_Ok _ _ h r h eq_refl).
  by apply dict_setitem_Ok.
Qed.

(** After [set_slot_fill] the registry is still the visible one. *)
Lemma set_slot_fill_registry key value :
  key ≠ _FILLED_SLOTS_CONTENT_CONTEXT_KEY →
  let h' := <[r := ODict (<[key := value]> m)]> h in
  h' !! c = Some (OCtx ds) ∧ all_dicts h' ds ∧
  visible h' ds _FILLED_SLOTS_CONTENT_CONTEXT_KEY = Some (VRef r) ∧
  h' !! r = Some (ODict (<[key := value]> m)).
Proof.
  intros Hkey h'. unfold h'. split_and!.
  - rewrite list_lookup_insert_ne; [done|]. by eapply lookup_kind_ne.
  - by eapply all_dicts_replace.
  - rewrite visible_setitem_ne; done.
  - by eapply lookup_replace.
Qed.

End Registry.

(** A concrete store has the shape [scope] asks for. *)
Ltac concrete_dicts := repeat (constructor; [by eexists|]); constructor.
Ltac concrete_scope := split; [reflexivity | reflexivity | reflexivity | concrete_dicts].

(** ** The last index that satisfies a predicate *)

Lemma find_last_index_None {A} (l : list A) p :
  find_last_index l p = None ↔ ∀ x, x ∈ l → p x = false.
Proof.
  induction l as [|x l IH]; simpl.
  - split; [|done]. intros _ x Hx. by apply not_elem_of_nil in Hx.
  - destruct (find_last_index l p) as [i|] eqn:Hl.
    + split; [done|]. intros Hall.
      assert (Some i = None) as [=]. apply IH. intros y Hy. apply Hall. by right.
    + destruct (p x) eqn:Hx.
      * split; [done|]. intros Hall. rewrite Hall in Hx; [done|by left].
      * split; [|done]. intros _ y Hy. apply elem_of_cons in Hy as [->|Hy]; [done|].
        by apply IH.
Qed.

Lemma find_last_index_Some {A} (l : list A) p i :
  find_last_index l p = Some i ↔
  (∃ x, l !! i = Some x ∧ p x = true) ∧
  (∀ j y, i < j → l !! j = Some y → p y = false).
Proof.
  revert i. induction l as [|x l IH]; intros i; simpl.
  - split; [done|]. by intros [(y & Hy & _) _].
  - destruct (find_last_index l p) as [i'|] eqn:Hl.
    + destruct (IH i') as [[Hat Hafter] _]; [done|]. split.
      * intros [= <-]. split; [done|]. intros [|j] y Hj Hy; [lia|].
        apply (Hafter j); [lia|done].
      * intros [(y & Hy & Hpy) Hlast]. destruct i as [|i].
        -- destruct Hat as (z & Hz & Hpz).
           rewrite (Hlast (S i') z) in Hpz; [done|lia|done].
        -- assert (Some i' = Some i) as [= ->]; [|done].
           apply IH. split; [by exists y|].
           intros j z Hj Hz. apply (Hlast (S j)); [lia|done].
    + pose proof (proj1 (find_last_index_None l p) Hl) as Hnone.
      destruct (p x) eqn:Hx.
      * split.
        -- intros [= <-]. split; [by exists x|]. intros [|j] y Hj Hy; [lia|].
           apply Hnone. by eapply list_elem_of_lookup_2.
        -- intros [(y & Hy & Hpy) _]. destruct i as [|i]; [done|].
           rewrite Hnone in Hpy; [discriminate Hpy|]. by eapply list_elem_of_lookup_2.
      * split; [done|]. intros [(y & Hy & Hpy) _]. destruct i as [|i].
        -- simpl in Hy. simplify_eq. congruence.
        -- rewrite Hnone in Hpy; [discriminate Hpy|]. by eapply list_elem_of_lookup_2.
Qed.

Lemma all_dicts_lt h ds r : all_dicts h ds → r ∈ ds → r < length h.
Proof.
  intros Hds Hin. eapply Forall_forall in Hds as [d Hd]; [|done].
  by eapply lookup_lt_Some.
Qed.

Lemma scope_top_elem h c ds top d : scope h c ds top d → top ∈ ds.
Proof.
  intros [_ Hl _ _]. apply last_Some in Hl as [ds' ->].
  apply elem_of_app. right. by left.
Qed.

(** Writing into an object allocated after the scope was set up leaves
    the scope as it is. *)
Lemma scope_replace_new h c ds top d n o :
  scope h c ds top d → n ≠ c → n ∉ ds → scope (<[n := o]> h) c ds top d.
Proof.
  intros Hs Hnc Hn. pose proof (scope_top_elem _ _ _ _ _ Hs) as Htop.
  destruct Hs as [Hc Hl Ht Hds]. split; [by rewrite list_lookup_insert_ne|done| |].
  - rewrite list_lookup_insert_ne; [done|]. by intros ->.
  - apply Forall_forall. intros r0 Hin.
    eapply Forall_forall in Hds as [d0 Hd0]; [|done]. exists d0.
    rewrite list_lookup_insert_ne; [done|]. by intros ->.
Qed.

Lemma visible_replace_new h ds n o k :
  all_dicts h ds → n ∉ ds → visible (<[n := o]> h) ds k = visible h ds k.
Proof.
  intros Hds Hn. unfold visible. rewrite find_key_replace_other; [done| |].
  - by rewrite elem_of_reverse.
  - by apply all_dicts_reverse.
Qed.

(** ** Component ids *)

Lemma set_component_id_Ok h c ds top d component_id :
  scope h c ds top d →
  let prev := default VNone (visible h ds _CURRENT_COMP_KEY) in
  set_component_id c component_id h
  = Ok () (set_top (set_top h top d _PARENT_COMP_KEY prev) top
             (<[_PARENT_COMP_KEY := prev]> d) _CURRENT_COMP_KEY (VStr component_id)).
Proof.
  intros Hs prev. unfold set_component_id.
  run_with (ctx_get_Ok h c ds (scope_ctx _ _ _ _ _ Hs) (scope_layers _ _ _ _ _ Hs)
              _CURRENT_COMP_KEY VNone).
  run_with (ctx_setitem_Ok h c ds top d _PARENT_COMP_KEY prev Hs).
  apply (ctx_setitem_Ok _ c ds). by apply scope_set_top.
Qed.

(** ** Flattening a stack *)

Lemma find_key_app h l1 l2 k :
  find_key h (l1 ++ l2) k
  = match find_key h l1 k with
    | Some None => find_key h l2 k
    | found => found
    end.
Proof.
  induction l1 as [|r l1 IH]; simpl; [done|].
  destruct (h !! r) as [[d|]|]; [|done..]. by destruct (d !! k).
Qed.

Lemma visible_cons h r d ds k :
  h !! r = Some (ODict d) → all_dicts h ds →
  visible h (r :: ds) k = match visible h ds k with
                          | Some v => Some v
                          | None => d !! k
                          end.
Proof.
  intros Hr Hds. unfold visible. rewrite reverse_cons, find_key_app.
  rewrite (find_key_visible h ds k Hds). fold (visible h ds k).
  destruct (visible h ds k); simpl; [done|].
  rewrite Hr. by destruct (d !! k).
Qed.

(** [flatten] merges the layers from the bottom up: a key of the result
    has the value it resolves to in the stack. *)
Lemma flatten_layers_visible h ds acc :
  all_dicts h ds →
  ∃ flat, flatten_layers h ds acc = Some flat ∧
          ∀ k, flat !! k = match visible h ds k with
                           | Some v => Some v
                           | None => acc !! k
                           end.
Proof.
  intros Hds. revert acc. induction Hds as [|r ds [d Hd] Hds IH]; intros acc; simpl.
  - exists acc. by split.
  - rewrite Hd. destruct (IH (d ∪ acc)) as (flat & -> & Hflat).
    exists flat. split; [done|]. intros k. rewrite Hflat.
    rewrite (visible_cons h r d ds k Hd Hds).
    destruct (visible h ds k); [done|].
    rewrite lookup_union. destruct (d !! k), (acc !! k); done.
Qed.

Lemma ctx_flatten_Ok h o ods :
  h !! o = Some (OCtx ods) → all_dicts h ods →
  ∃ flat, ctx_flatten o h = Ok (length h) (h ++ [ODict flat]) ∧
          ∀ k, flat !! k = visible h ods k.
Proof.
  intros Ho Hods. destruct (flatten_layers_visible h ods ∅ Hods) as (flat & Hflat & Hk).
  exists flat. split.
  - unfold ctx_flatten. run_with (load_dicts_Ok _ _ _ Ho).
    run_with (eq_refl : get_heap h = Ok h h). by rewrite Hflat.
  - intros k. rewrite Hk. by destruct (visible h ods k).
Qed.

(** ** New objects

    The objects allocated since the store was [h] are a list [news] after
    [h]; the [i]-th of them has the address [length h + i]. *)

Lemma lookup_new (h news : heap) i : (h ++ news) !! (length h + i) = news !! i.
Proof. rewrite lookup_app_r by lia. f_equal. lia. Qed.

Lemma alloc_new h news o :
  alloc o (h ++ news) = Ok (length h + length news) (h ++ (news ++ [o])).
Proof. unfold alloc. by rewrite length_app, app_assoc. Qed.

Lemma alloc_first h o : alloc o h = Ok (length h + 0) (h ++ [o]).
Proof. unfold alloc. by rewrite Nat.add_0_r. Qed.

Lemma load_dicts_new h news i ds :
  news !! i = Some (OCtx ds) → load_dicts (length h + i) (h ++ news) = Ok ds (h ++ news).
Proof. intros Hi. apply load_dicts_Ok. by rewrite lookup_new. Qed.

Lemma dict_copy_new h news r d :
  (h ++ news) !! r = Some (ODict d) →
  dict_copy r (h ++ news) = Ok (length h + length news) (h ++ (news ++ [ODict d])).
Proof.
  intros Hr. unfold dict_copy, dict_new. run_with (load_dict_Ok _ _ _ Hr).
  apply alloc_new.
Qed.

Lemma store_new h news i o :
  store (length h + i) o (h ++ news) = Ok () (h ++ <[i := o]> news).
Proof. unfold store. by rewrite insert_app_r. Qed.

Lemma Context_new_Ok h :
  Context_new h = Ok (length h + 1) (h ++ [ODict builtins; OCtx [length h + 0]]).
Proof.
  unfold Context_new, dict_new. run_with (alloc_first h (ODict builtins)).
  by rewrite alloc_new.
Qed.

Lemma ctx_new_Ok h o ods :
  h !! o = Some (OCtx ods) →
  ctx_new o h = Ok (length h + 1) (h ++ [ODict builtins; OCtx [length h + 0]]).
Proof.
  intros Ho. unfold ctx_new. run_with (load_dicts_Ok _ _ _ Ho). apply Context_new_Ok.
Qed.

(** [push] on a context allocated since [h]: a copy of the dictionary [r]
    becomes its top layer. *)
Lemma ctx_push_new h news i ds r d :
  news !! i = Some (OCtx ds) →
  (h ++ news) !! r = Some (ODict d) →
  ctx_push (length h + i) r (h ++ news)
  = Ok () (h ++ <[i := OCtx (ds ++ [length h + length news])]> (news ++ [ODict d])).
Proof.
  intros Hi Hr. unfold ctx_push.
  run_with (load_dicts_new h news i ds Hi).
  run_with (dict_copy_new h news r d Hr).
  apply store_new.
Qed.

(** ** The outer root context *)

Lemma is_isolated_top_level_Ok behavior h c ds outer_ctx :
  h !! c = Some (OCtx ds) → all_dicts h ds →
  is_isolated_top_level behavior c outer_ctx h
  = Ok (isolated_top_level behavior h ds outer_ctx) h.
Proof.
  intros Hc Hds. unfold is_isolated_top_level, isolated_top_level.
  run_with (eq_refl : is_true outer_ctx h = Ok (truthy h outer_ctx) h).
  destruct (truthy h outer_ctx); simpl; [|done].
  run_with (ctx_get_Ok h c ds Hc Hds _PARENT_COMP_KEY VNone).
  run_with (eq_refl : is_true (default VNone (visible h ds _PARENT_COMP_KEY)) h
                      = Ok (truthy h (default VNone (visible h ds _PARENT_COMP_KEY))) h).
  destruct (truthy h _); simpl; [done|].
  destruct behavior; simpl; [done|].
  apply ctx_contains_Ok; done.
Qed.

Lemma has_own_layer_false h outer_ctx :
  truthy h outer_ctx = false → has_own_layer outer_ctx h = Ok false h.
Proof.
  intros Hf. unfold has_own_layer.
  run_with (eq_refl : is_true outer_ctx h = Ok (truthy h outer_ctx) h).
  by rewrite Hf.
Qed.

Lemma has_own_layer_Ok h o ods :
  h !! o = Some (OCtx ods) →
  has_own_layer (VRef o) h = Ok (bool_decide (1 < length ods)) h.
Proof.
  intros Ho. unfold has_own_layer.
  run_with (eq_refl : is_true (VRef o) h = Ok (truthy h (VRef o)) h).
  simpl. rewrite Ho.
  run_with (eq_refl : the_ref (VRef o) h = Ok o h).
  by run_with (load_dicts_Ok _ _ _ Ho).
Qed.

(** The special case: the whole outer context, flattened, is the one layer
    of the outer root context above its builtins. *)
Lemma new_outer_root_context_flat behavior h c ds o ods :
  h !! c = Some (OCtx ds) → all_dicts h ds →
  h !! o = Some (OCtx ods) → all_dicts h ods →
  isolated_top_level behavior h ds (VRef o) = true →
  ∃ flat,
    new_outer_root_context behavior c (VRef o) h
    = Ok (length h + 1)
        (h ++ [ODict builtins; OCtx [length h + 0; length h + 3];
               ODict flat; ODict flat]) ∧
    ∀ k, flat !! k = visible h ods k.
Proof.
  intros Hc Hds Ho Hods Hspecial.
  set (n := length h).
  destruct (ctx_flatten_Ok (h ++ [ODict builtins; OCtx [n + 0]]) o ods)
    as (flat & Hflat & Hk); [by apply lookup_alloc|by apply all_dicts_alloc|].
  rewrite length_app, <- app_assoc in Hflat. simpl in Hflat. fold n in Hflat.
  exists flat. split.
  - unfold new_outer_root_context.
    run_with (is_isolated_top_level_Ok behavior h c ds (VRef o) Hc Hds).
    rewrite Hspecial.
    run_with (eq_refl : the_ref (VRef o) h = Ok o h).
    run_with (ctx_new_Ok h o ods Ho). fold n.
    run_with Hflat.
    by run_with (ctx_push_new h [ODict builtins; OCtx [n + 0]; ODict flat] 1
                   [n + 0] (n + 2) flat eq_refl (lookup_new h _ 2)).
  - intros k. rewrite Hk. by apply visible_alloc.
Qed.

(** The nested case: a copy of layer 1 of the outer context is the one
    layer of the outer root context above its builtins. *)
Lemma new_outer_root_context_own behavior h c ds o ods own d1 :
  h !! c = Some (OCtx ds) → all_dicts h ds →
  h !! o = Some (OCtx ods) →
  isolated_top_level behavior h ds (VRef o) = false →
  ods !! 1 = Some own → h !! own = Some (ODict d1) →
  new_outer_root_context behavior c (VRef o) h
  = Ok (length h + 1)
      (h ++ [ODict builtins; OCtx [length h + 0; length h + 2]; ODict d1]).
Proof.
  intros Hc Hds Ho Hspecial Hown Hd1.
  set (n := length h).
  unfold new_outer_root_context.
  run_with (is_isolated_top_level_Ok behavior h c ds (VRef o) Hc Hds).
  rewrite Hspecial.
  run_with (has_own_layer_Ok h o ods Ho).
  rewrite bool_decide_eq_true_2 by (apply lookup_lt_Some in Hown; lia).
  run_with (eq_refl : the_ref (VRef o) h = Ok o h).
  run_with (ctx_new_Ok h o ods Ho). fold n.
  assert (ctx_layer o 1 (h ++ [ODict builtins; OCtx [n + 0]])
          = Ok own (h ++ [ODict builtins; OCtx [n + 0]])) as Hlayer.
  { unfold ctx_layer.
    run_with (load_dicts_Ok _ _ _
                (lookup_alloc h [ODict builtins; OCtx [n + 0]] _ _ Ho)).
    by rewrite Hown. }
  run_with Hlayer.
  by run_with (ctx_push_new h [ODict builtins; OCtx [n + 0]] 1 [n + 0] own d1
                 eq_refl (lookup_alloc h _ _ _ Hd1)).
Qed.

(** The fallback: the outer root context is a new [Context()]. *)
Lemma new_outer_root_context_empty behavior h c ds outer_ctx :
  h !! c = Some (OCtx ds) → all_dicts h ds →
  isolated_top_level behavior h ds outer_ctx = false →
  has_own_layer outer_ctx h = Ok false h →
  new_outer_root_context behavior c outer_ctx h
  = Ok (length h + 1) (h ++ [ODict builtins; OCtx [length h + 0]]).
Proof.
  intros Hc Hds Hspecial Hnested. unfold new_outer_root_context.
  run_with (is_isolated_top_level_Ok behavior h c ds outer_ctx Hc Hds).
  rewrite Hspecial. run_with Hnested. apply Context_new_Ok.
Qed.

Lemma scope_replace_top h c ds top d d' :
  scope h c ds top d → scope (<[top := ODict d']> h) c ds top d'.
Proof.
  intros [Hc Hl Ht Hds]. split; [|done| |].
  - rewrite list_lookup_insert_ne; [done|]. by eapply lookup_kind_ne.
  - by eapply lookup_replace.
  - by eapply all_dicts_replace.
Qed.

(** An address the store does not have is no context of it and no layer. *)
Lemma fresh_not_scope h c ds top d n :
  scope h c ds top d → h !! n = None → n ≠ c ∧ (n ∉ ds) ∧ n ≠ top.
Proof.
  intros Hs Hn. apply lookup_ge_None in Hn. split_and!.
  - destruct Hs as [Hc _ _ _]. apply lookup_lt_Some in Hc. lia.
  - intros Hin. apply (all_dicts_lt h) in Hin; [lia|apply Hs].
  - destruct Hs as [_ _ Ht _]. apply lookup_lt_Some in Ht. lia.
Qed.

Lemma include_mapping_Ok h c ds orc dsO topO dO k :
  h !! c = Some (OCtx ds) → all_dicts h ds →
  scope h orc dsO topO dO →
  include_mapping c orc k h
  = Ok () (<[topO := ODict (include_into (visible h ds k) k dO)]> h).
Proof.
  intros Hc Hds Ho. unfold include_mapping.
  run_with (ctx_contains_Ok h c ds Hc Hds k).
  destruct (visible h ds k) as [v|] eqn:Hk; simpl.
  - run_with (ctx_getitem_Ok h c ds Hc Hds k v Hk).
    by rewrite (ctx_setitem_Ok h orc dsO topO dO k v Ho).
  - unfold ret. f_equal. symmetry. apply list_insert_id, Ho.
Qed.

(** [set_outer_root_context], once the outer root context [orc] is built:
    the two mappings visible in the context are written into the top layer
    of [orc], and [orc] is stored in the top layer of the context. *)
Lemma set_outer_root_context_Ok behavior h hA c ds top d outer_ctx orc dsO topO dO :
  scope h c ds top d →
  new_outer_root_context behavior c outer_ctx h = Ok orc hA →
  preserved h hA →
  scope hA orc dsO topO dO →
  h !! orc = None →
  h !! topO = None →
  let dO' :=
    include_into (visible h ds _FILLED_SLOTS_CONTENT_CONTEXT_KEY)
      _FILLED_SLOTS_CONTENT_CONTEXT_KEY
      (include_into (visible h ds _SLOT_COMPONENT_ASSOC_KEY)
         _SLOT_COMPONENT_ASSOC_KEY dO) in
  let hB := <[topO := ODict dO']> hA in
  set_outer_root_context behavior c outer_ctx h
  = Ok () (set_top hB top d _OUTER_ROOT_CTX_CONTEXT_KEY (VRef orc)) ∧
  scope hB c ds top d ∧
  scope hB orc dsO topO dO' ∧
  preserved h hB.
Proof.
  intros Hs Hnew Hpre Ho Horc HtopO dO' hB.
  destruct (fresh_not_scope h c ds top d topO Hs HtopO) as (HtopOc & HtopOds & _).
  assert (scope hA c ds top d) as HsA by by eapply scope_preserved.
  set (d1 := include_into (visible h ds _SLOT_COMPONENT_ASSOC_KEY)
               _SLOT_COMPONENT_ASSOC_KEY dO).
  set (h1 := <[topO := ODict d1]> hA).
  assert (scope h1 c ds top d) as Hs1 by by apply scope_replace_new.
  assert (scope h1 orc dsO topO d1) as Ho1 by by apply (scope_replace_top hA orc dsO topO dO).
  assert (hB = <[topO := ODict dO']> h1) as HhB.
  { unfold hB, h1. by rewrite list_insert_insert_eq. }
  assert (scope hB c ds top d) as HsB.
  { rewrite HhB. by apply scope_replace_new. }
  split_and!; [|done|rewrite HhB; by apply (scope_replace_top h1 orc dsO topO d1)|].
  - unfold set_outer_root_context. run_with Hnew.
    assert (include_mapping c orc _SLOT_COMPONENT_ASSOC_KEY hA = Ok () h1) as Hinc1.
    { rewrite (include_mapping_Ok hA c ds orc dsO topO dO); [|apply HsA..|done].
      unfold h1, d1. rewrite (visible_preserved h hA); [done..|apply Hs]. }
    run_with Hinc1.
    assert (include_mapping c orc _FILLED_SLOTS_CONTENT_CONTEXT_KEY h1 = Ok () hB)
      as Hinc2.
    { rewrite (include_mapping_Ok h1 c ds orc dsO topO d1); [|apply Hs1..|done].
      rewrite HhB. unfold dO', h1. fold d1.
      rewrite visible_replace_new; [|apply HsA|done].
      rewrite (visible_preserved h hA); [done..|apply Hs]. }
    run_with Hinc2.
    by apply (ctx_setitem_Ok hB c ds).
  - apply preserved_replace_new; [done|]. by apply lookup_ge_None.
Qed.

Lemma lookup_new_None (h : heap) i : h !! (length h + i) = None.
Proof. apply lookup_ge_None. lia. Qed.

(** The scope of a context allocated since [h]. *)
Ltac new_scope :=
  split;
  [ by rewrite lookup_new
  | reflexivity
  | by rewrite lookup_new
  | repeat (constructor; [eexists; by rewrite lookup_new|]); constructor ].

(** What [set_outer_root_context] leaves behind: the outer root context
    [orc] with its layers, stored in the top layer of the context, and
    every other object that was in the store untouched. *)
Lemma set_outer_root_context_stored behavior h hA c ds top d outer_ctx
    orc dsO topO dO :
  scope h c ds top d →
  new_outer_root_context behavior c outer_ctx h = Ok orc hA →
  preserved h hA →
  scope hA orc dsO topO dO →
  h !! orc = None →
  (∀ r, r ∈ dsO → h !! r = None) →
  let dO' :=
    include_into (visible h ds _FILLED_SLOTS_CONTENT_CONTEXT_KEY)
      _FILLED_SLOTS_CONTENT_CONTEXT_KEY
      (include_into (visible h ds _SLOT_COMPONENT_ASSOC_KEY)
         _SLOT_COMPONENT_ASSOC_KEY dO) in
  ∃ h',
    set_outer_root_context behavior c outer_ctx h = Ok () h' ∧
    scope h' c ds top (<[_OUTER_ROOT_CTX_CONTEXT_KEY := VRef orc]> d) ∧
    scope h' orc dsO topO dO' ∧
    unchanged top h h' ∧
    (∀ r o, r ≠ top → r ≠ topO → hA !! r = Some o → h' !! r = Some o).
Proof.
  intros Hs Hnew Hpre Ho Horc Hfresh dO'.
  assert (h !! topO = None) as HtopO.
  { apply Hfresh. by eapply scope_top_elem. }
  destruct (set_outer_root_context_Ok behavior h hA c ds top d outer_ctx
              orc dsO topO dO Hs Hnew Hpre Ho Horc HtopO)
    as (Hrun & HsB & HoB & HpreB).
  fold dO' in Hrun, HoB, HpreB, HsB.
  set (hB := <[topO := ODict dO']> hA) in *.
  exists (set_top hB top d _OUTER_ROOT_CTX_CONTEXT_KEY (VRef orc)).
  split_and!.
  - done.
  - by apply scope_set_top.
  - unfold set_top. apply scope_replace_new; [done| |].
    + intros ->. destruct Hs as [_ _ Ht _]. congruence.
    + intros Hin. apply Hfresh in Hin. destruct Hs as [_ _ Ht _]. congruence.
  - eapply unchanged_trans; [by apply preserved_unchanged|].
    apply unchanged_set_top.
  - intros r o Hr HrO HA. unfold set_top, hB.
    by rewrite !list_lookup_insert_ne.
Qed.

(** [set_outer_root_context] does not fail, and but for the key it writes
    into the top layer, the context is as it was. *)
Lemma set_outer_root_context_frame behavior h c ds top d outer_ctx :
  scope h c ds top d →
  outer_ok h outer_ctx →
  ∃ h' orc,
    set_outer_root_context behavior c outer_ctx h = Ok () h' ∧
    h !! orc = None ∧
    scope h' c ds top (<[_OUTER_ROOT_CTX_CONTEXT_KEY := VRef orc]> d) ∧
    unchanged top h h'.
Proof.
  intros Hs Hok.
  pose proof (scope_ctx _ _ _ _ _ Hs) as Hc.
  pose proof (scope_layers _ _ _ _ _ Hs) as Hds.
  assert (∀ hA dsO topO dO,
            new_outer_root_context behavior c outer_ctx h
            = Ok (length h + 1) hA →
            preserved h hA →
            scope hA (length h + 1) dsO topO dO →
            (∀ r, r ∈ dsO → h !! r = None) →
            ∃ h' orc,
              set_outer_root_context behavior c outer_ctx h = Ok () h' ∧
              h !! orc = None ∧
              scope h' c ds top (<[_OUTER_ROOT_CTX_CONTEXT_KEY := VRef orc]> d) ∧
              unchanged top h h') as Hfinish.
  { intros hA dsO topO dO Hnew Hpre Ho Hfresh.
    destruct (set_outer_root_context_stored behavior h hA c ds top d outer_ctx
                (length h + 1) dsO topO dO Hs Hnew Hpre Ho
                (lookup_new_None h 1) Hfresh)
      as (h' & Hrun & Hs' & _ & Hun & _).
    exists h', (length h + 1). split_and!; [done|apply lookup_new_None|done|done]. }
  destruct (isolated_top_level behavior h ds outer_ctx) eqn:Hspecial.
  - (* the special case needs a true [outer_ctx] *)
    destruct Hok as [Hfalse|(o & ods & -> & Ho & Hods)].
    { unfold isolated_top_level in Hspecial. by rewrite Hfalse in Hspecial. }
    destruct (new_outer_root_context_flat behavior h c ds o ods Hc Hds Ho Hods Hspecial)
      as (flat & Hnew & _).
    eapply Hfinish; [exact Hnew|apply preserved_alloc|new_scope|].
    intros r Hr. repeat (apply elem_of_cons in Hr as [->|Hr]; [apply lookup_new_None|]).
    by apply not_elem_of_nil in Hr.
  - destruct Hok as [Hfalse|(o & ods & -> & Ho & Hods)].
    + eapply Hfinish;
        [by apply (new_outer_root_context_empty behavior h c ds outer_ctx Hc Hds Hspecial),
              has_own_layer_false
        |apply preserved_alloc|new_scope|].
      intros r Hr. repeat (apply elem_of_cons in Hr as [->|Hr]; [apply lookup_new_None|]).
      by apply not_elem_of_nil in Hr.
    + destruct (ods !! 1) as [own|] eqn:Hown.
      * assert (∃ d1, h !! own = Some (ODict d1)) as [d1 Hd1].
        { eapply Forall_forall in Hods; [exact Hods|]. by eapply list_elem_of_lookup_2. }
        eapply Hfinish;
          [by apply (new_outer_root_context_own behavior h c ds o ods own d1)
          |apply preserved_alloc|new_scope|].
        intros r Hr. repeat (apply elem_of_cons in Hr as [->|Hr]; [apply lookup_new_None|]).
        by apply not_elem_of_nil in Hr.
      * eapply Hfinish;
          [apply (new_outer_root_context_empty behavior h c ds (VRef o) Hc Hds Hspecial)
          |apply preserved_alloc|new_scope|].
        { rewrite (has_own_layer_Ok h o ods Ho). f_equal.
          apply bool_decide_eq_false_2. apply lookup_ge_None in Hown. lia. }
        intros r Hr. repeat (apply elem_of_cons in Hr as [->|Hr]; [apply lookup_new_None|]).
        by apply not_elem_of_nil in Hr.
Qed.

(** ** [prepare_context], step by step

    Every step of [prepare_context] allocates objects or writes a key into
    the top layer of the context: the context keeps its stack, and the
    objects that were in the store, the top layer apart, stay as they
    were. *)

Lemma unchanged_fresh top h h' n :
  unchanged top h h' → is_Some (h' !! top) → h' !! n = None → h !! n = None.
Proof.
  intros Hun Htop Hn. destruct (h !! n) as [o|] eqn:Ho; [|done].
  destruct (decide (n = top)) as [->|Hne].
  - rewrite Hn in Htop. by destruct Htop.
  - apply Hun in Ho; [congruence|done].
Qed.

(** A key resolves as before when the top layer has kept its entry. *)
Lemma visible_unchanged h h' c ds top d d' k :
  scope h c ds top d → scope h' c ds top d' → unchanged top h h' →
  d' !! k = d !! k →
  visible h' ds k = visible h ds k.
Proof.
  intros Hs Hs' Hun Hk. unfold visible. rewrite (find_key_ext h h'); [done| |].
  - intros r d0 _ Hd0. destruct (decide (r = top)) as [->|Hne].
    + exists d'. split; [apply Hs'|].
      destruct Hs as [_ _ Ht _]. by simplify_eq.
    + exists d0. split; [by apply Hun|done].
  - apply all_dicts_reverse, Hs.
Qed.

Lemma init_mapping_Ok h c ds top d k :
  scope h c ds top d →
  init_mapping c k h
  = Ok () (match visible h ds k with
           | Some _ => h
           | None => set_top (h ++ [ODict ∅]) top d k (VRef (length h))
           end).
Proof.
  intros Hs. unfold init_mapping.
  run_with (ctx_contains_Ok h c ds (scope_ctx _ _ _ _ _ Hs) (scope_layers _ _ _ _ _ Hs) k).
  destruct (visible h ds k) as [v|] eqn:Hk; simpl; [done|].
  unfold dict_new. run_with (eq_refl : alloc (ODict ∅) h = Ok (length h) (h ++ [ODict ∅])).
  apply (ctx_setitem_Ok _ c ds). by apply scope_alloc.
Qed.

(** The copy made inside a loop: a clone of the visible association map
    becomes the map of the top layer. *)
Lemma forloop_clone_Ok h c ds top d r m :
  scope h c ds top d →
  visible h ds _SLOT_COMPONENT_ASSOC_KEY = Some (VRef r) →
  h !! r = Some (ODict m) →
  (let* assoc := ctx_getitem c _SLOT_COMPONENT_ASSOC_KEY in
   let* r := the_ref assoc in
   let* clone := dict_copy r in
   ctx_setitem c _SLOT_COMPONENT_ASSOC_KEY (VRef clone)) h
  = Ok () (set_top (h ++ [ODict m]) top d _SLOT_COMPONENT_ASSOC_KEY (VRef (length h))).
Proof.
  intros Hs Hvis Hr.
  run_with (ctx_getitem_Ok h c ds (scope_ctx _ _ _ _ _ Hs)
              (scope_layers _ _ _ _ _ Hs) _ _ Hvis).
  run_with (eq_refl : the_ref (VRef r) h = Ok r h).
  run_with (dict_copy_Ok _ _ _ Hr).
  apply (ctx_setitem_Ok _ c ds). by apply scope_alloc.
Qed.

Lemma scope_top_lt h c ds top d : scope h c ds top d → top ≠ length h.
Proof. intros [_ _ Ht _]. apply lookup_lt_Some in Ht. lia. Qed.

Lemma outer_step behavior h c ds top d outer_context :
  scope h c ds top d →
  outer_ok h outer_context →
  ∃ h' d',
    (match outer_context with
     | VNone => ret ()
     | _ => set_outer_root_context behavior c outer_context
     end) h = Ok () h' ∧
    scope h' c ds top d' ∧
    unchanged top h h' ∧
    (∀ k, k ≠ _OUTER_ROOT_CTX_CONTEXT_KEY → d' !! k = d !! k).
Proof.
  intros Hs Hok.
  destruct (set_outer_root_context_frame behavior h c ds top d outer_context Hs Hok)
    as (h' & orc & Hrun & _ & Hs' & Hun).
  assert (∀ k, k ≠ _OUTER_ROOT_CTX_CONTEXT_KEY →
               <[_OUTER_ROOT_CTX_CONTEXT_KEY := VRef orc]> d !! k = d !! k) as Hkeys.
  { intros k Hk. by rewrite lookup_insert_ne. }
  destruct outer_context; try by eauto 10.
  exists h, d. split_and!; [done|done|apply unchanged_refl|done].
Qed.

Lemma init_mapping_step h c ds top d k :
  scope h c ds top d →
  ∃ h' d',
    init_mapping c k h = Ok () h' ∧
    scope h' c ds top d' ∧
    unchanged top h h' ∧
    (∀ k', k' ≠ k → d' !! k' = d !! k') ∧
    match visible h ds k with
    | Some _ => h' = h ∧ d' = d
    | None => d' !! k = Some (VRef (length h)) ∧
              h' !! length h = Some (ODict ∅)
    end.
Proof.
  intros Hs. rewrite (init_mapping_Ok h c ds top d k Hs).
  destruct (visible h ds k) as [v|].
  - exists h, d. split_and!; [done|done|apply unchanged_refl|done|done|done].
  - eexists _, _. split_and!.
    + done.
    + by apply scope_set_top, scope_alloc.
    + eapply unchanged_trans; [apply unchanged_alloc|apply unchanged_set_top].
    + intros k' Hk'. by rewrite lookup_insert_ne.
    + by rewrite lookup_insert_eq.
    + unfold set_top. rewrite list_lookup_insert_ne; [apply lookup_alloc_new|].
      by eapply scope_top_lt.
Qed.

Lemma forloop_step h c ds top d :
  scope h c ds top d →
  (is_Some (visible h ds "forloop") →
   ∃ r m, visible h ds _SLOT_COMPONENT_ASSOC_KEY = Some (VRef r) ∧
          h !! r = Some (ODict m)) →
  ∃ h' d',
    (if bool_decide (is_Some (visible h ds "forloop")) then
       let* assoc := ctx_getitem c _SLOT_COMPONENT_ASSOC_KEY in
       let* r := the_ref assoc in
       let* clone := dict_copy r in
       ctx_setitem c _SLOT_COMPONENT_ASSOC_KEY (VRef clone)
     else ret ()) h = Ok () h' ∧
    scope h' c ds top d' ∧
    unchanged top h h' ∧
    (∀ k', k' ≠ _SLOT_COMPONENT_ASSOC_KEY → d' !! k' = d !! k') ∧
    match visible h ds "forloop" with
    | Some _ =>
        ∃ r m, visible h ds _SLOT_COMPONENT_ASSOC_KEY = Some (VRef r) ∧
               h !! r = Some (ODict m) ∧
               d' !! _SLOT_COMPONENT_ASSOC_KEY = Some (VRef (length h)) ∧
               h' !! length h = Some (ODict m)
    | None => h' = h ∧ d' = d
    end.
Proof.
  intros Hs Hassoc. destruct (visible h ds "forloop") as [mark|]; simpl.
  - destruct Hassoc as (r & m & Hvis & Hr); [done|].
    rewrite (forloop_clone_Ok h c ds top d r m Hs Hvis Hr).
    eexists _, _. split_and!.
    + done.
    + by apply scope_set_top, scope_alloc.
    + eapply unchanged_trans; [apply unchanged_alloc|apply unchanged_set_top].
    + intros k' Hk'. by rewrite lookup_insert_ne.
    + exists r, m. split_and!; [done|done|by rewrite lookup_insert_eq|].
      unfold set_top. rewrite list_lookup_insert_ne; [apply lookup_alloc_new|].
      by eapply scope_top_lt.
  - exists h, d. split_and!; [done|done|apply unchanged_refl|done|done|done].
Qed.

Lemma set_component_id_step h c ds top d component_id :
  scope h c ds top d →
  ∃ h' d',
    set_component_id c component_id h = Ok () h' ∧
    scope h' c ds top d' ∧
    unchanged top h h' ∧
    (∀ k, k ≠ _PARENT_COMP_KEY → k ≠ _CURRENT_COMP_KEY → d' !! k = d !! k) ∧
    d' !! _CURRENT_COMP_KEY = Some (VStr component_id) ∧
    d' !! _PARENT_COMP_KEY = Some (default VNone (visible h ds _CURRENT_COMP_KEY)).
Proof.
  intros Hs. rewrite (set_component_id_Ok h c ds top d component_id Hs).
  eexists _, _. split_and!.
  - done.
  - by apply scope_set_top, scope_set_top.
  - eapply unchanged_trans; apply unchanged_set_top.
  - intros k Hk1 Hk2. by rewrite !lookup_insert_ne.
  - by rewrite lookup_insert_eq.
  - rewrite lookup_insert_ne by done. by rewrite lookup_insert_eq.
Qed.

(** [prepare_context] as a whole: it does not fail, it changes no object
    of the store but the top layer of the context, and in that layer it
    records the component ids and, as the case may be, an association map. *)
Lemma prepare_context_spec behavior h c ds top d outer_context component_id :
  scope h c ds top d →
  outer_ok h outer_context →
  (is_Some (visible h ds "forloop") →
   ∀ v, visible h ds _SLOT_COMPONENT_ASSOC_KEY = Some v →
        ∃ r m, v = VRef r ∧ h !! r = Some (ODict m) ∧ r ≠ top) →
  ∃ h' d',
    prepare_context behavior c outer_context component_id h = Ok () h' ∧
    scope h' c ds top d' ∧
    unchanged top h h' ∧
    (∀ k, k ≠ _OUTER_ROOT_CTX_CONTEXT_KEY → k ≠ _SLOT_COMPONENT_ASSOC_KEY →
          k ≠ _FILLED_SLOTS_CONTENT_CONTEXT_KEY → k ≠ _PARENT_COMP_KEY →
          k ≠ _CURRENT_COMP_KEY → d' !! k = d !! k) ∧
    d' !! _CURRENT_COMP_KEY = Some (VStr component_id) ∧
    d' !! _PARENT_COMP_KEY = Some (default VNone (visible h ds _CURRENT_COMP_KEY)) ∧
    match visible h ds "forloop", visible h ds _SLOT_COMPONENT_ASSOC_KEY with
    | Some _, Some v =>
        ∃ clone r m,
          v = VRef r ∧ h !! r = Some (ODict m) ∧ h !! clone = None ∧
          d' !! _SLOT_COMPONENT_ASSOC_KEY = Some (VRef clone) ∧
          h' !! clone = Some (ODict m)
    | Some _, None =>
        ∃ clone,
          h !! clone = None ∧
          d' !! _SLOT_COMPONENT_ASSOC_KEY = Some (VRef clone) ∧
          h' !! clone = Some (ODict ∅)
    | None, Some _ =>
        d' !! _SLOT_COMPONENT_ASSOC_KEY = d !! _SLOT_COMPONENT_ASSOC_KEY
    | None, None =>
        ∃ initial,
          h !! initial = None ∧
          d' !! _SLOT_COMPONENT_ASSOC_KEY = Some (VRef initial) ∧
          h' !! initial = Some (ODict ∅)
    end.
Proof.
  intros Hs Hok Hassoc.
  destruct (outer_step behavior h c ds top d outer_context Hs Hok)
    as (h1 & d1 & Hrun1 & Hs1 & Hun1 & Hk1).
  destruct (init_mapping_step h1 c ds top d1 _SLOT_COMPONENT_ASSOC_KEY Hs1)
    as (h2 & d2 & Hrun2 & Hs2 & Hun2 & Hk2 & Hinit).
  destruct (init_mapping_step h2 c ds top d2 _FILLED_SLOTS_CONTENT_CONTEXT_KEY Hs2)
    as (h3 & d3 & Hrun3 & Hs3 & Hun3 & Hk3 & _).
  assert (∀ k, k ≠ _OUTER_ROOT_CTX_CONTEXT_KEY →
               visible h1 ds k = visible h ds k) as Hv1.
  { intros k Hk. eapply visible_unchanged; eauto. }
  assert (∀ k, k ≠ _SLOT_COMPONENT_ASSOC_KEY →
               visible h2 ds k = visible h1 ds k) as Hv2.
  { intros k Hk. eapply visible_unchanged; eauto. }
  assert (∀ k, k ≠ _FILLED_SLOTS_CONTENT_CONTEXT_KEY →
               visible h3 ds k = visible h2 ds k) as Hv3.
  { intros k Hk. eapply visible_unchanged; eauto. }
  assert (unchanged top h h3) as Hun03.
  { eapply unchanged_trans; [exact Hun1|]. by eapply unchanged_trans. }
  assert (visible h3 ds "forloop" = visible h ds "forloop") as Hfor.
  { by rewrite Hv3, Hv2, Hv1. }
  (* the association map after the two initialisations *)
  assert (match visible h ds _SLOT_COMPONENT_ASSOC_KEY with
          | Some v =>
              visible h3 ds _SLOT_COMPONENT_ASSOC_KEY = Some v ∧
              d3 !! _SLOT_COMPONENT_ASSOC_KEY = d !! _SLOT_COMPONENT_ASSOC_KEY
          | None =>
              visible h3 ds _SLOT_COMPONENT_ASSOC_KEY = Some (VRef (length h1)) ∧
              d3 !! _SLOT_COMPONENT_ASSOC_KEY = Some (VRef (length h1)) ∧
              h3 !! length h1 = Some (ODict ∅) ∧
              h !! length h1 = None
          end) as Hmap.
  { rewrite <- (Hv1 _SLOT_COMPONENT_ASSOC_KEY) by done.
    rewrite (Hv3 _SLOT_COMPONENT_ASSOC_KEY) by done.
    rewrite (Hk3 _SLOT_COMPONENT_ASSOC_KEY) by done.
    destruct (visible h1 ds _SLOT_COMPONENT_ASSOC_KEY) as [v|] eqn:Hv.
    - destruct Hinit as [-> ->]. split; [done|]. by apply Hk1.
    - destruct Hinit as [Hd2 Hnew]. split_and!.
      + by eapply visible_top.
      + done.
      + apply Hun3; [|done]. apply not_eq_sym. by eapply scope_top_lt.
      + eapply (unchanged_fresh top h h1); [done|by eexists; apply Hs1|].
        by apply lookup_ge_None. }
  assert (is_Some (visible h3 ds "forloop") →
          ∃ r m, visible h3 ds _SLOT_COMPONENT_ASSOC_KEY = Some (VRef r) ∧
                 h3 !! r = Some (ODict m)) as Hassoc3.
  { rewrite Hfor. intros Hin.
    destruct (visible h ds _SLOT_COMPONENT_ASSOC_KEY) as [v|] eqn:Hv.
    - destruct (Hassoc Hin v eq_refl) as (r & m & -> & Hr & Hne).
      exists r, m. split; [apply Hmap|]. by apply Hun03.
    - exists (length h1), ∅. split; apply Hmap. }
  destruct (forloop_step h3 c ds top d3 Hs3 Hassoc3)
    as (h4 & d4 & Hrun4 & Hs4 & Hun4 & Hk4 & Hclone).
  destruct (set_component_id_step h4 c ds top d4 component_id Hs4)
    as (h5 & d5 & Hrun5 & Hs5 & Hun5 & Hk5 & Hcur & Hpar).
  assert (visible h4 ds _CURRENT_COMP_KEY = visible h ds _CURRENT_COMP_KEY) as Hprev.
  { rewrite (visible_unchanged h3 h4 c ds top d3 d4) by eauto.
    by rewrite Hv3, Hv2, Hv1. }
  assert (d5 !! _SLOT_COMPONENT_ASSOC_KEY = d4 !! _SLOT_COMPONENT_ASSOC_KEY) as Hd5
    by by apply Hk5.
  exists h5, d5. split_and!.
  - unfold prepare_context. run_with Hrun1. run_with Hrun2. run_with Hrun3.
    run_with (ctx_contains_Ok h3 c ds (scope_ctx _ _ _ _ _ Hs3)
                (scope_layers _ _ _ _ _ Hs3) "forloop").
    by run_with Hrun4.
  - done.
  - eapply unchanged_trans; [exact Hun03|]. by eapply unchanged_trans.
  - intros k Ho Ha Hf Hp Hcu.
    by rewrite Hk5, Hk4, Hk3, Hk2, Hk1.
  - done.
  - by rewrite Hpar, Hprev.
  - rewrite Hfor in Hclone. rewrite Hd5.
    destruct (visible h ds "forloop") as [mark|] eqn:Hmark.
    + destruct Hclone as (r' & m' & Hvis' & Hr' & Hd4 & Hnew).
      assert (h !! length h3 = None) as Hfresh.
      { eapply (unchanged_fresh top h h3); [done|by eexists; apply Hs3|].
        by apply lookup_ge_None. }
      assert (h5 !! length h3 = Some (ODict m')) as Hnew5.
      { apply Hun5; [|done]. apply not_eq_sym. by eapply scope_top_lt. }
      destruct (visible h ds _SLOT_COMPONENT_ASSOC_KEY) as [v|] eqn:Hv.
      * destruct (Hassoc (ltac:(by eexists)) v eq_refl) as (r & m & -> & Hr & Hne).
        destruct Hmap as [Hvis3 _]. rewrite Hvis3 in Hvis'. injection Hvis' as <-.
        apply (Hun03 r _ Hne) in Hr as Hr3. rewrite Hr3 in Hr'. injection Hr' as <-.
        by exists (length h3), r, m.
      * destruct Hmap as (Hvis3 & _ & Hempty & _).
        rewrite Hvis3 in Hvis'. injection Hvis' as <-.
        rewrite Hempty in Hr'. injection Hr' as <-.
        by exists (length h3).
    + destruct Hclone as [-> ->].
      destruct (visible h ds _SLOT_COMPONENT_ASSOC_KEY) as [v|] eqn:Hv.
      * apply Hmap.
      * destruct Hmap as (_ & Hd3 & Hempty & Hfresh).
        exists (length h1). split_and!; [done|done|].
        apply Hun5; [|done]. apply not_eq_sym. by eapply scope_top_lt.
Qed.

(** ** Pushing and popping a layer *)

Lemma ctx_not_layer h c ods ds :
  h !! c = Some (OCtx ods) → all_dicts h ds → c ∉ ds.
Proof.
  intros Hc Hds Hin. eapply Forall_forall in Hds as [d Hd]; [|done]. congruence.
Qed.

Lemma all_dicts_replace_ctx h c ods ods' ds :
  h !! c = Some (OCtx ods) → all_dicts h ds →
  all_dicts (<[c := OCtx ods']> h) ds.
Proof.
  intros Hc Hds. apply Forall_forall. intros r Hin.
  pose proof (ctx_not_layer h c ods ds Hc Hds) as Hne.
  eapply Forall_forall in Hds as [d Hd]; [|done]. exists d.
  rewrite list_lookup_insert_ne; [done|]. by intros ->.
Qed.

Lemma visible_replace_ctx h c ods ods' ds k :
  h !! c = Some (OCtx ods) → all_dicts h ds →
  visible (<[c := OCtx ods']> h) ds k = visible h ds k.
Proof.
  intros Hc Hds. apply visible_replace_new; [done|]. by eapply ctx_not_layer.
Qed.

Lemma push_step h c ds top d :
  scope h c ds top d →
  ∃ h',
    ctx_push_empty c h = Ok () h' ∧
    scope h' c (ds ++ [length h]) (length h) ∅ ∧
    (∀ k, visible h' (ds ++ [length h]) k = visible h ds k) ∧
    (∀ r o, r ≠ c → h !! r = Some o → h' !! r = Some o).
Proof.
  intros Hs. pose proof Hs as [Hc Hl Ht Hds].
  exists (<[c := OCtx (ds ++ [length h])]> (h ++ [ODict ∅])).
  assert (c ≠ length h) as Hcn by (apply lookup_lt_Some in Hc; lia).
  assert (all_dicts (<[c := OCtx (ds ++ [length h])]> (h ++ [ODict ∅])) ds) as Hds'.
  { eapply all_dicts_replace_ctx; [by apply lookup_alloc|by apply all_dicts_alloc]. }
  assert ((<[c := OCtx (ds ++ [length h])]> (h ++ [ODict ∅])) !! length h
          = Some (ODict ∅)) as Hnew.
  { rewrite list_lookup_insert_ne by done. apply lookup_alloc_new. }
  split_and!.
  - unfold ctx_push_empty, dict_new. run_with (load_dicts_Ok _ _ _ Hc).
    by run_with (eq_refl : alloc (ODict ∅) h = Ok (length h) (h ++ [ODict ∅])).
  - split.
    + eapply lookup_replace. by apply lookup_alloc.
    + by rewrite last_snoc.
    + done.
    + apply Forall_app. split; [done|]. constructor; [by eexists|constructor].
  - intros k. unfold visible at 1. rewrite reverse_snoc. simpl. rewrite Hnew.
    rewrite lookup_empty. fold (visible (<[c := OCtx (ds ++ [length h])]> (h ++ [ODict ∅])) ds k).
    rewrite (visible_replace_ctx _ c ds); [|by apply lookup_alloc|by apply all_dicts_alloc].
    by apply visible_alloc.
  - intros r o Hr Ho. rewrite list_lookup_insert_ne by done. by apply lookup_alloc.
Qed.

Lemma pop_step h c ds top d below d_below :
  scope h c (ds ++ [top]) top d →
  last ds = Some below →
  h !! below = Some (ODict d_below) →
  ctx_pop c h = Ok top (<[c := OCtx ds]> h) ∧
  scope (<[c := OCtx ds]> h) c ds below d_below.
Proof.
  intros [Hc Hl Ht Hds] Hbelow Hd. apply Forall_app in Hds as [Hds _]. split.
  - unfold ctx_pop. run_with (load_dicts_Ok _ _ _ Hc).
    rewrite bool_decide_eq_false_2.
    + rewrite last_snoc.
      run_with (eq_refl : store c (OCtx (removelast (ds ++ [top]))) h
                          = Ok () (<[c := OCtx (removelast (ds ++ [top]))]> h)).
      by rewrite removelast_last.
    + rewrite length_app. simpl. apply last_Some in Hbelow as [ds' ->].
      rewrite length_app. simpl. lia.
  - split.
    + by eapply lookup_replace.
    + done.
    + rewrite list_lookup_insert_ne; [done|]. apply not_eq_sym.
      by eapply lookup_kind_ne.
    + by eapply all_dicts_replace_ctx.
Qed.

(** ** Entering a component *)

Lemma context_or_none_outer_ok h v : context_or_none h v → outer_ok h v.
Proof.
  intros [->|(o & ods & -> & Ho & Hods)]; [by left|].
  right. by exists o, ods.
Qed.

Lemma context_or_none_push h h' c ds top d v :
  scope h c ds top d →
  h' !! c = Some (OCtx (ds ++ [length h])) →
  h' !! length h = Some (ODict ∅) →
  (∀ r o, r ≠ c → h !! r = Some o → h' !! r = Some o) →
  context_or_none h v → context_or_none h' v.
Proof.
  intros Hs Hc' Hnew Hframe [->|(o & ods & -> & Ho & Hods)]; [by left|].
  pose proof Hs as [Hc _ _ Hds]. right.
  assert (∀ l, all_dicts h l → all_dicts h' l) as Hkeep.
  { intros l Hl. apply Forall_forall. intros r Hin.
    pose proof (ctx_not_layer h c ds l Hc Hl) as Hne.
    eapply Forall_forall in Hl as [d0 Hd0]; [|done]. exists d0.
    apply Hframe; [|done]. by intros ->. }
  destruct (decide (o = c)) as [->|Hne].
  - exists c, (ds ++ [length h]). split_and!; [done|done|].
    apply Forall_app. split; [by apply Hkeep|].
    constructor; [by eexists|constructor].
  - exists o, ods. split_and!; [done|by apply Hframe|by apply Hkeep].
Qed.

Lemma context_or_none_unchanged h h' top d d' v :
  unchanged top h h' →
  h !! top = Some (ODict d) →
  h' !! top = Some (ODict d') →
  context_or_none h v → context_or_none h' v.
Proof.
  intros Hun Ht Ht' [->|(o & ods & -> & Ho & Hods)]; [by left|].
  right. exists o, ods. split_and!; [done| |].
  - apply Hun; [|done]. intros ->. congruence.
  - eapply Forall_impl; [exact Hods|]. simpl. intros r [d0 Hd0].
    destruct (decide (r = top)) as [->|Hne]; [by eexists|].
    exists d0. by apply Hun.
Qed.

Lemma assoc_ok_push h h' c ds top d :
  scope h c ds top d →
  (∀ k, visible h' (ds ++ [length h]) k = visible h ds k) →
  (∀ r o, r ≠ c → h !! r = Some o → h' !! r = Some o) →
  assoc_ok h ds top → assoc_ok h' (ds ++ [length h]) (length h).
Proof.
  intros Hs Hvis Hframe Hok. unfold assoc_ok. rewrite !Hvis.
  intros Hin v Hv. destruct (Hok Hin v Hv) as (r & m & -> & Hr & Hne).
  exists r, m. split_and!; [done| |].
  - apply Hframe; [|done]. intros ->. destruct Hs as [Hc _ _ _]. congruence.
  - apply lookup_lt_Some in Hr. lia.
Qed.

(** [prepare_context] on a scope: it returns, the top layer shows the new
    component id and, as its parent, the id that was current; the scope
    can be entered again. *)
Lemma enter_step behavior h c ds top d outer_context component_id :
  scope h c ds top d →
  context_or_none h outer_context →
  assoc_ok h ds top →
  ∃ h' d',
    prepare_context behavior c outer_context component_id h = Ok () h' ∧
    scope h' c ds top d' ∧
    unchanged top h h' ∧
    d' !! _CURRENT_COMP_KEY = Some (VStr component_id) ∧
    d' !! _PARENT_COMP_KEY = Some (default VNone (visible h ds _CURRENT_COMP_KEY)) ∧
    assoc_ok h' ds top.
Proof.
  intros Hs Hok Hassoc.
  destruct (prepare_context_spec behavior h c ds top d outer_context component_id
              Hs (context_or_none_outer_ok _ _ Hok) Hassoc)
    as (h' & d' & Hrun & Hs' & Hun & Hkeys & Hcur & Hpar & Hmap).
  exists h', d'. split_and!; [done..|].
  assert (visible h' ds "forloop" = visible h ds "forloop") as Hfor.
  { eapply visible_unchanged; eauto. }
  unfold assoc_ok. rewrite Hfor. intros [mark Hmark] v Hv.
  rewrite Hmark in Hmap.
  assert (∃ clone m, h !! clone = None ∧
                     d' !! _SLOT_COMPONENT_ASSOC_KEY = Some (VRef clone) ∧
                     h' !! clone = Some (ODict m)) as (clone & m & Hfresh & Hd' & Hclone).
  { destruct (visible h ds _SLOT_COMPONENT_ASSOC_KEY).
    - destruct Hmap as (clone & r & m & _ & _ & ? & ? & ?). by exists clone, m.
    - destruct Hmap as (clone & ? & ? & ?). by exists clone, ∅. }
  rewrite (visible_top h' c ds top d' _ _ Hs' Hd') in Hv. injection Hv as <-.
  exists clone, m. split_and!; [done|done|].
  intros ->. destruct Hs as [_ _ Ht _]. congruence.
Qed.

Lemma component_ids_Ok h c ds top d current parent :
  scope h c ds top d →
  d !! _CURRENT_COMP_KEY = Some current →
  d !! _PARENT_COMP_KEY = Some parent →
  component_ids c h = Ok (current, parent) h.
Proof.
  intros Hs Hcur Hpar. unfold component_ids.
  run_with (ctx_get_Ok h c ds (scope_ctx _ _ _ _ _ Hs) (scope_layers _ _ _ _ _ Hs)
              _CURRENT_COMP_KEY VNone).
  run_with (ctx_get_Ok h c ds (scope_ctx _ _ _ _ _ Hs) (scope_layers _ _ _ _ _ Hs)
              _PARENT_COMP_KEY VNone).
  by rewrite (visible_top h c ds top d _ _ Hs Hcur),
             (visible_top h c ds top d _ _ Hs Hpar).
Qed.

(** * The properties of the specification *)

(** C6.  [get_slot_component_association(context, slot_id)] is
    [context[_SLOT_COMPONENT_ASSOC_KEY][slot_id]]: when the visible
    association map binds [slot_id] it returns the bound component id and
    leaves the store as it is; when the visible map has no binding for
    [slot_id], or no layer has an association map at all, it raises.  The
    error the code raises is Python's [KeyError] (on the slot id, or on the
    reserved key), which is what the spec calls [AssociationNotFoundError]. *)
Theorem get_slot_component_association_bound_or_raises
    (h : heap) (c : loc) (ds : list loc) (slot_id : string) :
  h !! c = Some (OCtx ds) →
  all_dicts h ds →
  (∀ r m v,
     visible h ds _SLOT_COMPONENT_ASSOC_KEY = Some (VRef r) →
     h !! r = Some (ODict m) →
     m !! slot_id = Some v →
     get_slot_component_association c slot_id h = Ok v h) ∧
  (∀ r m,
     visible h ds _SLOT_COMPONENT_ASSOC_KEY = Some (VRef r) →
     h !! r = Some (ODict m) →
     m !! slot_id = None →
     get_slot_component_association c slot_id h = Raise (KeyError slot_id) h) ∧
  (visible h ds _SLOT_COMPONENT_ASSOC_KEY = None →
   get_slot_component_association c slot_id h
   = Raise (KeyError _SLOT_COMPONENT_ASSOC_KEY) h).
Proof.
  intros Hc Hds. unfold get_slot_component_association. split_and!.
  - intros r m v Hvis Hr Hm.
    rewrite (bind_Ok _ _ _ _ _ (ctx_getitem_Ok h c ds Hc Hds _ _ Hvis)).
    rewrite (bind_Ok _ _ h r h eq_refl). unfold dict_getitem.
    by rewrite (bind_Ok _ _ _ _ _ (load_dict_Ok _ _ _ Hr)), Hm.
  - intros r m Hvis Hr Hm.
    rewrite (bind_Ok _ _ _ _ _ (ctx_getitem_Ok h c ds Hc Hds _ _ Hvis)).
    rewrite (bind_Ok _ _ h r h eq_refl). unfold dict_getitem.
    by rewrite (bind_Ok _ _ _ _ _ (load_dict_Ok _ _ _ Hr)), Hm.
  - intros Hvis.
    by rewrite (bind_Raise _ _ _ _ _ (ctx_getitem_KeyError h c ds Hc Hds _ Hvis)).
Qed.

Lemma get_slot_component_association_bound_or_raises_witness :
  get_slot_component_association 2 "slot-1" rendering_store
  = Ok (VStr "comp-A") rendering_store ∧
  get_slot_component_association 2 "slot-2" rendering_store
  = Raise (KeyError "slot-2") rendering_store ∧
  get_slot_component_association 1 "slot-1" bare_store
  = Raise (KeyError _SLOT_COMPONENT_ASSOC_KEY) bare_store.
Proof.
  split_and!.
  - eapply (get_slot_component_association_bound_or_raises
              rendering_store 2 [0; 1] "slot-1");
      [reflexivity | repeat (constructor; [by eexists|]); constructor
      | vm_compute; reflexivity | reflexivity | vm_compute; reflexivity].
  - eapply (get_slot_component_association_bound_or_raises
              rendering_store 2 [0; 1] "slot-2");
      [reflexivity | repeat (constructor; [by eexists|]); constructor
      | vm_compute; reflexivity | reflexivity | vm_compute; reflexivity].
  - eapply (get_slot_component_association_bound_or_raises
              bare_store 1 [0] "slot-1");
      [reflexivity | repeat (constructor; [by eexists|]); constructor
      | vm_compute; reflexivity].
Defined.

(** C7.  In a scope whose fill registry is initialised, [get_slot_fill]
    for a composite key the registry does not hold returns [None], raises
    nothing and leaves the store as it is; a [set_slot_fill] under another
    composite key does not change that; and a second call with the same
    arguments, nothing set in between, returns what the first returned. *)
Theorem get_slot_fill_not_found_is_None
    (h : heap) (c : loc) (ds : list loc) (r : loc) (m : gmap string val)
    (component_id slot_name : string) :
  h !! c = Some (OCtx ds) →
  all_dicts h ds →
  visible h ds _FILLED_SLOTS_CONTENT_CONTEXT_KEY = Some (VRef r) →
  h !! r = Some (ODict m) →
  m !! slot_key component_id slot_name = None →
  get_slot_fill c component_id slot_name h = Ok VNone h ∧
  (∀ other_id other_name value,
     slot_key other_id other_name ≠ slot_key component_id slot_name →
     ∃ h', set_slot_fill c other_id other_name value h = Ok () h' ∧
           get_slot_fill c component_id slot_name h' = Ok VNone h') ∧
  (let* first := get_slot_fill c component_id slot_name in
   let* second := get_slot_fill c component_id slot_name in
   ret (first, second)) h = Ok (VNone, VNone) h.
Proof.
  intros Hc Hds Hreg Hr Hm.
  assert (get_slot_fill c component_id slot_name h = Ok VNone h) as Hget.
  { rewrite (get_slot_fill_Ok h c ds r m); [|done..]. by rewrite Hm. }
  split_and!; [done| |].
  - intros other_id other_name value Hne. eexists. split.
    { by apply (set_slot_fill_Ok h c ds r m). }
    destruct (set_slot_fill_registry h c ds r m Hc Hds Hreg Hr
                (slot_key other_id other_name) value)
      as (Hc' & Hds' & Hreg' & Hr'); [apply slot_key_not_reserved|].
    rewrite (get_slot_fill_Ok _ c ds r _ Hc' Hds' Hreg' Hr').
    by rewrite lookup_insert_ne, Hm.
  - rewrite (bind_Ok _ _ _ _ _ Hget). by rewrite (bind_Ok _ _ _ _ _ Hget).
Qed.

Lemma get_slot_fill_not_found_is_None_witness :
  get_slot_fill 2 "comp-A" "footer" rendering_store = Ok VNone rendering_store ∧
  ∃ h', set_slot_fill 2 "comp-B" "footer" (VOpaque 8) rendering_store = Ok () h' ∧
        get_slot_fill 2 "comp-A" "footer" h' = Ok VNone h'.
Proof.
  destruct (get_slot_fill_not_found_is_None rendering_store 2 [0; 1] 4
              {[ "comp-A__header" := VOpaque 7 ]} "comp-A" "footer")
    as (Hget & Hother & _);
    [reflexivity | concrete_dicts | vm_compute; reflexivity | reflexivity
    | vm_compute; reflexivity |].
  split; [exact Hget|].
  apply (Hother "comp-B" "footer" (VOpaque 8)). vm_compute. discriminate.
Defined.

(** C9.  The composite fill key is not injective: the pairs
    [("a", "b__c")] and [("a__b", "c")] make the same key, so in any scope
    with a fill registry a fill set for component ["a__b"], slot ["c"] is
    what [get_slot_fill] returns for component ["a"], slot ["b__c"]. *)
Theorem slot_key_aliasing :
  ("a", "b__c") ≠ ("a__b", "c") ∧
  slot_key "a" "b__c" = slot_key "a__b" "c" ∧
  ∀ (h : heap) (c : loc) (ds : list loc) (r : loc) (m : gmap string val)
    (value : val),
    h !! c = Some (OCtx ds) →
    all_dicts h ds →
    visible h ds _FILLED_SLOTS_CONTENT_CONTEXT_KEY = Some (VRef r) →
    h !! r = Some (ODict m) →
    ∃ h', set_slot_fill c "a__b" "c" value h = Ok () h' ∧
          get_slot_fill c "a" "b__c" h' = Ok value h'.
Proof.
  split_and!; [done|done|].
  intros h c ds r m value Hc Hds Hreg Hr. eexists. split.
  { by apply (set_slot_fill_Ok h c ds r m). }
  destruct (set_slot_fill_registry h c ds r m Hc Hds Hreg Hr
              (slot_key "a__b" "c") value)
    as (Hc' & Hds' & Hreg' & Hr'); [apply slot_key_not_reserved|].
  rewrite (get_slot_fill_Ok _ c ds r _ Hc' Hds' Hreg' Hr').
  by rewrite lookup_insert_eq.
Qed.

Lemma slot_key_aliasing_witness :
  ∃ h', set_slot_fill 2 "a__b" "c" (VOpaque 9) rendering_store = Ok () h' ∧
        get_slot_fill 2 "a" "b__c" h' = Ok (VOpaque 9) h'.
Proof.
  eapply (slot_key_aliasing);
    [reflexivity | repeat (constructor; [by eexists|]); constructor
    | vm_compute; reflexivity | reflexivity].
Defined.

(** C10.  The fill accessors presuppose the registry: in a scope no layer
    of which has the registry key, [get_slot_fill] and [set_slot_fill] both
    raise [KeyError] on the reserved key; neither returns "not found" and
    neither creates the registry (the store is as it was). *)
Theorem fill_accessors_need_registry
    (h : heap) (c : loc) (ds : list loc)
    (component_id slot_name : string) (value : val) :
  h !! c = Some (OCtx ds) →
  all_dicts h ds →
  (∀ r, r ∈ ds → layer_has h _FILLED_SLOTS_CONTENT_CONTEXT_KEY r = false) →
  get_slot_fill c component_id slot_name h
  = Raise (KeyError _FILLED_SLOTS_CONTENT_CONTEXT_KEY) h ∧
  set_slot_fill c component_id slot_name value h
  = Raise (KeyError _FILLED_SLOTS_CONTENT_CONTEXT_KEY) h.
Proof.
  intros Hc Hds Hno. apply (visible_None h ds _ Hds) in Hno.
  pose proof (ctx_getitem_KeyError h c ds Hc Hds _ Hno) as Herr.
  unfold get_slot_fill, set_slot_fill, trace_msg.
  rewrite !(bind_Ok _ _ h () h eq_refl).
  by rewrite !(bind_Raise _ _ _ _ _ Herr).
Qed.

Lemma fill_accessors_need_registry_witness :
  get_slot_fill 1 "comp-A" "header" bare_store
  = Raise (KeyError _FILLED_SLOTS_CONTENT_CONTEXT_KEY) bare_store ∧
  set_slot_fill 1 "comp-A" "header" (VOpaque 7) bare_store
  = Raise (KeyError _FILLED_SLOTS_CONTENT_CONTEXT_KEY) bare_store.
Proof.
  apply (fill_accessors_need_registry bare_store 1 [0]);
    [reflexivity | repeat (constructor; [by eexists|]); constructor |].
  intros r Hr. apply list_elem_of_singleton in Hr as ->. vm_compute. reflexivity.
Defined.

(** C3.  When the top layer has no association map of its own and the map
    [m] (object [r]) of a lower layer is the visible one,
    [set_slot_component_association] clones [m] into a new object, makes
    the clone the top layer's map and writes the binding into the clone:
    afterwards [get_slot_component_association] returns [component_id],
    while object [r], the map the layers below share, still is [m], so it
    has gained no binding, and no object but the top layer has changed. *)
Theorem set_slot_component_association_copy_on_write
    (h : heap) (c : loc) (ds : list loc) (top : loc) (d : gmap string val)
    (r : loc) (m : gmap string val) (slot_id component_id : string) :
  scope h c ds top d →
  d !! _SLOT_COMPONENT_ASSOC_KEY = None →
  visible h ds _SLOT_COMPONENT_ASSOC_KEY = Some (VRef r) →
  h !! r = Some (ODict m) →
  r ≠ top →
  ∃ h' clone,
    set_slot_component_association c slot_id component_id h = Ok () h' ∧
    h !! clone = None ∧
    h' !! top = Some (ODict (<[_SLOT_COMPONENT_ASSOC_KEY := VRef clone]> d)) ∧
    h' !! clone = Some (ODict (<[slot_id := VStr component_id]> m)) ∧
    get_slot_component_association c slot_id h' = Ok (VStr component_id) h' ∧
    h' !! r = Some (ODict m) ∧
    (m !! slot_id = None →
     ∃ m', h' !! r = Some (ODict m') ∧ m' !! slot_id = None) ∧
    unchanged top h h'.
Proof.
  intros Hs Hown Hvis Hr Hrtop.
  set (n := length h).
  set (h1 := h ++ [ODict m]).
  set (h2 := set_top h1 top d _SLOT_COMPONENT_ASSOC_KEY (VRef n)).
  set (h3 := <[n := ODict (<[slot_id := VStr component_id]> m)]> h2).
  assert (scope h1 c ds top d) as Hs1 by by apply scope_alloc.
  assert (scope h2 c ds top (<[_SLOT_COMPONENT_ASSOC_KEY := VRef n]> d)) as Hs2
    by by apply scope_set_top.
  assert (n ∉ ds) as Hnds.
  { intros Hin. apply (all_dicts_lt h) in Hin; [unfold n in Hin; lia|apply Hs]. }
  assert (n ≠ c) as Hnc.
  { destruct Hs as [Hc _ _ _]. apply lookup_lt_Some in Hc. unfold n. lia. }
  assert (n ≠ top) as Hntop.
  { intros ->. by apply Hnds, (scope_top_elem h c ds _ d). }
  assert (h2 !! n = Some (ODict m)) as Hn2.
  { unfold h2, set_top. rewrite list_lookup_insert_ne; [|done].
    apply lookup_alloc_new. }
  assert (scope h3 c ds top (<[_SLOT_COMPONENT_ASSOC_KEY := VRef n]> d)) as Hs3
    by by apply scope_replace_new.
  assert (h3 !! n = Some (ODict (<[slot_id := VStr component_id]> m))) as Hn3
    by by eapply lookup_replace.
  assert (visible h3 ds _SLOT_COMPONENT_ASSOC_KEY = Some (VRef n)) as Hvis3.
  { unfold h3. rewrite visible_replace_new; [|apply Hs2|done].
    by apply (visible_set_top_eq h1 c). }
  assert (unchanged top h h3) as Hun.
  { intros r0 o0 Hne Hr0. unfold h3, h2, set_top.
    rewrite !list_lookup_insert_ne; [by apply lookup_alloc|done|].
    apply lookup_lt_Some in Hr0. unfold n. lia. }
  exists h3, n. split_and!.
  - unfold set_slot_component_association.
    run_with (ctx_top_Ok _ _ _ _ _ Hs).
    assert (dict_contains top _SLOT_COMPONENT_ASSOC_KEY h = Ok false h) as Hnot.
    { unfold dict_contains.
      run_with (load_dict_Ok _ _ _ (scope_top _ _ _ _ _ Hs)).
      unfold ret. f_equal. apply bool_decide_eq_false. rewrite Hown. by intros []. }
    run_with Hnot.
    assert ((let* assoc := ctx_getitem c _SLOT_COMPONENT_ASSOC_KEY in
             let* r := the_ref assoc in
             let* clone := dict_copy r in
             dict_setitem top _SLOT_COMPONENT_ASSOC_KEY (VRef clone)) h
            = Ok () h2) as Hclone.
    { run_with (ctx_getitem_Ok h c ds (scope_ctx _ _ _ _ _ Hs)
                  (scope_layers _ _ _ _ _ Hs) _ _ Hvis).
      run_with (eq_refl : the_ref (VRef r) h = Ok r h).
      run_with (dict_copy_Ok _ _ _ Hr).
      by rewrite (dict_setitem_Ok _ _ _ _ _ (scope_top _ _ _ _ _ Hs1)). }
    run_with Hclone.
    run_with (ctx_getitem_Ok h2 c ds (scope_ctx _ _ _ _ _ Hs2)
                (scope_layers _ _ _ _ _ Hs2) _ _
                (visible_set_top_eq h1 c ds top d _ _ Hs1)).
    run_with (eq_refl : the_ref (VRef n) h2 = Ok n h2).
    by rewrite (dict_setitem_Ok _ _ _ _ _ Hn2).
  - apply lookup_ge_None. unfold n. lia.
  - apply Hs3.
  - done.
  - unfold get_slot_component_association.
    rewrite (bind_Ok _ _ _ _ _
               (ctx_getitem_Ok h3 c ds (scope_ctx _ _ _ _ _ Hs3)
                  (scope_layers _ _ _ _ _ Hs3) _ _ Hvis3)).
    rewrite (bind_Ok _ _ h3 n h3 eq_refl). unfold dict_getitem.
    rewrite (bind_Ok _ _ _ _ _ (load_dict_Ok _ _ _ Hn3)).
    by rewrite lookup_insert_eq.
  - by apply Hun.
  - intros Hm. exists m. split; [by apply Hun|done].
  - done.
Qed.

Lemma set_slot_component_association_copy_on_write_witness :
  ∃ h',
    set_slot_component_association 3 "slot-2" "comp-B" nested_store = Ok () h' ∧
    get_slot_component_association 3 "slot-2" h' = Ok (VStr "comp-B") h' ∧
    h' !! 4 = Some (ODict {[ "slot-1" := VStr "comp-A" ]}) ∧
    ∃ m', h' !! 4 = Some (ODict m') ∧ m' !! "slot-2" = None.
Proof.
  destruct (set_slot_component_association_copy_on_write
              nested_store 3 [0; 1; 2] 2 {[ "x" := VInt 1 ]}
              4 {[ "slot-1" := VStr "comp-A" ]} "slot-2" "comp-B")
    as (h' & clone & Hrun & _ & _ & _ & Hget & Hshared & Hnone & _);
    [concrete_scope | vm_compute; reflexivity | vm_compute; reflexivity
    | reflexivity | lia |].
  exists h'. split_and!; [done|done|done|].
  apply Hnone. vm_compute. reflexivity.
Defined.

(** C8.  [copy_forloop_context(from_context, to_context)]: when a layer of
    [from_context] carries the key ["forloop"], the last such layer of the
    stack (the one nearest to the top) is pushed on [to_context] as a new
    layer with all its entries, so each of its keys, the loop state and the
    loop variables alike, resolves in [to_context] to the value it has in
    that layer, and no object but [to_context] changes; when no layer
    carries the key, the store, and [to_context] with it, is as it was. *)
Theorem copy_forloop_context_copies_whole_layer
    (h : heap) (from_context to_context : loc) (ds_from ds_to : list loc) :
  h !! from_context = Some (OCtx ds_from) →
  all_dicts h ds_from →
  h !! to_context = Some (OCtx ds_to) →
  (∀ i r d,
     ds_from !! i = Some r →
     h !! r = Some (ODict d) →
     is_Some (d !! "forloop") →
     (∀ j r', i < j → ds_from !! j = Some r' → layer_has h "forloop" r' = false) →
     ∃ h' layer,
       copy_forloop_context from_context to_context h = Ok () h' ∧
       h !! layer = None ∧
       h' !! to_context = Some (OCtx (ds_to ++ [layer])) ∧
       h' !! layer = Some (ODict d) ∧
       (∀ k v, d !! k = Some v → ctx_get to_context k VNone h' = Ok v h') ∧
       (∀ r' o, r' ≠ to_context → h !! r' = Some o → h' !! r' = Some o)) ∧
  ((∀ r, r ∈ ds_from → layer_has h "forloop" r = false) →
   copy_forloop_context from_context to_context h = Ok () h).
Proof.
  intros Hfrom Hds Hto. split.
  - intros i r d Hi Hr Hmark Hlast.
    assert (layer_has h "forloop" r = true) as Hhas.
    { unfold layer_has. rewrite Hr. by apply bool_decide_eq_true. }
    assert (is_Some (visible h ds_from "forloop")) as Hvis.
    { destruct (visible h ds_from "forloop") eqn:Hv; [done|].
      apply (visible_None h ds_from _ Hds) with (r := r) in Hv; [congruence|].
      by eapply list_elem_of_lookup_2. }
    assert (find_last_index ds_from (layer_has h "forloop") = Some i) as Hidx.
    { apply find_last_index_Some. split; [by exists r|done]. }
    set (n := length h).
    set (h1 := h ++ [ODict d]).
    set (h2 := <[to_context := OCtx (ds_to ++ [n])]> h1).
    assert (n ≠ to_context) as Hn.
    { apply lookup_lt_Some in Hto. unfold n. lia. }
    assert (h2 !! n = Some (ODict d)) as Hn2.
    { unfold h2. rewrite list_lookup_insert_ne; [|done]. apply lookup_alloc_new. }
    assert (h2 !! to_context = Some (OCtx (ds_to ++ [n]))) as Hto2.
    { unfold h2. eapply lookup_replace. by apply lookup_alloc. }
    exists h2, n. split_and!.
    + unfold copy_forloop_context.
      run_with (ctx_contains_Ok h from_context ds_from Hfrom Hds "forloop").
      rewrite (bool_decide_eq_true_2 _ Hvis).
      run_with (load_dicts_Ok _ _ _ Hfrom).
      run_with (eq_refl : get_heap h = Ok h h).
      rewrite Hidx.
      assert (ctx_layer from_context i h = Ok r h) as Hlayer.
      { unfold ctx_layer. run_with (load_dicts_Ok _ _ _ Hfrom). by rewrite Hi. }
      run_with Hlayer.
      unfold ctx_update, ctx_push.
      run_with (load_dicts_Ok _ _ _ Hto).
      by run_with (dict_copy_Ok _ _ _ Hr).
    + apply lookup_ge_None. unfold n. lia.
    + done.
    + done.
    + intros k v Hk. unfold ctx_get.
      run_with (load_dicts_Ok _ _ _ Hto2).
      run_with (eq_refl : get_heap h2 = Ok h2 h2).
      rewrite reverse_snoc. simpl. by rewrite Hn2, Hk.
    + intros r' o Hne Hr'. unfold h2.
      rewrite list_lookup_insert_ne; [|done]. by apply lookup_alloc.
  - intros Hnone. apply (visible_None h ds_from _ Hds) in Hnone.
    unfold copy_forloop_context.
    run_with (ctx_contains_Ok h from_context ds_from Hfrom Hds "forloop").
    rewrite Hnone. by rewrite bool_decide_eq_false_2; [|by intros []].
Qed.

Lemma copy_forloop_context_copies_whole_layer_witness :
  (∃ h',
     copy_forloop_context 4 6 looping_store = Ok () h' ∧
     ctx_get 6 "forloop" VNone h' = Ok (VOpaque 2) h' ∧
     ctx_get 6 "cell" VNone h' = Ok (VInt 20) h') ∧
  copy_forloop_context 1 1 bare_store = Ok () bare_store.
Proof.
  split.
  - destruct (copy_forloop_context_copies_whole_layer
                looping_store 4 6 [0; 1; 2; 3] [5])
      as [Hcopy _]; [reflexivity | concrete_dicts | reflexivity |].
    destruct (Hcopy 2 2 {[ "forloop" := VOpaque 2; "cell" := VInt 20 ]})
      as (h' & layer & Hrun & _ & _ & _ & Hkeys & _);
      [reflexivity | reflexivity | vm_compute; eauto |..].
    { intros [|[|[|[|j]]]] r' Hj Hr'; try lia.
      - injection Hr' as <-. vm_compute. reflexivity.
      - destruct j; discriminate Hr'. }
    exists h'. split_and!; [done|apply Hkeys..]; vm_compute; reflexivity.
  - apply (copy_forloop_context_copies_whole_layer bare_store 1 1 [0] [0]);
      [reflexivity | concrete_dicts | reflexivity |].
    intros r Hr. apply list_elem_of_singleton in Hr as ->. vm_compute. reflexivity.
Defined.

(** C1, as the code has it.  The special case of [set_outer_root_context]
    has a fourth condition, next to "an outer context is given", "the
    context has no parent component id" and "the setting is [ISOLATED]":
    the context already holds an outer root context.  When all four hold
    and the outer context has the layers [defaults], [a] and [b], the outer
    root context is a new context of two layers, its builtins and one
    layer [flat] into which the three layers are merged: [flat] has every
    key of [a] and of [b], with the value of [b] where both have the key
    (the two reserved mapping keys apart, which are then written over with
    the mappings visible in the context). *)
Theorem set_outer_root_context_isolated_flattens
    (h : heap) (c : loc) (ds : list loc) (top : loc) (d : gmap string val)
    (o defaults a b : loc) (d0 da db : gmap string val) :
  scope h c ds top d →
  h !! o = Some (OCtx [defaults; a; b]) →
  h !! defaults = Some (ODict d0) →
  h !! a = Some (ODict da) →
  h !! b = Some (ODict db) →
  truthy h (default VNone (visible h ds _PARENT_COMP_KEY)) = false →
  is_Some (visible h ds _OUTER_ROOT_CTX_CONTEXT_KEY) →
  ∃ h' orc base layer flat,
    set_outer_root_context ISOLATED c (VRef o) h = Ok () h' ∧
    get_outer_root_context c h' = Ok (VRef orc) h' ∧
    h' !! orc = Some (OCtx [base; layer]) ∧
    h' !! base = Some (ODict builtins) ∧
    h' !! layer = Some (ODict flat) ∧
    flat = include_into (visible h ds _FILLED_SLOTS_CONTENT_CONTEXT_KEY)
             _FILLED_SLOTS_CONTENT_CONTEXT_KEY
             (include_into (visible h ds _SLOT_COMPONENT_ASSOC_KEY)
                _SLOT_COMPONENT_ASSOC_KEY (db ∪ da ∪ d0)) ∧
    (∀ k v, k ≠ _SLOT_COMPONENT_ASSOC_KEY →
            k ≠ _FILLED_SLOTS_CONTENT_CONTEXT_KEY →
            db !! k = Some v →
            flat !! k = Some v ∧ ctx_get orc k VNone h' = Ok v h') ∧
    (∀ k v, k ≠ _SLOT_COMPONENT_ASSOC_KEY →
            k ≠ _FILLED_SLOTS_CONTENT_CONTEXT_KEY →
            db !! k = None → da !! k = Some v →
            flat !! k = Some v ∧ ctx_get orc k VNone h' = Ok v h').
Proof.
  intros Hs Ho Hd0 Hda Hdb Hparent Hprior.
  pose proof (scope_ctx _ _ _ _ _ Hs) as Hc.
  pose proof (scope_layers _ _ _ _ _ Hs) as Hds.
  assert (all_dicts h [defaults; a; b]) as Hods.
  { repeat (constructor; [by eexists|]). constructor. }
  assert (isolated_top_level ISOLATED h ds (VRef o) = true) as Hspecial.
  { unfold isolated_top_level. simpl. rewrite Ho, Hparent. simpl.
    by apply bool_decide_eq_true_2. }
  destruct (new_outer_root_context_flat ISOLATED h c ds o _ Hc Hds Ho Hods Hspecial)
    as (flat0 & Hnew & Hflat0).
  assert (flat0 = db ∪ da ∪ d0) as ->.
  { apply map_eq. intros k. rewrite Hflat0.
    rewrite (visible_cons h defaults d0 [a; b] k Hd0);
      [|repeat (constructor; [by eexists|]); constructor].
    rewrite (visible_cons h a da [b] k Hda);
      [|repeat (constructor; [by eexists|]); constructor].
    rewrite (visible_cons h b db [] k Hdb); [|constructor].
    unfold visible. simpl. rewrite !lookup_union.
    by destruct (db !! k), (da !! k), (d0 !! k). }
  destruct (set_outer_root_context_stored ISOLATED h _ c ds top d (VRef o)
              (length h + 1) [length h + 0; length h + 3] (length h + 3) (db ∪ da ∪ d0) Hs Hnew)
    as (h' & Hrun & Hs' & Ho' & Hun & Hrest);
    [apply preserved_alloc|new_scope|apply lookup_new_None| |].
  { intros r Hr. repeat (apply elem_of_cons in Hr as [->|Hr]; [apply lookup_new_None|]).
    by apply not_elem_of_nil in Hr. }
  set (flat := include_into _ _ (include_into _ _ _)) in *.
  assert (∀ k, k ≠ _SLOT_COMPONENT_ASSOC_KEY →
               k ≠ _FILLED_SLOTS_CONTENT_CONTEXT_KEY →
               flat !! k = (db ∪ da ∪ d0) !! k) as Hflat.
  { intros k Hk1 Hk2. unfold flat, include_into.
    destruct (visible h ds _FILLED_SLOTS_CONTENT_CONTEXT_KEY),
             (visible h ds _SLOT_COMPONENT_ASSOC_KEY);
      by rewrite ?lookup_insert_ne. }
  assert (∀ k v, flat !! k = Some v → ctx_get (length h + 1) k VNone h' = Ok v h') as Hget.
  { intros k v Hk.
    rewrite (ctx_get_Ok h' (length h + 1) [length h + 0; length h + 3]); [|apply Ho'..].
    by rewrite (visible_top h' (length h + 1) _ (length h + 3) flat k v Ho' Hk). }
  exists h', (length h + 1), (length h + 0), (length h + 3), flat. split_and!.
  - done.
  - unfold get_outer_root_context.
    rewrite (ctx_get_Ok h' c ds); [|apply Hs'..].
    rewrite (visible_top h' c ds top _ _ (VRef (length h + 1)) Hs'); [done|].
    by rewrite lookup_insert_eq.
  - apply Ho'.
  - apply Hrest.
    + destruct Hs as [_ _ Ht _]. apply lookup_lt_Some in Ht. lia.
    + lia.
    + by rewrite lookup_new.
  - apply Ho'.
  - done.
  - intros k v Hk1 Hk2 Hk.
    assert (flat !! k = Some v) as Hv.
    { rewrite Hflat by done. rewrite !lookup_union, Hk.
      by destruct (da !! k), (d0 !! k). }
    split; [done|by apply Hget].
  - intros k v Hk1 Hk2 Hkb Hka.
    assert (flat !! k = Some v) as Hv.
    { rewrite Hflat by done. rewrite !lookup_union, Hkb, Hka.
      by destruct (d0 !! k). }
    split; [done|by apply Hget].
Qed.

Lemma set_outer_root_context_isolated_flattens_witness :
  ∃ h' orc,
    set_outer_root_context ISOLATED 6 (VRef 3) second_pass_store = Ok () h' ∧
    get_outer_root_context 6 h' = Ok (VRef orc) h' ∧
    ctx_get orc "b" VNone h' = Ok (VInt 2) h' ∧
    ctx_get orc "title" VNone h' = Ok (VStr "from b") h' ∧
    ctx_get orc "a" VNone h' = Ok (VInt 1) h'.
Proof.
  destruct (set_outer_root_context_isolated_flattens
              second_pass_store 6 [4; 5] 5
              {[ _OUTER_ROOT_CTX_CONTEXT_KEY := VRef 8;
                 _SLOT_COMPONENT_ASSOC_KEY := VRef 9;
                 _FILLED_SLOTS_CONTENT_CONTEXT_KEY := VRef 10 ]}
              3 0 1 2 builtins
              {[ "a" := VInt 1; "title" := VStr "from a" ]}
              {[ "b" := VInt 2; "title" := VStr "from b" ]})
    as (h' & orc & base & layer & flat & Hrun & Hroot & _ & _ & _ & _ & Hb & Ha);
    [concrete_scope | reflexivity | reflexivity | reflexivity | reflexivity
    | vm_compute; reflexivity | vm_compute; eauto |].
  exists h', orc. split_and!; [done|done|..].
  - apply Hb; [done|done|vm_compute; reflexivity].
  - apply Hb; [done|done|vm_compute; reflexivity].
  - apply Ha; [done|done|vm_compute; reflexivity..].
Defined.

(** C1 as stated does not hold: on the first render of a top-level
    component its context has no outer root context yet, the special case
    is skipped even with [ISOLATED], and the outer root context is made of
    layer 1 alone: it has [a] and not [b].  [prepare_context] calls
    [set_outer_root_context] first, with the same result. *)
Lemma set_outer_root_context_isolated_first_render :
  ctx_get 6 _PARENT_COMP_KEY VNone page_store = Ok VNone page_store ∧
  (let h' := store_after (set_outer_root_context ISOLATED 6 (VRef 3)) page_store in
   set_outer_root_context ISOLATED 6 (VRef 3) page_store = Ok () h' ∧
   get_outer_root_context 6 h' = Ok (VRef 8) h' ∧
   ctx_get 8 "a" VNone h' = Ok (VInt 1) h' ∧
   ctx_contains 8 "b" h' = Ok false h') ∧
  (let h' := store_after (prepare_context ISOLATED 6 (VRef 3) "comp-A") page_store in
   prepare_context ISOLATED 6 (VRef 3) "comp-A" page_store = Ok () h' ∧
   get_outer_root_context 6 h' = Ok (VRef 8) h' ∧
   ctx_get 8 "a" VNone h' = Ok (VInt 1) h' ∧
   ctx_contains 8 "b" h' = Ok false h').
Proof. cbv zeta. split_and!; vm_compute; reflexivity. Qed.

(** C2, as the code has it.  When the special case does not apply and the
    outer context has a layer 1, the outer root context is a new context of
    two layers: its own builtins ([True], [False], [None]) and a copy of
    layer 1 into which the two mappings visible in the context are
    written under their reserved keys.  So apart from the three builtin
    names and the two reserved keys it exposes exactly the entries of
    layer 1: a key of another layer of the outer context only is not
    exposed. *)
Theorem set_outer_root_context_own_layer
    (behavior : SlotContextBehavior)
    (h : heap) (c : loc) (ds : list loc) (top : loc) (d : gmap string val)
    (o : loc) (ods : list loc) (own : loc) (d1 : gmap string val) :
  scope h c ds top d →
  h !! o = Some (OCtx ods) →
  ods !! 1 = Some own →
  h !! own = Some (ODict d1) →
  is_isolated_top_level behavior c (VRef o) h = Ok false h →
  ∃ h' orc base layer exposed,
    set_outer_root_context behavior c (VRef o) h = Ok () h' ∧
    get_outer_root_context c h' = Ok (VRef orc) h' ∧
    h' !! orc = Some (OCtx [base; layer]) ∧
    h' !! base = Some (ODict builtins) ∧
    h' !! layer = Some (ODict exposed) ∧
    exposed = include_into (visible h ds _FILLED_SLOTS_CONTENT_CONTEXT_KEY)
                _FILLED_SLOTS_CONTENT_CONTEXT_KEY
                (include_into (visible h ds _SLOT_COMPONENT_ASSOC_KEY)
                   _SLOT_COMPONENT_ASSOC_KEY d1) ∧
    (∀ k, k ≠ _SLOT_COMPONENT_ASSOC_KEY →
          k ≠ _FILLED_SLOTS_CONTENT_CONTEXT_KEY →
          exposed !! k = d1 !! k) ∧
    (∀ k, k ≠ _SLOT_COMPONENT_ASSOC_KEY →
          k ≠ _FILLED_SLOTS_CONTENT_CONTEXT_KEY →
          builtins !! k = None →
          ctx_contains orc k h' = Ok (bool_decide (is_Some (d1 !! k))) h' ∧
          ctx_get orc k VNone h' = Ok (default VNone (d1 !! k)) h').
Proof.
  intros Hs Ho Hown Hd1 Hnot.
  pose proof (scope_ctx _ _ _ _ _ Hs) as Hc.
  pose proof (scope_layers _ _ _ _ _ Hs) as Hds.
  rewrite (is_isolated_top_level_Ok behavior h c ds (VRef o) Hc Hds) in Hnot.
  assert (isolated_top_level behavior h ds (VRef o) = false) as Hspecial
    by by injection Hnot.
  pose proof (new_outer_root_context_own behavior h c ds o ods own d1
                Hc Hds Ho Hspecial Hown Hd1) as Hnew.
  destruct (set_outer_root_context_stored behavior h _ c ds top d (VRef o)
              (length h + 1) [length h + 0; length h + 2] (length h + 2) d1 Hs Hnew)
    as (h' & Hrun & Hs' & Ho' & Hun & Hrest);
    [apply preserved_alloc|new_scope|apply lookup_new_None| |].
  { intros r Hr. repeat (apply elem_of_cons in Hr as [->|Hr]; [apply lookup_new_None|]).
    by apply not_elem_of_nil in Hr. }
  set (exposed := include_into _ _ (include_into _ _ _)) in *.
  assert (∀ k, k ≠ _SLOT_COMPONENT_ASSOC_KEY →
               k ≠ _FILLED_SLOTS_CONTENT_CONTEXT_KEY →
               exposed !! k = d1 !! k) as Hexposed.
  { intros k Hk1 Hk2. unfold exposed, include_into.
    destruct (visible h ds _FILLED_SLOTS_CONTENT_CONTEXT_KEY),
             (visible h ds _SLOT_COMPONENT_ASSOC_KEY);
      by rewrite ?lookup_insert_ne. }
  assert (h' !! (length h + 0) = Some (ODict builtins)) as Hbase.
  { apply Hrest.
    - destruct Hs as [_ _ Ht _]. apply lookup_lt_Some in Ht. lia.
    - lia.
    - by rewrite lookup_new. }
  assert (∀ k, k ≠ _SLOT_COMPONENT_ASSOC_KEY →
               k ≠ _FILLED_SLOTS_CONTENT_CONTEXT_KEY →
               builtins !! k = None →
               visible h' [length h + 0; length h + 2] k = d1 !! k) as Hvis.
  { intros k Hk1 Hk2 Hk.
    rewrite (visible_cons h' _ builtins _ k Hbase).
    - rewrite (visible_cons h' _ exposed [] k); [|apply Ho'|constructor].
      unfold visible. simpl. rewrite Hexposed, Hk by done. by destruct (d1 !! k).
    - pose proof (scope_layers _ _ _ _ _ Ho') as Hl. by inversion Hl. }
  exists h', (length h + 1), (length h + 0), (length h + 2), exposed. split_and!.
  - done.
  - unfold get_outer_root_context.
    rewrite (ctx_get_Ok h' c ds); [|apply Hs'..].
    rewrite (visible_top h' c ds top _ _ (VRef (length h + 1)) Hs'); [done|].
    by rewrite lookup_insert_eq.
  - apply Ho'.
  - done.
  - apply Ho'.
  - done.
  - done.
  - intros k Hk1 Hk2 Hk. split.
    + rewrite (ctx_contains_Ok h' (length h + 1) [length h + 0; length h + 2]);
        [|apply Ho'..]. by rewrite Hvis.
    + rewrite (ctx_get_Ok h' (length h + 1) [length h + 0; length h + 2]);
        [|apply Ho'..]. by rewrite Hvis.
Qed.

Lemma set_outer_root_context_own_layer_witness :
  ∃ h' orc,
    set_outer_root_context DEFAULT 6 (VRef 3) page_store = Ok () h' ∧
    get_outer_root_context 6 h' = Ok (VRef orc) h' ∧
    ctx_get orc "a" VNone h' = Ok (VInt 1) h' ∧
    ctx_contains orc "b" h' = Ok false h'.
Proof.
  destruct (set_outer_root_context_own_layer DEFAULT
              page_store 6 [4; 5] 5 ∅ 3 [0; 1; 2] 1 {[ "a" := VInt 1 ]})
    as (h' & orc & base & layer & exposed & Hrun & Hroot & _ & _ & _ & _ & _ & Hkeys);
    [concrete_scope | reflexivity | reflexivity | reflexivity
    | vm_compute; reflexivity |].
  exists h', orc. split_and!; [done|done|..].
  - by apply (Hkeys "a").
  - by apply (Hkeys "b").
Defined.

(** C2 as stated does not hold: the outer root context exposes more than
    the entries of layer 1.  With the outer layers [defaults],
    [{a: 1, title: ..}], [{b: 2, title: ..}] and the setting [DEFAULT], it
    exposes [True], a key that the outer context has in layer 0 only, and
    the reserved key of the association map, which layer 1 does not have;
    [b], a key of layer 2 only, is not exposed. *)
Lemma set_outer_root_context_own_layer_exposes_more :
  let h := second_pass_store in
  let h' := store_after (set_outer_root_context DEFAULT 6 (VRef 3)) h in
  is_isolated_top_level DEFAULT 6 (VRef 3) h = Ok false h ∧
  set_outer_root_context DEFAULT 6 (VRef 3) h = Ok () h' ∧
  get_outer_root_context 6 h' = Ok (VRef 12) h' ∧
  (layer_has h "True" 0 = true ∧ layer_has h "True" 1 = false ∧
   ctx_get 12 "True" VNone h' = Ok (VBool true) h') ∧
  (layer_has h _SLOT_COMPONENT_ASSOC_KEY 1 = false ∧
   ctx_get 12 _SLOT_COMPONENT_ASSOC_KEY VNone h' = Ok (VRef 9) h') ∧
  ctx_contains 12 "b" h' = Ok false h'.
Proof. cbv zeta. split_and!; vm_compute; reflexivity. Qed.

(** C4.  [prepare_context] inside a loop (a layer of the context has the
    key ["forloop"]): the top layer gets, under the key of the association
    map, a new object [clone] with the entries of the visible map [m]; the
    object [r] that held the visible map still is [m], and no object of the
    store but the top layer has changed, so the layers below refer to the
    map they referred to.  Outside a loop, with a map visible, the entry of
    the top layer for the key is what it was (none, if it had none) and the
    key still resolves to the same object: no copy is made. *)
Theorem prepare_context_forloop_copy
    (behavior : SlotContextBehavior)
    (h : heap) (c : loc) (ds : list loc) (top : loc) (d : gmap string val)
    (outer_context : val) (component_id : string)
    (r : loc) (m : gmap string val) :
  scope h c ds top d →
  outer_ok h outer_context →
  visible h ds _SLOT_COMPONENT_ASSOC_KEY = Some (VRef r) →
  h !! r = Some (ODict m) →
  r ≠ top →
  (is_Some (visible h ds "forloop") →
   ∃ h' d' clone,
     prepare_context behavior c outer_context component_id h = Ok () h' ∧
     h !! clone = None ∧
     h' !! top = Some (ODict d') ∧
     d' !! _SLOT_COMPONENT_ASSOC_KEY = Some (VRef clone) ∧
     h' !! clone = Some (ODict m) ∧
     h' !! r = Some (ODict m) ∧
     unchanged top h h') ∧
  (visible h ds "forloop" = None →
   ∃ h' d',
     prepare_context behavior c outer_context component_id h = Ok () h' ∧
     h' !! top = Some (ODict d') ∧
     d' !! _SLOT_COMPONENT_ASSOC_KEY = d !! _SLOT_COMPONENT_ASSOC_KEY ∧
     visible h' ds _SLOT_COMPONENT_ASSOC_KEY = Some (VRef r) ∧
     h' !! r = Some (ODict m) ∧
     unchanged top h h').
Proof.
  intros Hs Hok Hvis Hr Hne.
  destruct (prepare_context_spec behavior h c ds top d outer_context component_id
              Hs Hok)
    as (h' & d' & Hrun & Hs' & Hun & Hkeys & _ & _ & Hassoc).
  { intros _ v Hv. exists r, m. split_and!; [congruence|done|done]. }
  rewrite Hvis in Hassoc. split.
  - intros [mark Hmark]. rewrite Hmark in Hassoc.
    destruct Hassoc as (clone & r' & m' & Hv & Hr' & Hfresh & Hd' & Hclone).
    injection Hv as <-. rewrite Hr in Hr'. injection Hr' as <-.
    exists h', d', clone. split_and!; [done|done|apply Hs'|done|done|by apply Hun|done].
  - intros Hmark. rewrite Hmark in Hassoc.
    exists h', d'. split_and!; [done|apply Hs'|done| |by apply Hun|done].
    rewrite <- Hvis. eapply visible_unchanged; eauto.
Qed.

Lemma prepare_context_forloop_copy_witness :
  (∃ h' d' clone,
     prepare_context DEFAULT 3 VNone "comp-B" loop_render_store = Ok () h' ∧
     loop_render_store !! clone = None ∧
     h' !! 2 = Some (ODict d') ∧
     d' !! _SLOT_COMPONENT_ASSOC_KEY = Some (VRef clone) ∧
     h' !! clone = Some (ODict {[ "slot-1" := VStr "comp-A" ]}) ∧
     h' !! 4 = Some (ODict {[ "slot-1" := VStr "comp-A" ]})) ∧
  (∃ h' d',
     prepare_context DEFAULT 3 VNone "comp-B" nested_store = Ok () h' ∧
     h' !! 2 = Some (ODict d') ∧
     d' !! _SLOT_COMPONENT_ASSOC_KEY = None).
Proof.
  split.
  - destruct (prepare_context_forloop_copy DEFAULT loop_render_store 3 [0; 1; 2] 2
                {[ "forloop" := VOpaque 1; "item" := VInt 10 ]} VNone "comp-B"
                4 {[ "slot-1" := VStr "comp-A" ]})
      as [Hloop _];
      [concrete_scope | by left | vm_compute; reflexivity | reflexivity | lia |].
    destruct Hloop as (h' & d' & clone & Hrun & Hfresh & Htop & Hd' & Hclone & Hr & _);
      [vm_compute; eauto|].
    by exists h', d', clone.
  - destruct (prepare_context_forloop_copy DEFAULT nested_store 3 [0; 1; 2] 2
                {[ "x" := VInt 1 ]} VNone "comp-B"
                4 {[ "slot-1" := VStr "comp-A" ]})
      as [_ Hplain];
      [concrete_scope | by left | vm_compute; reflexivity | reflexivity | lia |].
    destruct Hplain as (h' & d' & Hrun & Htop & Hd' & _); [vm_compute; reflexivity|].
    exists h', d'. split_and!; [done|done|]. rewrite Hd'. vm_compute. reflexivity.
Defined.

(** C5.  [prepare_context] ends with [set_component_id]: afterwards the
    parent component id of the context is the value its current component
    id had before the call ([None] when there was none) and the current
    component id is the new one.  Hence, when a renderer enters [A], then
    [B], then [C], each on a layer of its own, the context shows [C] with
    parent [B]; back on the layer of [B] it shows [B] with parent [A]; and
    back on the layer of [A] it shows [A] with no parent. *)
Theorem prepare_context_parent_chain :
  (∀ (behavior : SlotContextBehavior) (h : heap) (c : loc) (ds : list loc)
     (top : loc) (d : gmap string val) (outer_context : val)
     (component_id : string) (previous : val),
     scope h c ds top d →
     outer_ok h outer_context →
     assoc_ok h ds top →
     ctx_get c _CURRENT_COMP_KEY VNone h = Ok previous h →
     ∃ h',
       prepare_context behavior c outer_context component_id h = Ok () h' ∧
       ctx_get c _PARENT_COMP_KEY VNone h' = Ok previous h' ∧
       ctx_get c _CURRENT_COMP_KEY VNone h' = Ok (VStr component_id) h') ∧
  (∀ (behavior : SlotContextBehavior) (h : heap) (c : loc) (ds : list loc)
     (top : loc) (d : gmap string val) (outer_a outer_b outer_c : val)
     (id_a id_b id_c : string),
     scope h c ds top d →
     context_or_none h outer_a →
     context_or_none h outer_b →
     context_or_none h outer_c →
     assoc_ok h ds top →
     ctx_get c _CURRENT_COMP_KEY VNone h = Ok VNone h →
     ∃ h',
       nest_and_walk_back behavior c outer_a outer_b outer_c id_a id_b id_c h
       = Ok [ (VStr id_c, VStr id_b); (VStr id_b, VStr id_a); (VStr id_a, VNone) ] h').
Proof.
  split.
  - intros behavior h c ds top d outer_context component_id previous
      Hs Hok Hassoc Hprev.
    rewrite (ctx_get_Ok h c ds) in Hprev; [|apply Hs..]. injection Hprev as Hprev.
    destruct (prepare_context_spec behavior h c ds top d outer_context component_id
                Hs Hok Hassoc)
      as (h' & d' & Hrun & Hs' & _ & _ & Hcur & Hpar & _).
    exists h'. split_and!; [done|..].
    + rewrite (ctx_get_Ok h' c ds); [|apply Hs'..].
      by rewrite (visible_top h' c ds top d' _ _ Hs' Hpar), Hprev.
    + rewrite (ctx_get_Ok h' c ds); [|apply Hs'..].
      by rewrite (visible_top h' c ds top d' _ _ Hs' Hcur).
  - intros behavior h c ds top d outer_a outer_b outer_c id_a id_b id_c
      Hs Ha Hb Hc Hassoc Htop.
    rewrite (ctx_get_Ok h c ds) in Htop; [|apply Hs..]. injection Htop as Htop.
    (* the layer of [A] *)
    destruct (push_step h c ds top d Hs) as (h1 & Hpush1 & Hs1 & Hvis1 & Hframe1).
    pose proof (assoc_ok_push h h1 c ds top d Hs Hvis1 Hframe1 Hassoc) as Hassoc1.
    assert (∀ v, context_or_none h v → context_or_none h1 v) as Hkeep1.
    { intros v. eapply context_or_none_push; [done|apply Hs1|apply Hs1|done]. }
    destruct (enter_step behavior h1 c _ _ _ outer_a id_a Hs1 (Hkeep1 _ Ha) Hassoc1)
      as (h2 & d2 & Henter2 & Hs2 & Hun2 & Hcur2 & Hpar2 & Hassoc2).
    rewrite Hvis1, Htop in Hpar2.
    assert (∀ v, context_or_none h v → context_or_none h2 v) as Hkeep2.
    { intros v Hv. eapply context_or_none_unchanged;
        [exact Hun2|apply Hs1|apply Hs2|by apply Hkeep1]. }
    (* the layer of [B] *)
    destruct (push_step h2 c _ _ d2 Hs2) as (h3 & Hpush3 & Hs3 & Hvis3 & Hframe3).
    pose proof (assoc_ok_push h2 h3 c _ _ d2 Hs2 Hvis3 Hframe3 Hassoc2) as Hassoc3.
    assert (∀ v, context_or_none h v → context_or_none h3 v) as Hkeep3.
    { intros v Hv. eapply context_or_none_push;
        [exact Hs2|apply Hs3|apply Hs3|done|by apply Hkeep2]. }
    destruct (enter_step behavior h3 c _ _ _ outer_b id_b Hs3 (Hkeep3 _ Hb) Hassoc3)
      as (h4 & d4 & Henter4 & Hs4 & Hun4 & Hcur4 & Hpar4 & Hassoc4).
    rewrite Hvis3, (visible_top h2 c _ _ d2 _ _ Hs2 Hcur2) in Hpar4. simpl in Hpar4.
    assert (∀ v, context_or_none h v → context_or_none h4 v) as Hkeep4.
    { intros v Hv. eapply context_or_none_unchanged;
        [exact Hun4|apply Hs3|apply Hs4|by apply Hkeep3]. }
    (* the layer of [C] *)
    destruct (push_step h4 c _ _ d4 Hs4) as (h5 & Hpush5 & Hs5 & Hvis5 & Hframe5).
    pose proof (assoc_ok_push h4 h5 c _ _ d4 Hs4 Hvis5 Hframe5 Hassoc4) as Hassoc5.
    assert (∀ v, context_or_none h v → context_or_none h5 v) as Hkeep5.
    { intros v Hv. eapply context_or_none_push;
        [exact Hs4|apply Hs5|apply Hs5|done|by apply Hkeep4]. }
    destruct (enter_step behavior h5 c _ _ _ outer_c id_c Hs5 (Hkeep5 _ Hc) Hassoc5)
      as (h6 & d6 & Henter6 & Hs6 & Hun6 & Hcur6 & Hpar6 & _).
    rewrite Hvis5, (visible_top h4 c _ _ d4 _ _ Hs4 Hcur4) in Hpar6. simpl in Hpar6.
    (* the layers of [B] and of [A] are as they were left *)
    assert (length h ≠ c ∧ length h2 ≠ c ∧ length h4 ≠ c) as (Hn1 & Hn3 & Hn5).
    { split_and!.
      - exact (lookup_kind_ne h1 _ _ _ _ (scope_top _ _ _ _ _ Hs1) (scope_ctx _ _ _ _ _ Hs1)).
      - exact (lookup_kind_ne h3 _ _ _ _ (scope_top _ _ _ _ _ Hs3) (scope_ctx _ _ _ _ _ Hs3)).
      - exact (lookup_kind_ne h5 _ _ _ _ (scope_top _ _ _ _ _ Hs5) (scope_ctx _ _ _ _ _ Hs5)). }
    assert (length h < length h2 ∧ length h2 < length h4) as [Hlt1 Hlt2].
    { pose proof (scope_top _ _ _ _ _ Hs2) as Ht2.
      pose proof (scope_top _ _ _ _ _ Hs4) as Ht4.
      apply lookup_lt_Some in Ht2, Ht4. done. }
    assert (h6 !! length h2 = Some (ODict d4)) as Hb6.
    { apply Hun6; [lia|]. apply Hframe5; [done|]. apply Hs4. }
    assert (h6 !! length h = Some (ODict d2)) as Ha6.
    { apply Hun6; [lia|]. apply Hframe5; [done|].
      apply Hun4; [lia|]. apply Hframe3; [done|]. apply Hs2. }
    (* the way back *)
    destruct (pop_step h6 c ((ds ++ [length h]) ++ [length h2]) (length h4) d6
                (length h2) d4 Hs6) as [Hpop7 Hs7]; [by rewrite last_snoc|done|].
    set (h7 := <[c := OCtx ((ds ++ [length h]) ++ [length h2])]> h6) in *.
    assert (h7 !! length h = Some (ODict d2)) as Ha7.
    { unfold h7. by rewrite list_lookup_insert_ne. }
    destruct (pop_step h7 c (ds ++ [length h]) (length h2) d4 (length h) d2 Hs7)
      as [Hpop8 Hs8]; [by rewrite last_snoc|done|].
    eexists. unfold nest_and_walk_back.
    run_with Hpush1. run_with Henter2. run_with Hpush3. run_with Henter4.
    run_with Hpush5. run_with Henter6.
    run_with (component_ids_Ok h6 c _ _ d6 _ _ Hs6 Hcur6 Hpar6).
    run_with Hpop7.
    run_with (component_ids_Ok h7 c _ _ d4 _ _ Hs7 Hcur4 Hpar4).
    run_with Hpop8.
    run_with (component_ids_Ok _ c _ _ d2 _ _ Hs8 Hcur2 Hpar2).
    reflexivity.
Qed.

Lemma prepare_context_parent_chain_witness :
  (∃ h',
     prepare_context DEFAULT 3 VNone "comp-B" nested_store = Ok () h' ∧
     ctx_get 3 _PARENT_COMP_KEY VNone h' = Ok VNone h' ∧
     ctx_get 3 _CURRENT_COMP_KEY VNone h' = Ok (VStr "comp-B") h') ∧
  (∃ h',
     nest_and_walk_back ISOLATED 1 VNone (VRef 1) (VRef 1) "A" "B" "C" bare_store
     = Ok [ (VStr "C", VStr "B"); (VStr "B", VStr "A"); (VStr "A", VNone) ] h').
Proof.
  destruct prepare_context_parent_chain as [Henter Hchain]. split.
  - apply (Henter DEFAULT nested_store 3 [0; 1; 2] 2 {[ "x" := VInt 1 ]});
      [concrete_scope | by left | | vm_compute; reflexivity].
    intros [mark Hmark]. vm_compute in Hmark. discriminate Hmark.
  - apply (Hchain ISOLATED bare_store 1 [0] 0 builtins);
      [concrete_scope | by left | | | | vm_compute; reflexivity].
    + right. exists 1, [0]. split_and!; [done|done|concrete_dicts].
    + right. exists 1, [0]. split_and!; [done|done|concrete_dicts].
    + intros [mark Hmark]. vm_compute in Hmark. discriminate Hmark.
Defined.

(** * Further properties of the module *)

(** ** Fills *)

(** X1.  A fill that [set_slot_fill] stores is the fill [get_slot_fill]
    returns for the same component and slot, and of two fills stored for
    the same component and slot the later one is returned.  Storing a fill
    changes one object of the store, the registry; every layer of every
    context is as it was. *)
Theorem set_slot_fill_then_get_slot_fill
    (h : heap) (c : loc) (ds : list loc) (r : loc) (m : gmap string val)
    (component_id slot_name : string) (first second : val) :
  h !! c = Some (OCtx ds) →
  all_dicts h ds →
  visible h ds _FILLED_SLOTS_CONTENT_CONTEXT_KEY = Some (VRef r) →
  h !! r = Some (ODict m) →
  ∃ h1 h2,
    set_slot_fill c component_id slot_name first h = Ok () h1 ∧
    get_slot_fill c component_id slot_name h1 = Ok first h1 ∧
    set_slot_fill c component_id slot_name second h1 = Ok () h2 ∧
    get_slot_fill c component_id slot_name h2 = Ok second h2 ∧
    length h2 = length h ∧
    (∀ x, x ≠ r → h2 !! x = h !! x).
Proof.
  intros Hc Hds Hreg Hr.
  set (key := slot_key component_id slot_name).
  destruct (set_slot_fill_registry h c ds r m Hc Hds Hreg Hr key first)
    as (Hc1 & Hds1 & Hreg1 & Hr1); [apply slot_key_not_reserved|].
  set (h1 := <[r := ODict (<[key := first]> m)]> h) in *.
  destruct (set_slot_fill_registry h1 c ds r _ Hc1 Hds1 Hreg1 Hr1 key second)
    as (Hc2 & Hds2 & Hreg2 & Hr2); [apply slot_key_not_reserved|].
  set (h2 := <[r := ODict (<[key := second]> (<[key := first]> m))]> h1) in *.
  exists h1, h2. split_and!.
  - by apply (set_slot_fill_Ok h c ds r m).
  - rewrite (get_slot_fill_Ok h1 c ds r _ Hc1 Hds1 Hreg1 Hr1).
    fold key. by rewrite lookup_insert_eq.
  - by apply (set_slot_fill_Ok h1 c ds r _).
  - rewrite (get_slot_fill_Ok h2 c ds r _ Hc2 Hds2 Hreg2 Hr2).
    fold key. by rewrite lookup_insert_eq.
  - unfold h2, h1. by rewrite !length_insert.
  - intros x Hx. unfold h2, h1. by rewrite !list_lookup_insert_ne.
Qed.

Lemma set_slot_fill_then_get_slot_fill_witness :
  ∃ h1 h2,
    set_slot_fill 2 "comp-A" "footer" (VOpaque 8) rendering_store = Ok () h1 ∧
    get_slot_fill 2 "comp-A" "footer" h1 = Ok (VOpaque 8) h1 ∧
    set_slot_fill 2 "comp-A" "footer" (VOpaque 9) h1 = Ok () h2 ∧
    get_slot_fill 2 "comp-A" "footer" h2 = Ok (VOpaque 9) h2.
Proof.
  destruct (set_slot_fill_then_get_slot_fill rendering_store 2 [0; 1] 4
              {[ "comp-A__header" := VOpaque 7 ]} "comp-A" "footer"
              (VOpaque 8) (VOpaque 9))
    as (h1 & h2 & H1 & H2 & H3 & H4 & _);
    [reflexivity | concrete_dicts | vm_compute; reflexivity | reflexivity |].
  by exists h1, h2.
Defined.

(** X2.  The registry is shared by reference: a fill stored through one
    context is returned through every other context in which the registry
    key resolves to the same dictionary, as the outer root context of a
    component does. *)
Theorem set_slot_fill_seen_through_other_context
    (h : heap) (c1 c2 : loc) (ds1 ds2 : list loc) (r : loc)
    (m : gmap string val) (component_id slot_name : string) (value : val) :
  h !! c1 = Some (OCtx ds1) →
  all_dicts h ds1 →
  visible h ds1 _FILLED_SLOTS_CONTENT_CONTEXT_KEY = Some (VRef r) →
  h !! c2 = Some (OCtx ds2) →
  all_dicts h ds2 →
  visible h ds2 _FILLED_SLOTS_CONTENT_CONTEXT_KEY = Some (VRef r) →
  h !! r = Some (ODict m) →
  ∃ h',
    set_slot_fill c1 component_id slot_name value h = Ok () h' ∧
    get_slot_fill c2 component_id slot_name h' = Ok value h'.
Proof.
  intros Hc1 Hds1 Hreg1 Hc2 Hds2 Hreg2 Hr.
  destruct (set_slot_fill_registry h c2 ds2 r m Hc2 Hds2 Hreg2 Hr
              (slot_key component_id slot_name) value)
    as (Hc' & Hds' & Hreg' & Hr'); [apply slot_key_not_reserved|].
  eexists. split; [by apply (set_slot_fill_Ok h c1 ds1 r m)|].
  rewrite (get_slot_fill_Ok _ c2 ds2 r _ Hc' Hds' Hreg' Hr').
  by rewrite lookup_insert_eq.
Qed.

Lemma set_slot_fill_seen_through_other_context_witness :
  ∃ h',
    set_slot_fill 2 "comp-A" "footer" (VOpaque 8) shared_registry_store = Ok () h' ∧
    get_slot_fill 4 "comp-A" "footer" h' = Ok (VOpaque 8) h'.
Proof.
  apply (set_slot_fill_seen_through_other_context shared_registry_store
           2 4 [0; 1] [3] 6 {[ "comp-A__header" := VOpaque 7 ]});
    [reflexivity | concrete_dicts | vm_compute; reflexivity
    | reflexivity | concrete_dicts | vm_compute; reflexivity | reflexivity].
Defined.

(** ** Associations *)

Lemma get_slot_component_association_Ok h c ds r m slot_id :
  h !! c = Some (OCtx ds) → all_dicts h ds →
  visible h ds _SLOT_COMPONENT_ASSOC_KEY = Some (VRef r) →
  h !! r = Some (ODict m) →
  get_slot_component_association c slot_id h
  = match m !! slot_id with
    | Some v => Ok v h
    | None => Raise (KeyError slot_id) h
    end.
Proof.
  intros Hc Hds Hvis Hr. unfold get_slot_component_association.
  run_with (ctx_getitem_Ok h c ds Hc Hds _ _ Hvis).
  run_with (eq_refl : the_ref (VRef r) h = Ok r h).
  unfold dict_getitem. run_with (load_dict_Ok _ _ _ Hr).
  by destruct (m !! slot_id).
Qed.

(** The top layer has a map of its own: the binding is written into it. *)
Lemma set_slot_component_association_owned h c ds top d r m slot_id component_id :
  scope h c ds top d →
  d !! _SLOT_COMPONENT_ASSOC_KEY = Some (VRef r) →
  h !! r = Some (ODict m) →
  set_slot_component_association c slot_id component_id h
  = Ok () (<[r := ODict (<[slot_id := VStr component_id]> m)]> h).
Proof.
  intros Hs Hown Hr. unfold set_slot_component_association.
  run_with (ctx_top_Ok _ _ _ _ _ Hs).
  assert (dict_contains top _SLOT_COMPONENT_ASSOC_KEY h = Ok true h) as Howned.
  { unfold dict_contains. run_with (load_dict_Ok _ _ _ (scope_top _ _ _ _ _ Hs)).
    unfold ret. f_equal. apply bool_decide_eq_true. by rewrite Hown. }
  run_with Howned.
  run_with (eq_refl : ret () h = Ok () h).
  run_with (ctx_getitem_Ok h c ds (scope_ctx _ _ _ _ _ Hs) (scope_layers _ _ _ _ _ Hs)
              _ _ (visible_top h c ds top d _ _ Hs Hown)).
  run_with (eq_refl : the_ref (VRef r) h = Ok r h).
  by apply dict_setitem_Ok.
Qed.

(** The top layer has no map of its own: the binding is written into a
    clone of the visible map, which becomes the map of the top layer. *)
Lemma set_slot_component_association_cloned h c ds top d r m slot_id component_id :
  scope h c ds top d →
  d !! _SLOT_COMPONENT_ASSOC_KEY = None →
  visible h ds _SLOT_COMPONENT_ASSOC_KEY = Some (VRef r) →
  h !! r = Some (ODict m) →
  set_slot_component_association c slot_id component_id h
  = Ok () (<[length h := ODict (<[slot_id := VStr component_id]> m)]>
             (set_top (h ++ [ODict m]) top d _SLOT_COMPONENT_ASSOC_KEY
                (VRef (length h)))).
Proof.
  intros Hs Hown Hvis Hr. unfold set_slot_component_association.
  pose proof (scope_alloc h [ODict m] c ds top d Hs) as Hs1.
  pose proof (scope_set_top _ c ds top d _SLOT_COMPONENT_ASSOC_KEY
                (VRef (length h)) Hs1) as Hs2.
  run_with (ctx_top_Ok _ _ _ _ _ Hs).
  assert (dict_contains top _SLOT_COMPONENT_ASSOC_KEY h = Ok false h) as Hnot.
  { unfold dict_contains. run_with (load_dict_Ok _ _ _ (scope_top _ _ _ _ _ Hs)).
    unfold ret. f_equal. apply bool_decide_eq_false. rewrite Hown. by intros []. }
  run_with Hnot.
  assert ((let* assoc := ctx_getitem c _SLOT_COMPONENT_ASSOC_KEY in
           let* r := the_ref assoc in
           let* clone := dict_copy r in
           dict_setitem top _SLOT_COMPONENT_ASSOC_KEY (VRef clone)) h
          = Ok () (set_top (h ++ [ODict m]) top d _SLOT_COMPONENT_ASSOC_KEY
                     (VRef (length h)))) as Hclone.
  { run_with (ctx_getitem_Ok h c ds (scope_ctx _ _ _ _ _ Hs)
                (scope_layers _ _ _ _ _ Hs) _ _ Hvis).
    run_with (eq_refl : the_ref (VRef r) h = Ok r h).
    run_with (dict_copy_Ok _ _ _ Hr).
    by rewrite (dict_setitem_Ok _ _ _ _ _ (scope_top _ _ _ _ _ Hs1)). }
  run_with Hclone.
  set (h2 := set_top (h ++ [ODict m]) top d _SLOT_COMPONENT_ASSOC_KEY
               (VRef (length h))) in *.
  run_with (ctx_getitem_Ok h2 c ds (scope_ctx _ _ _ _ _ Hs2)
              (scope_layers _ _ _ _ _ Hs2) _ _
              (visible_set_top_eq _ c ds top d _ _ Hs1)).
  run_with (eq_refl : the_ref (VRef (length h)) h2 = Ok (length h) h2).
  apply dict_setitem_Ok. unfold h2, set_top.
  rewrite list_lookup_insert_ne; [apply lookup_alloc_new|].
  by eapply scope_top_lt.
Qed.

(** An object of a concrete store is none of the listed layers. *)
Ltac concrete_not_layer :=
  let Hin := fresh in
  intros Hin;
  repeat (apply elem_of_cons in Hin as [Hin|Hin]; [discriminate Hin|]);
  by apply not_elem_of_nil in Hin.

(** X3.  [set_slot_component_association] and
    [get_slot_component_association] fit together whether the top layer
    has a map of its own or not: afterwards the slot is associated with the
    new component, and every other slot has the association, or the lack of
    one, that the visible map gave it before. *)
Theorem set_slot_component_association_then_get
    (h : heap) (c : loc) (ds : list loc) (top : loc) (d : gmap string val)
    (r : loc) (m : gmap string val) (slot_id component_id : string) :
  scope h c ds top d →
  visible h ds _SLOT_COMPONENT_ASSOC_KEY = Some (VRef r) →
  h !! r = Some (ODict m) →
  r ∉ ds →
  ∃ h',
    set_slot_component_association c slot_id component_id h = Ok () h' ∧
    get_slot_component_association c slot_id h' = Ok (VStr component_id) h' ∧
    ∀ other, other ≠ slot_id →
      get_slot_component_association c other h'
      = match m !! other with
        | Some v => Ok v h'
        | None => Raise (KeyError other) h'
        end.
Proof.
  intros Hs Hvis Hr Hrds.
  assert (r ≠ c) as Hrc by by eapply lookup_kind_ne, Hs.
  assert (∀ h' r', h' !! c = Some (OCtx ds) → all_dicts h' ds →
            visible h' ds _SLOT_COMPONENT_ASSOC_KEY = Some (VRef r') →
            h' !! r' = Some (ODict (<[slot_id := VStr component_id]> m)) →
            get_slot_component_association c slot_id h' = Ok (VStr component_id) h' ∧
            ∀ other, other ≠ slot_id →
              get_slot_component_association c other h'
              = match m !! other with
                | Some v => Ok v h'
                | None => Raise (KeyError other) h'
                end) as Hafter.
  { intros h' r' Hc' Hds' Hvis' Hr'. split.
    - rewrite (get_slot_component_association_Ok h' c ds r' _ _ Hc' Hds' Hvis' Hr').
      by rewrite lookup_insert_eq.
    - intros other Hne.
      rewrite (get_slot_component_association_Ok h' c ds r' _ _ Hc' Hds' Hvis' Hr').
      by rewrite lookup_insert_ne. }
  destruct (d !! _SLOT_COMPONENT_ASSOC_KEY) as [v|] eqn:Hown.
  - assert (v = VRef r) as ->.
    { pose proof (visible_top h c ds top d _ _ Hs Hown). congruence. }
    eexists. split;
      [by apply (set_slot_component_association_owned h c ds top d r m)|].
    pose proof (scope_replace_new h c ds top d r
                  (ODict (<[slot_id := VStr component_id]> m)) Hs Hrc Hrds) as Hs'.
    apply (Hafter _ r); [apply Hs'|apply Hs'| |by eapply lookup_replace].
    rewrite visible_replace_new; [done|apply Hs|done].
  - eexists. split;
      [by apply (set_slot_component_association_cloned h c ds top d r m)|].
    pose proof (scope_alloc h [ODict m] c ds top d Hs) as Hs1.
    pose proof (scope_set_top _ c ds top d _SLOT_COMPONENT_ASSOC_KEY
                  (VRef (length h)) Hs1) as Hs2.
    destruct (fresh_not_scope h c ds top d (length h) Hs) as (Hnc & Hnds & Hntop);
      [apply lookup_ge_None; lia|].
    pose proof (scope_replace_new _ c ds top _ (length h)
                  (ODict (<[slot_id := VStr component_id]> m)) Hs2 Hnc Hnds) as Hs3.
    apply (Hafter _ (length h)); [apply Hs3|apply Hs3| |].
    + rewrite visible_replace_new; [|apply Hs2|done].
      by apply (visible_set_top_eq _ c).
    + eapply lookup_replace. unfold set_top.
      rewrite list_lookup_insert_ne by done. apply lookup_alloc_new.
Qed.

Lemma set_slot_component_association_then_get_witness :
  (∃ h',
     set_slot_component_association 3 "slot-2" "comp-B" nested_store = Ok () h' ∧
     get_slot_component_association 3 "slot-2" h' = Ok (VStr "comp-B") h' ∧
     get_slot_component_association 3 "slot-1" h' = Ok (VStr "comp-A") h') ∧
  (∃ h',
     set_slot_component_association 2 "slot-2" "comp-B" rendering_store = Ok () h' ∧
     get_slot_component_association 2 "slot-2" h' = Ok (VStr "comp-B") h' ∧
     get_slot_component_association 2 "slot-1" h' = Ok (VStr "comp-A") h').
Proof.
  split.
  - destruct (set_slot_component_association_then_get nested_store 3 [0; 1; 2] 2
                {[ "x" := VInt 1 ]} 4 {[ "slot-1" := VStr "comp-A" ]}
                "slot-2" "comp-B")
      as (h' & Hset & Hget & Hother);
      [concrete_scope | vm_compute; reflexivity | reflexivity
      | concrete_not_layer |].
    exists h'. split_and!; [done|done|]. by rewrite (Hother "slot-1").
  - destruct (set_slot_component_association_then_get rendering_store 2 [0; 1] 1
                {[ _SLOT_COMPONENT_ASSOC_KEY := VRef 3;
                   _FILLED_SLOTS_CONTENT_CONTEXT_KEY := VRef 4 ]}
                3 {[ "slot-1" := VStr "comp-A" ]} "slot-2" "comp-B")
      as (h' & Hset & Hget & Hother);
      [concrete_scope | vm_compute; reflexivity | reflexivity
      | concrete_not_layer |].
    exists h'. split_and!; [done|done|]. by rewrite (Hother "slot-1").
Defined.

(** X4.  Copy-on-write copies once per layer: of two associations set in
    a row on a layer that had no map of its own, the first one clones the
    visible map and the second one is written into that clone.  One object
    is allocated in all, both associations are there afterwards, and the
    map the lower layers share is as it was. *)
Theorem set_slot_component_association_twice
    (h : heap) (c : loc) (ds : list loc) (top : loc) (d : gmap string val)
    (r : loc) (m : gmap string val)
    (slot_1 component_1 slot_2 component_2 : string) :
  scope h c ds top d →
  d !! _SLOT_COMPONENT_ASSOC_KEY = None →
  visible h ds _SLOT_COMPONENT_ASSOC_KEY = Some (VRef r) →
  h !! r = Some (ODict m) →
  r ≠ top →
  ∃ h1 h2,
    set_slot_component_association c slot_1 component_1 h = Ok () h1 ∧
    set_slot_component_association c slot_2 component_2 h1 = Ok () h2 ∧
    length h2 = S (length h) ∧
    get_slot_component_association c slot_2 h2 = Ok (VStr component_2) h2 ∧
    (slot_1 ≠ slot_2 →
     get_slot_component_association c slot_1 h2 = Ok (VStr component_1) h2) ∧
    h2 !! r = Some (ODict m).
Proof.
  intros Hs Hown Hvis Hr Hrtop.
  pose proof (scope_alloc h [ODict m] c ds top d Hs) as Hs1.
  pose proof (scope_set_top _ c ds top d _SLOT_COMPONENT_ASSOC_KEY
                (VRef (length h)) Hs1) as Hs2.
  destruct (fresh_not_scope h c ds top d (length h) Hs) as (Hnc & Hnds & Hntop);
    [apply lookup_ge_None; lia|].
  set (m1 := <[slot_1 := VStr component_1]> m).
  pose proof (scope_replace_new _ c ds top _ (length h) (ODict m1) Hs2 Hnc Hnds) as Hs3.
  set (h1 := <[length h := ODict m1]>
               (set_top (h ++ [ODict m]) top d _SLOT_COMPONENT_ASSOC_KEY
                  (VRef (length h)))) in *.
  assert (h1 !! length h = Some (ODict m1)) as Hn1.
  { eapply lookup_replace. unfold set_top.
    rewrite list_lookup_insert_ne by done. apply lookup_alloc_new. }
  set (m2 := <[slot_2 := VStr component_2]> m1).
  pose proof (scope_replace_new _ c ds top _ (length h) (ODict m2) Hs3 Hnc Hnds) as Hs4.
  set (h2 := <[length h := ODict m2]> h1) in *.
  assert (visible h2 ds _SLOT_COMPONENT_ASSOC_KEY = Some (VRef (length h))) as Hvis2.
  { eapply visible_top; [exact Hs4|]. by rewrite lookup_insert_eq. }
  assert (h2 !! length h = Some (ODict m2)) as Hn2 by by eapply lookup_replace.
  exists h1, h2. split_and!.
  - by apply (set_slot_component_association_cloned h c ds top d r m).
  - apply (set_slot_component_association_owned h1 c ds top
             (<[_SLOT_COMPONENT_ASSOC_KEY := VRef (length h)]> d) (length h) m1);
      [done|by rewrite lookup_insert_eq|done].
  - unfold h2, h1, set_top. rewrite !length_insert, length_app. simpl. lia.
  - rewrite (get_slot_component_association_Ok h2 c ds _ m2 _
               (scope_ctx _ _ _ _ _ Hs4) (scope_layers _ _ _ _ _ Hs4) Hvis2 Hn2).
    unfold m2. by rewrite lookup_insert_eq.
  - intros Hne.
    rewrite (get_slot_component_association_Ok h2 c ds _ m2 _
               (scope_ctx _ _ _ _ _ Hs4) (scope_layers _ _ _ _ _ Hs4) Hvis2 Hn2).
    unfold m2, m1. rewrite lookup_insert_ne by done. by rewrite lookup_insert_eq.
  - assert (r ≠ length h) as Hrn by (apply lookup_lt_Some in Hr; lia).
    unfold h2, h1, set_top. rewrite !list_lookup_insert_ne by done.
    by apply lookup_alloc.
Qed.

Lemma set_slot_component_association_twice_witness :
  ∃ h1 h2,
    set_slot_component_association 3 "slot-1" "comp-B" nested_store = Ok () h1 ∧
    set_slot_component_association 3 "slot-2" "comp-C" h1 = Ok () h2 ∧
    length h2 = 7 ∧
    get_slot_component_association 3 "slot-2" h2 = Ok (VStr "comp-C") h2 ∧
    get_slot_component_association 3 "slot-1" h2 = Ok (VStr "comp-B") h2 ∧
    h2 !! 4 = Some (ODict {[ "slot-1" := VStr "comp-A" ]}).
Proof.
  destruct (set_slot_component_association_twice nested_store 3 [0; 1; 2] 2
              {[ "x" := VInt 1 ]} 4 {[ "slot-1" := VStr "comp-A" ]}
              "slot-1" "comp-B" "slot-2" "comp-C")
    as (h1 & h2 & H1 & H2 & Hlen & Hget2 & Hget1 & Hshared);
    [concrete_scope | vm_compute; reflexivity | vm_compute; reflexivity
    | reflexivity | lia |].
  exists h1, h2. split_and!; [done|done|done|done|by apply Hget1|done].
Defined.

(** X5.  [set_slot_component_association] needs an association map to
    start from: in a context no layer of which has one, as before
    [prepare_context], it raises [KeyError] on the reserved key and leaves
    the store as it was. *)
Theorem set_slot_component_association_needs_map
    (h : heap) (c : loc) (ds : list loc) (top : loc) (d : gmap string val)
    (slot_id component_id : string) :
  scope h c ds top d →
  visible h ds _SLOT_COMPONENT_ASSOC_KEY = None →
  set_slot_component_association c slot_id component_id h
  = Raise (KeyError _SLOT_COMPONENT_ASSOC_KEY) h.
Proof.
  intros Hs Hvis.
  assert (d !! _SLOT_COMPONENT_ASSOC_KEY = None) as Hown.
  { destruct (d !! _SLOT_COMPONENT_ASSOC_KEY) as [v|] eqn:Hd; [|done].
    pose proof (visible_top h c ds top d _ _ Hs Hd). congruence. }
  unfold set_slot_component_association.
  run_with (ctx_top_Ok _ _ _ _ _ Hs).
  assert (dict_contains top _SLOT_COMPONENT_ASSOC_KEY h = Ok false h) as Hnot.
  { unfold dict_contains. run_with (load_dict_Ok _ _ _ (scope_top _ _ _ _ _ Hs)).
    unfold ret. f_equal. apply bool_decide_eq_false. rewrite Hown. by intros []. }
  run_with Hnot.
  apply bind_Raise. apply bind_Raise.
  apply (ctx_getitem_KeyError h c ds); [apply Hs..|done].
Qed.

Lemma set_slot_component_association_needs_map_witness :
  set_slot_component_association 1 "slot-1" "comp-A" bare_store
  = Raise (KeyError _SLOT_COMPONENT_ASSOC_KEY) bare_store.
Proof.
  apply (set_slot_component_association_needs_map bare_store 1 [0] 0 builtins);
    [concrete_scope | vm_compute; reflexivity].
Defined.

(** ** The outer root context *)

(** The three ways [set_outer_root_context] builds the outer root context
    [orc] have this in common: [orc] and its layers are new objects, the
    top layer of [orc] has the mappings that are visible in the context,
    and of the objects that were in the store only the top layer of the
    context changes. *)
Lemma set_outer_root_context_result behavior h c ds top d outer_ctx :
  scope h c ds top d →
  outer_ok h outer_ctx →
  ∃ h' orc dsO topO dO,
    set_outer_root_context behavior c outer_ctx h = Ok () h' ∧
    h !! orc = None ∧
    (∀ r, r ∈ dsO → h !! r = None) ∧
    scope h' c ds top (<[_OUTER_ROOT_CTX_CONTEXT_KEY := VRef orc]> d) ∧
    scope h' orc dsO topO dO ∧
    unchanged top h h' ∧
    (∀ v, visible h ds _SLOT_COMPONENT_ASSOC_KEY = Some v →
          dO !! _SLOT_COMPONENT_ASSOC_KEY = Some v) ∧
    (∀ v, visible h ds _FILLED_SLOTS_CONTENT_CONTEXT_KEY = Some v →
          dO !! _FILLED_SLOTS_CONTENT_CONTEXT_KEY = Some v).
Proof.
  intros Hs Hok.
  pose proof (scope_ctx _ _ _ _ _ Hs) as Hc.
  pose proof (scope_layers _ _ _ _ _ Hs) as Hds.
  assert (∀ hA dsO topO dO,
            new_outer_root_context behavior c outer_ctx h
            = Ok (length h + 1) hA →
            preserved h hA →
            scope hA (length h + 1) dsO topO dO →
            (∀ r, r ∈ dsO → h !! r = None) →
            ∃ h' orc dsO topO dO,
              set_outer_root_context behavior c outer_ctx h = Ok () h' ∧
              h !! orc = None ∧
              (∀ r, r ∈ dsO → h !! r = None) ∧
              scope h' c ds top (<[_OUTER_ROOT_CTX_CONTEXT_KEY := VRef orc]> d) ∧
              scope h' orc dsO topO dO ∧
              unchanged top h h' ∧
              (∀ v, visible h ds _SLOT_COMPONENT_ASSOC_KEY = Some v →
                    dO !! _SLOT_COMPONENT_ASSOC_KEY = Some v) ∧
              (∀ v, visible h ds _FILLED_SLOTS_CONTENT_CONTEXT_KEY = Some v →
                    dO !! _FILLED_SLOTS_CONTENT_CONTEXT_KEY = Some v)) as Hfinish.
  { intros hA dsO topO dO Hnew Hpre Ho Hfresh.
    destruct (set_outer_root_context_stored behavior h hA c ds top d outer_ctx
                (length h + 1) dsO topO dO Hs Hnew Hpre Ho
                (lookup_new_None h 1) Hfresh)
      as (h' & Hrun & Hs' & Ho' & Hun & _).
    eexists h', (length h + 1), dsO, topO, _.
    split_and!; [done|apply lookup_new_None|done|done|exact Ho'|done|..].
    - intros v Hv. rewrite Hv. unfold include_into.
      destruct (visible h ds _FILLED_SLOTS_CONTENT_CONTEXT_KEY).
      + rewrite lookup_insert_ne by done. by rewrite lookup_insert_eq.
      + by rewrite lookup_insert_eq.
    - intros v Hv. rewrite Hv. unfold include_into. by rewrite lookup_insert_eq. }
  assert (∀ l : list loc, (∀ r, r ∈ l → ∃ i, r = length h + i) →
                          ∀ r, r ∈ l → h !! r = None) as Hnew_layers.
  { intros l Hl r Hr. destruct (Hl r Hr) as [i ->]. apply lookup_new_None. }
  destruct (isolated_top_level behavior h ds outer_ctx) eqn:Hspecial.
  - destruct Hok as [Hfalse|(o & ods & -> & Ho & Hods)].
    { unfold isolated_top_level in Hspecial. by rewrite Hfalse in Hspecial. }
    destruct (new_outer_root_context_flat behavior h c ds o ods Hc Hds Ho Hods Hspecial)
      as (flat & Hnew & _).
    eapply Hfinish; [exact Hnew|apply preserved_alloc|new_scope|].
    apply Hnew_layers. intros r Hr.
    repeat (apply elem_of_cons in Hr as [->|Hr]; [by eexists|]).
    by apply not_elem_of_nil in Hr.
  - destruct Hok as [Hfalse|(o & ods & -> & Ho & Hods)].
    + eapply Hfinish;
        [by apply (new_outer_root_context_empty behavior h c ds outer_ctx Hc Hds Hspecial),
              has_own_layer_false
        |apply preserved_alloc|new_scope|].
      apply Hnew_layers. intros r Hr.
      repeat (apply elem_of_cons in Hr as [->|Hr]; [by eexists|]).
      by apply not_elem_of_nil in Hr.
    + destruct (ods !! 1) as [own|] eqn:Hown.
      * assert (∃ d1, h !! own = Some (ODict d1)) as [d1 Hd1].
        { eapply Forall_forall in Hods; [exact Hods|]. by eapply list_elem_of_lookup_2. }
        eapply Hfinish;
          [by apply (new_outer_root_context_own behavior h c ds o ods own d1)
          |apply preserved_alloc|new_scope|].
        apply Hnew_layers. intros r Hr.
        repeat (apply elem_of_cons in Hr as [->|Hr]; [by eexists|]).
        by apply not_elem_of_nil in Hr.
      * eapply Hfinish;
          [apply (new_outer_root_context_empty behavior h c ds (VRef o) Hc Hds Hspecial)
          |apply preserved_alloc|new_scope|].
        { rewrite (has_own_layer_Ok h o ods Ho). f_equal.
          apply bool_decide_eq_false_2. apply lookup_ge_None in Hown. lia. }
        apply Hnew_layers. intros r Hr.
        repeat (apply elem_of_cons in Hr as [->|Hr]; [by eexists|]).
        by apply not_elem_of_nil in Hr.
Qed.

Lemma get_outer_root_context_stored h c ds top d orc :
  scope h c ds top (<[_OUTER_ROOT_CTX_CONTEXT_KEY := VRef orc]> d) →
  get_outer_root_context c h = Ok (VRef orc) h.
Proof.
  intros Hs. unfold get_outer_root_context.
  rewrite (ctx_get_Ok h c ds); [|apply Hs..].
  rewrite (visible_top h c ds top _ _ (VRef orc) Hs); [done|].
  by rewrite lookup_insert_eq.
Qed.

(** X6.  The outer root context is a snapshot.  Whatever the outer context
    and the setting, [set_outer_root_context] stores a context that did
    not exist before the call (never the outer context itself), built from
    new layers; of the objects that existed only the top layer of the
    context changes; and a later write into any dictionary that existed
    before the call, a layer of the outer context for one, does not change
    what the outer root context exposes. *)
Theorem set_outer_root_context_is_a_snapshot
    (behavior : SlotContextBehavior)
    (h : heap) (c : loc) (ds : list loc) (top : loc) (d : gmap string val)
    (outer_ctx : val) :
  scope h c ds top d →
  outer_ok h outer_ctx →
  ∃ h' orc (exposed : string → option val),
    set_outer_root_context behavior c outer_ctx h = Ok () h' ∧
    get_outer_root_context c h' = Ok (VRef orc) h' ∧
    h !! orc = None ∧
    unchanged top h h' ∧
    (∀ k otherwise,
       ctx_get orc k otherwise h' = Ok (default otherwise (exposed k)) h') ∧
    (∀ r k' v' h'',
       is_Some (h !! r) →
       dict_setitem r k' v' h' = Ok () h'' →
       ∀ k otherwise,
         ctx_get orc k otherwise h'' = Ok (default otherwise (exposed k)) h'').
Proof.
  intros Hs Hok.
  destruct (set_outer_root_context_result behavior h c ds top d outer_ctx Hs Hok)
    as (h' & orc & dsO & topO & dO & Hrun & Horc & Hfresh & Hs' & Ho' & Hun & _).
  exists h', orc, (visible h' dsO). split_and!; [done| |done|done| |].
  - by eapply get_outer_root_context_stored.
  - intros k otherwise. apply ctx_get_Ok; apply Ho'.
  - intros r k' v' h'' [o Hr] Hset k otherwise.
    assert (r ≠ orc) as Hrorc by (intros ->; congruence).
    assert (r ∉ dsO) as Hrds.
    { intros Hin. apply Hfresh in Hin. congruence. }
    unfold dict_setitem, bind, load_dict, store in Hset.
    destruct (h' !! r) as [[dd|]|] eqn:Hr'; simplify_eq.
    pose proof (scope_replace_new h' orc dsO topO dO r
                  (ODict (<[k' := v']> dd)) Ho' Hrorc Hrds) as Ho''.
    rewrite (ctx_get_Ok _ orc dsO); [|apply Ho''..].
    rewrite visible_replace_new; [done|apply Ho'|done].
Qed.

Lemma set_outer_root_context_is_a_snapshot_witness :
  ∃ h' orc h'' v,
    set_outer_root_context DEFAULT 6 (VRef 3) page_store = Ok () h' ∧
    get_outer_root_context 6 h' = Ok (VRef orc) h' ∧
    page_store !! orc = None ∧
    dict_setitem 1 "a" (VInt 99) h' = Ok () h'' ∧
    ctx_get orc "a" VNone h' = Ok v h' ∧
    ctx_get orc "a" VNone h'' = Ok v h''.
Proof.
  destruct (set_outer_root_context_is_a_snapshot DEFAULT page_store 6 [4; 5] 5 ∅
              (VRef 3))
    as (h' & orc & exposed & Hrun & Hget & Hnew & Hun & Hexp & Hlater);
    [concrete_scope | right; exists 3, [0; 1; 2]; split_and!;
                      [reflexivity | reflexivity | concrete_dicts] |].
  assert (h' !! 1 = Some (ODict {[ "a" := VInt 1 ]})) as Hlayer
    by (apply Hun; [lia|reflexivity]).
  eexists h', orc, _, _. split_and!; [done|done|done| | |].
  - by apply dict_setitem_Ok.
  - apply Hexp.
  - eapply Hlater; [|by apply dict_setitem_Ok]. by eexists.
Defined.

(** X7.  The outer root context gets the mappings by reference: the
    association map and the fill registry visible in the context are what
    the two reserved keys resolve to in the outer root context.  So a fill
    is found through either of the two contexts, and a fill stored through
    the outer root context is returned through the context. *)
Theorem set_outer_root_context_shares_mappings
    (behavior : SlotContextBehavior)
    (h : heap) (c : loc) (ds : list loc) (top : loc) (d : gmap string val)
    (outer_ctx : val) (r : loc) (m : gmap string val) :
  scope h c ds top d →
  outer_ok h outer_ctx →
  visible h ds _FILLED_SLOTS_CONTENT_CONTEXT_KEY = Some (VRef r) →
  h !! r = Some (ODict m) →
  r ≠ top →
  ∃ h' orc,
    set_outer_root_context behavior c outer_ctx h = Ok () h' ∧
    get_outer_root_context c h' = Ok (VRef orc) h' ∧
    (∀ v, visible h ds _SLOT_COMPONENT_ASSOC_KEY = Some v →
          ctx_get orc _SLOT_COMPONENT_ASSOC_KEY VNone h' = Ok v h') ∧
    ctx_get orc _FILLED_SLOTS_CONTENT_CONTEXT_KEY VNone h' = Ok (VRef r) h' ∧
    (∀ component_id slot_name,
       get_slot_fill orc component_id slot_name h'
       = Ok (default VNone (m !! slot_key component_id slot_name)) h' ∧
       get_slot_fill c component_id slot_name h'
       = Ok (default VNone (m !! slot_key component_id slot_name)) h') ∧
    (∀ component_id slot_name value,
       ∃ h'', set_slot_fill orc component_id slot_name value h' = Ok () h'' ∧
              get_slot_fill c component_id slot_name h'' = Ok value h'').
Proof.
  intros Hs Hok Hreg Hr Hrtop.
  destruct (set_outer_root_context_result behavior h c ds top d outer_ctx Hs Hok)
    as (h' & orc & dsO & topO & dO & Hrun & Horc & Hfresh & Hs' & Ho' & Hun
        & Hassoc & Hfills).
  assert (h' !! r = Some (ODict m)) as Hr' by by apply Hun.
  assert (visible h' dsO _FILLED_SLOTS_CONTENT_CONTEXT_KEY = Some (VRef r)) as HregO.
  { eapply visible_top; [exact Ho'|]. by apply Hfills. }
  assert (visible h' ds _FILLED_SLOTS_CONTENT_CONTEXT_KEY = Some (VRef r)) as HregC.
  { rewrite <- Hreg. eapply visible_unchanged; [exact Hs|exact Hs'|exact Hun|].
    by rewrite lookup_insert_ne. }
  exists h', orc. split_and!; [done| | | | |].
  - by eapply get_outer_root_context_stored.
  - intros v Hv. rewrite (ctx_get_Ok h' orc dsO); [|apply Ho'..].
    by rewrite (visible_top h' orc dsO topO dO _ v Ho' (Hassoc v Hv)).
  - rewrite (ctx_get_Ok h' orc dsO); [|apply Ho'..]. by rewrite HregO.
  - intros component_id slot_name. split.
    + apply (get_slot_fill_Ok h' orc dsO r m); [apply Ho'..|done|done].
    + apply (get_slot_fill_Ok h' c ds r m); [apply Hs'..|done|done].
  - intros component_id slot_name value.
    destruct (set_slot_fill_registry h' c ds r m (scope_ctx _ _ _ _ _ Hs')
                (scope_layers _ _ _ _ _ Hs') HregC Hr'
                (slot_key component_id slot_name) value)
      as (Hc'' & Hds'' & Hreg'' & Hr''); [apply slot_key_not_reserved|].
    eexists. split.
    + apply (set_slot_fill_Ok h' orc dsO r m); [apply Ho'..|done|done].
    + rewrite (get_slot_fill_Ok _ c ds r _ Hc'' Hds'' Hreg'' Hr'').
      by rewrite lookup_insert_eq.
Qed.

Lemma set_outer_root_context_shares_mappings_witness :
  ∃ h' orc h'',
    set_outer_root_context ISOLATED 6 (VRef 3) second_pass_store = Ok () h' ∧
    get_outer_root_context 6 h' = Ok (VRef orc) h' ∧
    ctx_get orc _SLOT_COMPONENT_ASSOC_KEY VNone h' = Ok (VRef 9) h' ∧
    ctx_get orc _FILLED_SLOTS_CONTENT_CONTEXT_KEY VNone h' = Ok (VRef 10) h' ∧
    set_slot_fill orc "comp-A" "header" (VOpaque 7) h' = Ok () h'' ∧
    get_slot_fill 6 "comp-A" "header" h'' = Ok (VOpaque 7) h''.
Proof.
  destruct (set_outer_root_context_shares_mappings ISOLATED second_pass_store
              6 [4; 5] 5
              {[ _OUTER_ROOT_CTX_CONTEXT_KEY := VRef 8;
                 _SLOT_COMPONENT_ASSOC_KEY := VRef 9;
                 _FILLED_SLOTS_CONTENT_CONTEXT_KEY := VRef 10 ]}
              (VRef 3) 10 ∅)
    as (h' & orc & Hrun & Hget & Hassoc & Hfills & _ & Hset);
    [concrete_scope
    | right; exists 3, [0; 1; 2]; split_and!;
      [reflexivity | reflexivity | concrete_dicts]
    | vm_compute; reflexivity | reflexivity | lia |].
  destruct (Hset "comp-A" "header" (VOpaque 7)) as (h'' & Hset'' & Hget'').
  exists h', orc, h''. split_and!; [done|done| |done|done|done].
  apply Hassoc. vm_compute. reflexivity.
Defined.

(** X8.  Without an outer context ([None], or any false value) the outer
    root context is a new [Context()] of one layer, and the two mappings
    visible in the context are written into that layer: apart from its
    builtin names and the two reserved keys it exposes nothing. *)
Theorem set_outer_root_context_without_outer
    (behavior : SlotContextBehavior)
    (h : heap) (c : loc) (ds : list loc) (top : loc) (d : gmap string val)
    (outer_ctx : val) :
  scope h c ds top d →
  truthy h outer_ctx = false →
  ∃ h' orc base,
    set_outer_root_context behavior c outer_ctx h = Ok () h' ∧
    get_outer_root_context c h' = Ok (VRef orc) h' ∧
    h' !! orc = Some (OCtx [base]) ∧
    h' !! base
    = Some (ODict
              (include_into (visible h ds _FILLED_SLOTS_CONTENT_CONTEXT_KEY)
                 _FILLED_SLOTS_CONTENT_CONTEXT_KEY
                 (include_into (visible h ds _SLOT_COMPONENT_ASSOC_KEY)
                    _SLOT_COMPONENT_ASSOC_KEY builtins))) ∧
    ∀ k, k ≠ _SLOT_COMPONENT_ASSOC_KEY →
         k ≠ _FILLED_SLOTS_CONTENT_CONTEXT_KEY →
         builtins !! k = None →
         ctx_contains orc k h' = Ok false h'.
Proof.
  intros Hs Hfalse.
  pose proof (scope_ctx _ _ _ _ _ Hs) as Hc.
  pose proof (scope_layers _ _ _ _ _ Hs) as Hds.
  assert (isolated_top_level behavior h ds outer_ctx = false) as Hspecial.
  { unfold isolated_top_level. by rewrite Hfalse. }
  pose proof (new_outer_root_context_empty behavior h c ds outer_ctx Hc Hds Hspecial
                (has_own_layer_false h outer_ctx Hfalse)) as Hnew.
  destruct (set_outer_root_context_stored behavior h _ c ds top d outer_ctx
              (length h + 1) [length h + 0] (length h + 0) builtins Hs Hnew)
    as (h' & Hrun & Hs' & Ho' & Hun & Hrest);
    [apply preserved_alloc|new_scope|apply lookup_new_None| |].
  { intros r Hr. apply list_elem_of_singleton in Hr as ->. apply lookup_new_None. }
  set (bd := include_into _ _ (include_into _ _ _)) in *.
  exists h', (length h + 1), (length h + 0). split_and!; [done| | | |].
  - by eapply get_outer_root_context_stored.
  - apply Ho'.
  - apply Ho'.
  - intros k Hk1 Hk2 Hk.
    rewrite (ctx_contains_Ok h' (length h + 1) [length h + 0]); [|apply Ho'..].
    unfold ret. f_equal. apply bool_decide_eq_false_2.
    assert (bd !! k = None) as Hbd.
    { unfold bd, include_into.
      destruct (visible h ds _FILLED_SLOTS_CONTENT_CONTEXT_KEY),
               (visible h ds _SLOT_COMPONENT_ASSOC_KEY);
        by rewrite ?lookup_insert_ne. }
    unfold visible. simpl. rewrite (scope_top _ _ _ _ _ Ho'), Hbd. by intros [].
Qed.

Lemma set_outer_root_context_without_outer_witness :
  ∃ h' orc base,
    set_outer_root_context ISOLATED 2 VNone rendering_store = Ok () h' ∧
    get_outer_root_context 2 h' = Ok (VRef orc) h' ∧
    h' !! orc = Some (OCtx [base]) ∧
    ctx_contains orc "slot-1" h' = Ok false h'.
Proof.
  destruct (set_outer_root_context_without_outer ISOLATED rendering_store 2 [0; 1] 1
              {[ _SLOT_COMPONENT_ASSOC_KEY := VRef 3;
                 _FILLED_SLOTS_CONTENT_CONTEXT_KEY := VRef 4 ]} VNone)
    as (h' & orc & base & Hrun & Hget & Horc & _ & Hkeys);
    [concrete_scope | reflexivity |].
  exists h', orc, base. split_and!; [done|done|done|].
  by apply Hkeys.
Defined.

(** ** Entering a component *)

(** The fill registry across [prepare_context]: the registry key is
    written once, when no layer has it, and never after. *)
Lemma prepare_context_fills behavior h c ds top d outer_context component_id :
  scope h c ds top d →
  outer_ok h outer_context →
  assoc_ok h ds top →
  ∃ h' d',
    prepare_context behavior c outer_context component_id h = Ok () h' ∧
    scope h' c ds top d' ∧
    unchanged top h h' ∧
    match visible h ds _FILLED_SLOTS_CONTENT_CONTEXT_KEY with
    | Some v => visible h' ds _FILLED_SLOTS_CONTENT_CONTEXT_KEY = Some v
    | None =>
        ∃ registry,
          h !! registry = None ∧
          visible h' ds _FILLED_SLOTS_CONTENT_CONTEXT_KEY = Some (VRef registry) ∧
          h' !! registry = Some (ODict ∅)
    end.
Proof.
  intros Hs Hok Hassoc.
  destruct (outer_step behavior h c ds top d outer_context Hs Hok)
    as (h1 & d1 & Hrun1 & Hs1 & Hun1 & Hk1).
  destruct (init_mapping_step h1 c ds top d1 _SLOT_COMPONENT_ASSOC_KEY Hs1)
    as (h2 & d2 & Hrun2 & Hs2 & Hun2 & Hk2 & Hinit).
  destruct (init_mapping_step h2 c ds top d2 _FILLED_SLOTS_CONTENT_CONTEXT_KEY Hs2)
    as (h3 & d3 & Hrun3 & Hs3 & Hun3 & Hk3 & Hinit3).
  assert (∀ k, k ≠ _OUTER_ROOT_CTX_CONTEXT_KEY →
               visible h1 ds k = visible h ds k) as Hv1.
  { intros k Hk. eapply visible_unchanged; eauto. }
  assert (∀ k, k ≠ _SLOT_COMPONENT_ASSOC_KEY →
               visible h2 ds k = visible h1 ds k) as Hv2.
  { intros k Hk. eapply visible_unchanged; eauto. }
  assert (∀ k, k ≠ _FILLED_SLOTS_CONTENT_CONTEXT_KEY →
               visible h3 ds k = visible h2 ds k) as Hv3.
  { intros k Hk. eapply visible_unchanged; eauto. }
  assert (unchanged top h h2) as Hun02 by by eapply unchanged_trans.
  assert (unchanged top h h3) as Hun03 by by eapply unchanged_trans.
  assert (visible h3 ds "forloop" = visible h ds "forloop") as Hfor.
  { by rewrite Hv3, Hv2, Hv1. }
  assert (is_Some (visible h3 ds "forloop") →
          ∃ r m, visible h3 ds _SLOT_COMPONENT_ASSOC_KEY = Some (VRef r) ∧
                 h3 !! r = Some (ODict m)) as Hassoc3.
  { rewrite Hfor. intros Hin. rewrite (Hv3 _SLOT_COMPONENT_ASSOC_KEY) by done.
    pose proof (Hv1 _SLOT_COMPONENT_ASSOC_KEY ltac:(done)) as Hsame.
    destruct (visible h1 ds _SLOT_COMPONENT_ASSOC_KEY) as [v|] eqn:Hv.
    - destruct Hinit as [-> ->]. rewrite Hv.
      destruct (Hassoc Hin v (eq_sym Hsame)) as (r & m & -> & Hr & Hne).
      exists r, m. split; [done|]. by apply Hun03.
    - destruct Hinit as [Hd2 Hnew]. exists (length h1), ∅. split.
      + by eapply visible_top.
      + apply Hun3; [|done]. apply not_eq_sym. by eapply scope_top_lt. }
  destruct (forloop_step h3 c ds top d3 Hs3 Hassoc3)
    as (h4 & d4 & Hrun4 & Hs4 & Hun4 & Hk4 & _).
  destruct (set_component_id_step h4 c ds top d4 component_id Hs4)
    as (h5 & d5 & Hrun5 & Hs5 & Hun5 & Hk5 & _ & _).
  assert (unchanged top h3 h5) as Hun35 by by eapply unchanged_trans.
  assert (visible h5 ds _FILLED_SLOTS_CONTENT_CONTEXT_KEY
          = visible h3 ds _FILLED_SLOTS_CONTENT_CONTEXT_KEY) as Hv5.
  { eapply visible_unchanged; [exact Hs3|exact Hs5|exact Hun35|].
    by rewrite Hk5, Hk4. }
  exists h5, d5. split_and!.
  - unfold prepare_context. run_with Hrun1. run_with Hrun2. run_with Hrun3.
    run_with (ctx_contains_Ok h3 c ds (scope_ctx _ _ _ _ _ Hs3)
                (scope_layers _ _ _ _ _ Hs3) "forloop").
    by run_with Hrun4.
  - done.
  - by eapply unchanged_trans.
  - rewrite Hv5. rewrite <- (Hv1 _FILLED_SLOTS_CONTENT_CONTEXT_KEY) by done.
    rewrite <- (Hv2 _FILLED_SLOTS_CONTENT_CONTEXT_KEY) by done.
    destruct (visible h2 ds _FILLED_SLOTS_CONTENT_CONTEXT_KEY) as [v|] eqn:Hv.
    + destruct Hinit3 as [-> ->]. done.
    + destruct Hinit3 as [Hd3 Hnew]. exists (length h2). split_and!.
      * eapply (unchanged_fresh top h h2); [done|by eexists; apply Hs2|].
        by apply lookup_ge_None.
      * by eapply visible_top.
      * apply Hun35; [|done]. apply not_eq_sym. by eapply scope_top_lt.
Qed.

(** X9.  [prepare_context] makes the accessors usable.  On a context no
    layer of which has an association map or a fill registry it creates
    both, empty: afterwards [get_slot_fill] returns [None] for every
    component and slot, [get_slot_component_association] fails on the slot
    id asked for (and no more on the reserved key), and the two setters
    return. *)
Theorem prepare_context_initialises_mappings
    (behavior : SlotContextBehavior)
    (h : heap) (c : loc) (ds : list loc) (top : loc) (d : gmap string val)
    (outer_context : val) (component_id : string) :
  scope h c ds top d →
  outer_ok h outer_context →
  visible h ds _SLOT_COMPONENT_ASSOC_KEY = None →
  visible h ds _FILLED_SLOTS_CONTENT_CONTEXT_KEY = None →
  ∃ h',
    prepare_context behavior c outer_context component_id h = Ok () h' ∧
    (∀ id slot_name, get_slot_fill c id slot_name h' = Ok VNone h') ∧
    (∀ slot_id,
       get_slot_component_association c slot_id h' = Raise (KeyError slot_id) h') ∧
    (∀ id slot_name value,
       ∃ h'', set_slot_fill c id slot_name value h' = Ok () h'') ∧
    (∀ slot_id id,
       ∃ h'', set_slot_component_association c slot_id id h' = Ok () h'').
Proof.
  intros Hs Hok Hassoc Hfills.
  assert (assoc_ok h ds top) as Hassoc_ok.
  { intros _ v Hv. congruence. }
  destruct (prepare_context_spec behavior h c ds top d outer_context component_id
              Hs Hok Hassoc_ok)
    as (h' & d' & Hrun & Hs' & _ & _ & _ & _ & Hmap).
  destruct (prepare_context_fills behavior h c ds top d outer_context component_id
              Hs Hok Hassoc_ok)
    as (h2 & d2 & Hrun2 & _ & _ & Hreg).
  rewrite Hrun in Hrun2. injection Hrun2 as <-.
  rewrite Hfills in Hreg. destruct Hreg as (registry & _ & Hreg & Hempty).
  rewrite Hassoc in Hmap.
  assert (∃ map, d' !! _SLOT_COMPONENT_ASSOC_KEY = Some (VRef map) ∧
                 h' !! map = Some (ODict ∅)) as (map & Hd' & Hmap').
  { destruct (visible h ds "forloop").
    - destruct Hmap as (x & _ & ? & ?). by exists x.
    - destruct Hmap as (x & _ & ? & ?). by exists x. }
  pose proof (visible_top h' c ds top d' _ _ Hs' Hd') as Hvis.
  exists h'. split_and!; [done|..].
  - intros id slot_name.
    by rewrite (get_slot_fill_Ok h' c ds registry ∅
                  (scope_ctx _ _ _ _ _ Hs') (scope_layers _ _ _ _ _ Hs') Hreg Hempty).
  - intros slot_id.
    by rewrite (get_slot_component_association_Ok h' c ds map ∅ slot_id
                  (scope_ctx _ _ _ _ _ Hs') (scope_layers _ _ _ _ _ Hs') Hvis Hmap').
  - intros id slot_name value. eexists.
    apply (set_slot_fill_Ok h' c ds registry ∅); [apply Hs'..|done|done].
  - intros slot_id id. eexists.
    by apply (set_slot_component_association_owned h' c ds top d' map ∅).
Qed.

Lemma prepare_context_initialises_mappings_witness :
  ∃ h',
    prepare_context DEFAULT 1 VNone "comp-A" bare_store = Ok () h' ∧
    get_slot_fill 1 "comp-A" "header" h' = Ok VNone h' ∧
    get_slot_component_association 1 "slot-1" h' = Raise (KeyError "slot-1") h'.
Proof.
  destruct (prepare_context_initialises_mappings DEFAULT bare_store 1 [0] 0 builtins
              VNone "comp-A")
    as (h' & Hrun & Hfill & Hassoc & _);
    [concrete_scope | by left | vm_compute; reflexivity | vm_compute; reflexivity |].
  exists h'. split_and!; [done|apply Hfill|apply Hassoc].
Defined.

(** X10.  [prepare_context] never replaces a fill registry that is there,
    inside a loop no more than outside: the registry key resolves to the
    same dictionary after the call, the dictionary has the entries it had,
    and [get_slot_fill] returns for every component and slot what it
    returned before. *)
Theorem prepare_context_keeps_registry
    (behavior : SlotContextBehavior)
    (h : heap) (c : loc) (ds : list loc) (top : loc) (d : gmap string val)
    (outer_context : val) (component_id : string)
    (r : loc) (m : gmap string val) :
  scope h c ds top d →
  outer_ok h outer_context →
  assoc_ok h ds top →
  visible h ds _FILLED_SLOTS_CONTENT_CONTEXT_KEY = Some (VRef r) →
  h !! r = Some (ODict m) →
  r ≠ top →
  ∃ h',
    prepare_context behavior c outer_context component_id h = Ok () h' ∧
    ctx_get c _FILLED_SLOTS_CONTENT_CONTEXT_KEY VNone h' = Ok (VRef r) h' ∧
    h' !! r = Some (ODict m) ∧
    ∀ id slot_name,
      get_slot_fill c id slot_name h
      = Ok (default VNone (m !! slot_key id slot_name)) h ∧
      get_slot_fill c id slot_name h'
      = Ok (default VNone (m !! slot_key id slot_name)) h'.
Proof.
  intros Hs Hok Hassoc Hreg Hr Hrtop.
  destruct (prepare_context_fills behavior h c ds top d outer_context component_id
              Hs Hok Hassoc)
    as (h' & d' & Hrun & Hs' & Hun & Hreg').
  rewrite Hreg in Hreg'.
  assert (h' !! r = Some (ODict m)) as Hr' by by apply Hun.
  exists h'. split_and!; [done| |done|].
  - rewrite (ctx_get_Ok h' c ds); [|apply Hs'..]. by rewrite Hreg'.
  - intros id slot_name. split.
    + apply (get_slot_fill_Ok h c ds r m); [apply Hs..|done|done].
    + apply (get_slot_fill_Ok h' c ds r m); [apply Hs'..|done|done].
Qed.

Lemma prepare_context_keeps_registry_witness :
  ∃ h',
    prepare_context ISOLATED 3 (VRef 3) "comp-B" loop_render_store = Ok () h' ∧
    ctx_get 3 _FILLED_SLOTS_CONTENT_CONTEXT_KEY VNone h' = Ok (VRef 5) h' ∧
    h' !! 5 = Some (ODict ∅) ∧
    get_slot_fill 3 "comp-A" "header" h' = Ok VNone h'.
Proof.
  destruct (prepare_context_keeps_registry ISOLATED loop_render_store 3 [0; 1; 2] 2
              {[ "forloop" := VOpaque 1; "item" := VInt 10 ]} (VRef 3) "comp-B"
              5 ∅)
    as (h' & Hrun & Hreg & Hr & Hget);
    [concrete_scope
    | right; exists 3, [0; 1; 2]; split_and!;
      [reflexivity | reflexivity | concrete_dicts]
    | | vm_compute; reflexivity | reflexivity | lia |].
  { intros _ v Hv. vm_compute in Hv. injection Hv as <-.
    exists 4, {[ "slot-1" := VStr "comp-A" ]}. split_and!; [done|done|lia]. }
  exists h'. split_and!; [done|done|done|]. apply (Hget "comp-A" "header").
Defined.

(** X11.  Inside a loop the associations of an iteration stay in the
    iteration: after [prepare_context] an association set with
    [set_slot_component_association] goes into the copy that
    [prepare_context] made, without a second copy; it is what
    [get_slot_component_association] returns, the associations that were
    visible before are still returned, and the map that was visible before
    the call has not changed. *)
Theorem prepare_context_in_loop_then_associate
    (behavior : SlotContextBehavior)
    (h : heap) (c : loc) (ds : list loc) (top : loc) (d : gmap string val)
    (outer_context : val) (component_id : string)
    (r : loc) (m : gmap string val) (slot_id inner_id : string) :
  scope h c ds top d →
  outer_ok h outer_context →
  is_Some (visible h ds "forloop") →
  visible h ds _SLOT_COMPONENT_ASSOC_KEY = Some (VRef r) →
  h !! r = Some (ODict m) →
  r ≠ top →
  ∃ h' h'',
    prepare_context behavior c outer_context component_id h = Ok () h' ∧
    set_slot_component_association c slot_id inner_id h' = Ok () h'' ∧
    length h'' = length h' ∧
    get_slot_component_association c slot_id h'' = Ok (VStr inner_id) h'' ∧
    (∀ other, other ≠ slot_id →
       get_slot_component_association c other h''
       = match m !! other with
         | Some v => Ok v h''
         | None => Raise (KeyError other) h''
         end) ∧
    h'' !! r = Some (ODict m).
Proof.
  intros Hs Hok [mark Hmark] Hvis Hr Hrtop.
  destruct (prepare_context_spec behavior h c ds top d outer_context component_id
              Hs Hok)
    as (h' & d' & Hrun & Hs' & Hun & _ & _ & _ & Hmap).
  { intros _ v Hv. exists r, m. split_and!; [congruence|done|done]. }
  rewrite Hmark, Hvis in Hmap.
  destruct Hmap as (clone & r' & m' & Hv & Hr' & Hfresh & Hd' & Hclone).
  injection Hv as <-. rewrite Hr in Hr'. injection Hr' as <-.
  destruct (fresh_not_scope h c ds top d clone Hs Hfresh) as (Hnc & Hnds & Hntop).
  set (m2 := <[slot_id := VStr inner_id]> m).
  pose proof (scope_replace_new h' c ds top d' clone (ODict m2) Hs' Hnc Hnds) as Hs''.
  set (h'' := <[clone := ODict m2]> h') in *.
  assert (visible h'' ds _SLOT_COMPONENT_ASSOC_KEY = Some (VRef clone)) as Hvis''
    by by eapply visible_top.
  assert (h'' !! clone = Some (ODict m2)) as Hclone'' by by eapply lookup_replace.
  exists h', h''. split_and!; [done| | | | |].
  - by apply (set_slot_component_association_owned h' c ds top d' clone m).
  - unfold h''. by rewrite length_insert.
  - rewrite (get_slot_component_association_Ok h'' c ds clone m2 _
               (scope_ctx _ _ _ _ _ Hs'') (scope_layers _ _ _ _ _ Hs'') Hvis'' Hclone'').
    unfold m2. by rewrite lookup_insert_eq.
  - intros other Hne.
    rewrite (get_slot_component_association_Ok h'' c ds clone m2 _
               (scope_ctx _ _ _ _ _ Hs'') (scope_layers _ _ _ _ _ Hs'') Hvis'' Hclone'').
    unfold m2. by rewrite lookup_insert_ne.
  - unfold h''. rewrite list_lookup_insert_ne; [by apply Hun|].
    intros ->. congruence.
Qed.

Lemma prepare_context_in_loop_then_associate_witness :
  ∃ h' h'',
    prepare_context DEFAULT 3 VNone "comp-B" loop_render_store = Ok () h' ∧
    set_slot_component_association 3 "slot-1" "comp-B" h' = Ok () h'' ∧
    get_slot_component_association 3 "slot-1" h'' = Ok (VStr "comp-B") h'' ∧
    h'' !! 4 = Some (ODict {[ "slot-1" := VStr "comp-A" ]}).
Proof.
  destruct (prepare_context_in_loop_then_associate DEFAULT loop_render_store
              3 [0; 1; 2] 2 {[ "forloop" := VOpaque 1; "item" := VInt 10 ]}
              VNone "comp-B" 4 {[ "slot-1" := VStr "comp-A" ]} "slot-1" "comp-B")
    as (h' & h'' & Hrun & Hset & _ & Hget & _ & Hshared);
    [concrete_scope | by left | vm_compute; eauto | vm_compute; reflexivity
    | reflexivity | lia |].
  by exists h', h''.
Defined.

(** ** The isolated copy of a context *)

Lemma truthy_false_preserved h h' v :
  preserved h h' → truthy h v = false → truthy h' v = false.
Proof.
  intros Hp. destruct v as [| | | | |r]; simpl; try done.
  destruct (h !! r) as [[dd|]|] eqn:Hr; [|done..].
  by rewrite (Hp _ _ Hr).
Qed.

Lemma outer_ok_preserved h h' v :
  preserved h h' → outer_ok h v → outer_ok h' v.
Proof.
  intros Hp [Hfalse|(o & ods & -> & Ho & Hods)].
  - left. by eapply truthy_false_preserved.
  - right. exists o, ods. split_and!; [done|by apply Hp|by eapply all_dicts_preserved].
Qed.

Lemma find_last_index_ext {A} (l : list A) p q :
  (∀ x, x ∈ l → p x = q x) → find_last_index l p = find_last_index l q.
Proof.
  induction l as [|x l IH]; intros Hpq; simpl; [done|].
  rewrite IH by (intros y Hy; apply Hpq; by right).
  rewrite (Hpq x) by by left. done.
Qed.

Lemma layer_has_preserved h h' ds k r :
  preserved h h' → all_dicts h ds → r ∈ ds → layer_has h' k r = layer_has h k r.
Proof.
  intros Hp Hds Hin. eapply Forall_forall in Hds as [dd Hd]; [|done].
  unfold layer_has. by rewrite Hd, (Hp _ _ Hd).
Qed.

(** [copy_forloop_context] in full: nothing without a loop layer;
    otherwise a copy of the last loop layer on top of [to_context]. *)
Lemma copy_forloop_context_Ok h from_context to_context ds_from ds_to :
  h !! from_context = Some (OCtx ds_from) →
  all_dicts h ds_from →
  h !! to_context = Some (OCtx ds_to) →
  match find_last_index ds_from (layer_has h "forloop") with
  | None => copy_forloop_context from_context to_context h = Ok () h
  | Some i =>
      ∃ r dl,
        ds_from !! i = Some r ∧ h !! r = Some (ODict dl) ∧
        copy_forloop_context from_context to_context h
        = Ok () (<[to_context := OCtx (ds_to ++ [length h])]> (h ++ [ODict dl]))
  end.
Proof.
  intros Hfrom Hds Hto. unfold copy_forloop_context.
  destruct (find_last_index ds_from (layer_has h "forloop")) as [i|] eqn:Hidx.
  - pose proof (proj1 (find_last_index_Some _ _ _) Hidx) as [(r & Hi & Hhas) _].
    assert (∃ dl, h !! r = Some (ODict dl)) as [dl Hr].
    { eapply Forall_forall in Hds; [exact Hds|]. by eapply list_elem_of_lookup_2. }
    assert (is_Some (visible h ds_from "forloop")) as Hvis.
    { destruct (visible h ds_from "forloop") eqn:Hv; [done|].
      apply (visible_None h ds_from _ Hds) with (r := r) in Hv; [congruence|].
      by eapply list_elem_of_lookup_2. }
    exists r, dl. split_and!; [done|done|].
    run_with (ctx_contains_Ok h from_context ds_from Hfrom Hds "forloop").
    rewrite (bool_decide_eq_true_2 _ Hvis).
    run_with (load_dicts_Ok _ _ _ Hfrom).
    run_with (eq_refl : get_heap h = Ok h h).
    rewrite Hidx.
    assert (ctx_layer from_context i h = Ok r h) as Hlayer.
    { unfold ctx_layer. run_with (load_dicts_Ok _ _ _ Hfrom). by rewrite Hi. }
    run_with Hlayer.
    unfold ctx_update, ctx_push.
    run_with (load_dicts_Ok _ _ _ Hto).
    by run_with (dict_copy_Ok _ _ _ Hr).
  - pose proof (proj1 (find_last_index_None _ _) Hidx) as Hnone.
    apply (visible_None h ds_from _ Hds) in Hnone.
    run_with (ctx_contains_Ok h from_context ds_from Hfrom Hds "forloop").
    rewrite Hnone. by rewrite bool_decide_eq_false_2; [|by intros []].
Qed.

(** The last four statements of [make_isolated_context_copy]: the ids of
    the context are written into the top layer of the copy. *)
Lemma copy_component_ids_Ok h g c ds top d cc dsC topC dC :
  scope h c ds top d →
  preserved h g →
  scope g cc dsC topC dC →
  h !! topC = None →
  let current := default VNone (visible h ds _CURRENT_COMP_KEY) in
  let parent := default VNone (visible h ds _PARENT_COMP_KEY) in
  ∃ g',
    (let* current := ctx_get c _CURRENT_COMP_KEY VNone in
     ctx_setitem cc _CURRENT_COMP_KEY current ;;
     let* parent := ctx_get c _PARENT_COMP_KEY VNone in
     ctx_setitem cc _PARENT_COMP_KEY parent ;;
     ret cc) g = Ok cc g' ∧
    scope g' cc dsC topC
      (<[_PARENT_COMP_KEY := parent]> (<[_CURRENT_COMP_KEY := current]> dC)) ∧
    (∀ x o, x ≠ topC → g !! x = Some o → g' !! x = Some o).
Proof.
  intros Hs Hp Hcc HtopC current parent.
  pose proof (scope_preserved h g c ds top d Hp Hs) as Hsg.
  set (g1 := set_top g topC dC _CURRENT_COMP_KEY current).
  assert (preserved h g1) as Hp1.
  { apply preserved_replace_new; [done|]. by apply lookup_ge_None. }
  pose proof (scope_preserved h g1 c ds top d Hp1 Hs) as Hsg1.
  pose proof (scope_set_top g cc dsC topC dC _CURRENT_COMP_KEY current Hcc) as Hcc1.
  fold g1 in Hcc1.
  exists (set_top g1 topC (<[_CURRENT_COMP_KEY := current]> dC)
            _PARENT_COMP_KEY parent).
  split_and!.
  - run_with (ctx_get_Ok g c ds (scope_ctx _ _ _ _ _ Hsg) (scope_layers _ _ _ _ _ Hsg)
                _CURRENT_COMP_KEY VNone).
    rewrite (visible_preserved h g ds _ Hp (scope_layers _ _ _ _ _ Hs)).
    run_with (ctx_setitem_Ok g cc dsC topC dC _CURRENT_COMP_KEY current Hcc).
    fold g1.
    run_with (ctx_get_Ok g1 c ds (scope_ctx _ _ _ _ _ Hsg1)
                (scope_layers _ _ _ _ _ Hsg1) _PARENT_COMP_KEY VNone).
    rewrite (visible_preserved h g1 ds _ Hp1 (scope_layers _ _ _ _ _ Hs)).
    by run_with (ctx_setitem_Ok g1 cc dsC topC _ _PARENT_COMP_KEY parent Hcc1).
  - by apply scope_set_top.
  - intros x o Hx Hg. unfold g1, set_top. by rewrite !list_lookup_insert_ne.
Qed.

(** [make_isolated_context_copy] on a scope.  The copy [cc] is a new
    context; its bottom layer [base] has the builtins, the two mappings
    and the outer root context [orc]; inside a loop a copy of the last
    loop layer is its second layer; the component ids of the context are
    in its top layer.  No object that was in the store changes. *)
Lemma make_isolated_context_copy_spec behavior h c ds top d :
  scope h c ds top d →
  outer_ok h (default VNone (visible h ds _OUTER_ROOT_CTX_CONTEXT_KEY)) →
  let slot_assoc := default (VRef (length h)) (visible h ds _SLOT_COMPONENT_ASSOC_KEY) in
  let slot_fills :=
    default (VRef (length h + 1)) (visible h ds _FILLED_SLOTS_CONTENT_CONTEXT_KEY) in
  let current := default VNone (visible h ds _CURRENT_COMP_KEY) in
  let parent := default VNone (visible h ds _PARENT_COMP_KEY) in
  ∃ h' cc base orc,
    make_isolated_context_copy behavior c h = Ok cc h' ∧
    h !! cc = None ∧ h !! base = None ∧ h !! orc = None ∧
    preserved h h' ∧
    h' !! length h = Some (ODict ∅) ∧
    h' !! (length h + 1) = Some (ODict ∅) ∧
    let below :=
      <[_OUTER_ROOT_CTX_CONTEXT_KEY := VRef orc]>
        (<[_FILLED_SLOTS_CONTENT_CONTEXT_KEY := slot_fills]>
           (<[_SLOT_COMPONENT_ASSOC_KEY := slot_assoc]> builtins)) in
    match find_last_index ds (layer_has h "forloop") with
    | None =>
        scope h' cc [base] base
          (<[_PARENT_COMP_KEY := parent]> (<[_CURRENT_COMP_KEY := current]> below))
    | Some i =>
        ∃ r dl loop_layer,
          ds !! i = Some r ∧ h !! r = Some (ODict dl) ∧
          h !! loop_layer = None ∧
          h' !! base = Some (ODict below) ∧
          scope h' cc [base; loop_layer] loop_layer
            (<[_PARENT_COMP_KEY := parent]> (<[_CURRENT_COMP_KEY := current]> dl))
    end.
Proof.
  intros Hs Hok slot_assoc slot_fills current parent.
  pose proof (scope_ctx _ _ _ _ _ Hs) as Hc.
  pose proof (scope_layers _ _ _ _ _ Hs) as Hds.
  set (root := default VNone (visible h ds _OUTER_ROOT_CTX_CONTEXT_KEY)) in *.
  (* the two empty dictionaries of the defaults *)
  set (g := h ++ [ODict ∅; ODict ∅]).
  assert (preserved h g) as Hpg by apply preserved_alloc.
  pose proof (scope_preserved h g c ds top d Hpg Hs) as Hsg.
  assert (length g = length h + 2) as Hlg by (unfold g; rewrite length_app; done).
  (* the new context and its two mappings *)
  set (base := length g + 0).
  set (cc := length g + 1).
  set (k1 := g ++ [ODict builtins; OCtx [base]]).
  assert (scope k1 cc [base] base builtins) as Hcc1 by (unfold k1, cc, base; new_scope).
  set (b1 := <[_SLOT_COMPONENT_ASSOC_KEY := slot_assoc]> builtins).
  set (k2 := set_top k1 base builtins _SLOT_COMPONENT_ASSOC_KEY slot_assoc).
  pose proof (scope_set_top k1 cc [base] base builtins
                _SLOT_COMPONENT_ASSOC_KEY slot_assoc Hcc1) as Hcc2.
  fold k2 b1 in Hcc2.
  set (b2 := <[_FILLED_SLOTS_CONTENT_CONTEXT_KEY := slot_fills]> b1).
  set (hB := set_top k2 base b1 _FILLED_SLOTS_CONTENT_CONTEXT_KEY slot_fills).
  pose proof (scope_set_top k2 cc [base] base b1
                _FILLED_SLOTS_CONTENT_CONTEXT_KEY slot_fills Hcc2) as HccB.
  fold hB b2 in HccB.
  assert (preserved g hB) as HpB.
  { unfold hB, k2, set_top. apply preserved_replace_new; [|unfold base; lia].
    apply preserved_replace_new; [|unfold base; lia]. apply preserved_alloc. }
  assert (preserved h hB) as HphB by (intros x o Hx; by apply HpB, Hpg).
  (* the outer root context of the copy *)
  destruct (set_outer_root_context_result behavior hB cc [base] base b2 root HccB
              (outer_ok_preserved h hB root HphB Hok))
    as (h6 & orc & dsO & topO & dO & Hrun6 & Horc & _ & Hcc6 & _ & Hun6 & _).
  set (below := <[_OUTER_ROOT_CTX_CONTEXT_KEY := VRef orc]> b2) in *.
  assert (preserved g h6) as Hp6.
  { intros x o Hx. apply Hun6; [|by apply HpB].
    apply lookup_lt_Some in Hx. unfold base. lia. }
  assert (preserved h h6) as Hph6 by (intros x o Hx; by apply Hp6, Hpg).
  pose proof (scope_preserved h h6 c ds top d Hph6 Hs) as Hs6.
  assert (∀ x, length h ≤ x → h !! x = None) as Hnew.
  { intros x Hx. by apply lookup_ge_None. }
  assert (h !! orc = None) as Horc_h.
  { destruct (h !! orc) as [o|] eqn:Ho; [|done]. apply HphB in Ho. congruence. }
  (* the layer of the loop *)
  pose proof (copy_forloop_context_Ok h6 c cc ds [base]
                (scope_ctx _ _ _ _ _ Hs6) (scope_layers _ _ _ _ _ Hs6)
                (scope_ctx _ _ _ _ _ Hcc6)) as Hloop.
  rewrite (find_last_index_ext ds (layer_has h6 "forloop") (layer_has h "forloop"))
    in Hloop by (intros x Hx; by eapply layer_has_preserved).
  (* running the function up to the ids *)
  assert (∀ h7,
            copy_forloop_context c cc h6 = Ok () h7 →
            make_isolated_context_copy behavior c h
            = (let* current := ctx_get c _CURRENT_COMP_KEY VNone in
               ctx_setitem cc _CURRENT_COMP_KEY current ;;
               let* parent := ctx_get c _PARENT_COMP_KEY VNone in
               ctx_setitem cc _PARENT_COMP_KEY parent ;;
               ret cc) h7) as Hprefix.
  { intros h7 Hcopy.
    unfold make_isolated_context_copy, get_outer_root_context.
    run_with (ctx_get_Ok h c ds Hc Hds _OUTER_ROOT_CTX_CONTEXT_KEY VNone).
    fold root. unfold dict_new.
    run_with (eq_refl : alloc (ODict ∅) h = Ok (length h) (h ++ [ODict ∅])).
    run_with (ctx_get_Ok (h ++ [ODict ∅]) c ds (lookup_alloc _ _ _ _ Hc)
                (all_dicts_alloc _ _ _ Hds)
                _SLOT_COMPONENT_ASSOC_KEY (VRef (length h))).
    rewrite (visible_alloc h [ODict ∅] ds _ Hds). fold slot_assoc.
    assert (alloc (ODict ∅) (h ++ [ODict ∅]) = Ok (length h + 1) g) as Halloc.
    { unfold alloc, g. by rewrite length_app, <- app_assoc. }
    run_with Halloc.
    run_with (ctx_get_Ok g c ds (scope_ctx _ _ _ _ _ Hsg) (scope_layers _ _ _ _ _ Hsg)
                _FILLED_SLOTS_CONTENT_CONTEXT_KEY (VRef (length h + 1))).
    rewrite (visible_preserved h g ds _ Hpg Hds). fold slot_fills.
    run_with (ctx_new_Ok g c ds (scope_ctx _ _ _ _ _ Hsg)). fold base cc k1.
    run_with (ctx_setitem_Ok k1 cc [base] base builtins
                _SLOT_COMPONENT_ASSOC_KEY slot_assoc Hcc1). fold k2.
    run_with (ctx_setitem_Ok k2 cc [base] base b1
                _FILLED_SLOTS_CONTENT_CONTEXT_KEY slot_fills Hcc2). fold hB.
    run_with Hrun6. by run_with Hcopy. }
  assert (h !! cc = None ∧ h !! base = None) as [Hcc_h Hbase_h].
  { split; apply Hnew; unfold cc, base; lia. }
  assert (g !! length h = Some (ODict ∅) ∧ g !! (length h + 1) = Some (ODict ∅))
    as [Hg0 Hg1].
  { unfold g. split.
    - pose proof (lookup_new h [ODict ∅; ODict ∅] 0) as H0.
      by rewrite Nat.add_0_r in H0.
    - by rewrite lookup_new. }
  destruct (find_last_index ds (layer_has h "forloop")) as [i|].
  - destruct Hloop as (r & dl & Hi & Hr6 & Hcopy).
    assert (h !! r = Some (ODict dl)) as Hr.
    { assert (r ∈ ds) as Hin by by eapply list_elem_of_lookup_2.
      eapply Forall_forall in Hds as [dl0 Hdl0]; [|exact Hin].
      pose proof (Hph6 _ _ Hdl0). congruence. }
    set (loop_layer := length h6) in *.
    set (h7 := <[cc := OCtx ([base] ++ [loop_layer])]> (h6 ++ [ODict dl])) in *.
    assert (h !! loop_layer = None) as Hloop_h.
    { destruct (h !! loop_layer) as [o|] eqn:Ho; [|done].
      apply Hph6, lookup_lt_Some in Ho. unfold loop_layer in Ho. lia. }
    assert (cc ≠ loop_layer) as Hccl.
    { pose proof (scope_ctx _ _ _ _ _ Hcc6) as H6. apply lookup_lt_Some in H6.
      unfold loop_layer. lia. }
    assert (base ≠ cc) as Hbc by (unfold base, cc; lia).
    assert (base ≠ loop_layer) as Hbl.
    { pose proof (scope_top _ _ _ _ _ Hcc6) as H6. apply lookup_lt_Some in H6.
      unfold loop_layer. lia. }
    assert (h7 !! base = Some (ODict below)) as Hbase7.
    { unfold h7. rewrite list_lookup_insert_ne by done.
      apply lookup_alloc, Hcc6. }
    assert (scope h7 cc [base; loop_layer] loop_layer dl) as Hcc7.
    { unfold h7. split.
      - eapply lookup_replace, lookup_alloc, Hcc6.
      - done.
      - rewrite list_lookup_insert_ne by done. apply lookup_alloc_new.
      - constructor; [by eexists|]. constructor; [|constructor].
        exists dl. rewrite list_lookup_insert_ne by done. apply lookup_alloc_new. }
    assert (preserved g h7) as Hp7.
    { intros x o Hx. unfold h7. rewrite list_lookup_insert_ne.
      - by apply lookup_alloc, Hp6.
      - apply lookup_lt_Some in Hx. unfold cc. lia. }
    assert (preserved h h7) as Hph7 by (intros x o Hx; by apply Hp7, Hpg).
    destruct (copy_component_ids_Ok h h7 c ds top d cc _ _ dl Hs Hph7 Hcc7 Hloop_h)
      as (h' & Hrun & Hcc' & Hframe).
    assert (∀ x o, g !! x = Some o → h' !! x = Some o) as Hp'.
    { intros x o Hx. apply Hframe; [|by apply Hp7].
      apply Hp6, lookup_lt_Some in Hx. unfold loop_layer. lia. }
    exists h', cc, base, orc.
    split_and!; [by rewrite (Hprefix h7 Hcopy)|done|done|done| | | |].
    + intros x o Hx. by apply Hp', Hpg.
    + by apply Hp'.
    + by apply Hp'.
    + exists r, dl, loop_layer. split_and!; [done|done|done| |done].
      by apply Hframe.
  - assert (preserved g h6) as Hp7 by done.
    destruct (copy_component_ids_Ok h h6 c ds top d cc _ _ below Hs Hph6 Hcc6 Hbase_h)
      as (h' & Hrun & Hcc' & Hframe).
    assert (∀ x o, g !! x = Some o → h' !! x = Some o) as Hp'.
    { intros x o Hx. apply Hframe; [|by apply Hp6].
      apply lookup_lt_Some in Hx. unfold base. lia. }
    exists h', cc, base, orc.
    split_and!; [by rewrite (Hprefix h6 Hloop)|done|done|done| | | |done].
    + intros x o Hx. by apply Hp', Hpg.
    + by apply Hp'.
    + by apply Hp'.
Qed.

(** X12.  [make_isolated_context_copy] returns a new context and leaves
    the store it found untouched: the context, its layers and the mappings
    are the objects they were.  The copy shows the component ids of the
    context, the current one and the parent. *)
Theorem make_isolated_context_copy_keeps_source
    (behavior : SlotContextBehavior)
    (h : heap) (c : loc) (ds : list loc) (top : loc) (d : gmap string val) :
  scope h c ds top d →
  outer_ok h (default VNone (visible h ds _OUTER_ROOT_CTX_CONTEXT_KEY)) →
  ∃ h' cc,
    make_isolated_context_copy behavior c h = Ok cc h' ∧
    h !! cc = None ∧
    (∀ x o, h !! x = Some o → h' !! x = Some o) ∧
    ∃ ids, component_ids c h = Ok ids h ∧
           component_ids c h' = Ok ids h' ∧
           component_ids cc h' = Ok ids h'.
Proof.
  intros Hs Hok.
  destruct (make_isolated_context_copy_spec behavior h c ds top d Hs Hok)
    as (h' & cc & base & orc & Hrun & Hcc & _ & _ & Hp & _ & _ & Hcopy).
  cbv zeta in Hcopy.
  pose proof (scope_preserved h h' c ds top d Hp Hs) as Hs'.
  exists h', cc. split_and!; [done|done|done|].
  exists (default VNone (visible h ds _CURRENT_COMP_KEY),
          default VNone (visible h ds _PARENT_COMP_KEY)).
  assert (∀ g, scope g c ds top d → preserved h g →
               component_ids c g
               = Ok (default VNone (visible h ds _CURRENT_COMP_KEY),
                     default VNone (visible h ds _PARENT_COMP_KEY)) g) as Hids.
  { intros g Hg Hpg. unfold component_ids.
    run_with (ctx_get_Ok g c ds (scope_ctx _ _ _ _ _ Hg) (scope_layers _ _ _ _ _ Hg)
                _CURRENT_COMP_KEY VNone).
    run_with (ctx_get_Ok g c ds (scope_ctx _ _ _ _ _ Hg) (scope_layers _ _ _ _ _ Hg)
                _PARENT_COMP_KEY VNone).
    by rewrite !(visible_preserved h g ds _ Hpg (scope_layers _ _ _ _ _ Hs)). }
  split_and!.
  - apply Hids; [done|by intros x o Hx].
  - by apply Hids.
  - destruct (find_last_index ds (layer_has h "forloop")).
    + destruct Hcopy as (r & dl & loop_layer & _ & _ & _ & _ & Hscope).
      eapply component_ids_Ok; [exact Hscope| |by rewrite lookup_insert_eq].
      rewrite lookup_insert_ne by done. by rewrite lookup_insert_eq.
    + eapply component_ids_Ok; [exact Hcopy| |by rewrite lookup_insert_eq].
      rewrite lookup_insert_ne by done. by rewrite lookup_insert_eq.
Qed.

Lemma make_isolated_context_copy_keeps_source_witness :
  ∃ h' cc,
    make_isolated_context_copy DEFAULT 6 second_pass_store = Ok cc h' ∧
    second_pass_store !! cc = None ∧
    h' !! 6 = Some (OCtx [4; 5]) ∧
    ∃ ids, component_ids 6 second_pass_store = Ok ids second_pass_store ∧
           component_ids cc h' = Ok ids h'.
Proof.
  destruct (make_isolated_context_copy_keeps_source DEFAULT second_pass_store
              6 [4; 5] 5
              {[ _OUTER_ROOT_CTX_CONTEXT_KEY := VRef 8;
                 _SLOT_COMPONENT_ASSOC_KEY := VRef 9;
                 _FILLED_SLOTS_CONTENT_CONTEXT_KEY := VRef 10 ]})
    as (h' & cc & Hrun & Hnew & Hkeep & ids & Hids & _ & Hids');
    [concrete_scope
    | right; exists 8, [7]; split_and!;
      [vm_compute; reflexivity | reflexivity | concrete_dicts] |].
  exists h', cc. split_and!; [done|done|by apply Hkeep|by exists ids].
Defined.

(** X13.  Outside a loop the copy is isolated: it has one layer, which
    holds the builtin names and the render state, so no variable of the
    context is visible in it.  The render state is passed on: the keys of
    the association map and of the fill registry resolve in the copy to
    what they resolve to in the context (by reference), so a fill found
    through the context is found through the copy. *)
Theorem make_isolated_context_copy_is_isolated
    (behavior : SlotContextBehavior)
    (h : heap) (c : loc) (ds : list loc) (top : loc) (d : gmap string val) :
  scope h c ds top d →
  outer_ok h (default VNone (visible h ds _OUTER_ROOT_CTX_CONTEXT_KEY)) →
  visible h ds "forloop" = None →
  ∃ h' cc base,
    make_isolated_context_copy behavior c h = Ok cc h' ∧
    h' !! cc = Some (OCtx [base]) ∧
    (∀ k found, ctx_contains c k h = Ok found h → ctx_contains c k h' = Ok found h') ∧
    (∀ k, k ≠ _SLOT_COMPONENT_ASSOC_KEY →
          k ≠ _FILLED_SLOTS_CONTENT_CONTEXT_KEY →
          k ≠ _OUTER_ROOT_CTX_CONTEXT_KEY →
          k ≠ _CURRENT_COMP_KEY →
          k ≠ _PARENT_COMP_KEY →
          builtins !! k = None →
          ctx_contains cc k h' = Ok false h') ∧
    (∀ v, visible h ds _SLOT_COMPONENT_ASSOC_KEY = Some v →
          ctx_get cc _SLOT_COMPONENT_ASSOC_KEY VNone h' = Ok v h') ∧
    (∀ v, visible h ds _FILLED_SLOTS_CONTENT_CONTEXT_KEY = Some v →
          ctx_get cc _FILLED_SLOTS_CONTENT_CONTEXT_KEY VNone h' = Ok v h') ∧
    (∀ r m id slot_name,
       visible h ds _FILLED_SLOTS_CONTENT_CONTEXT_KEY = Some (VRef r) →
       h !! r = Some (ODict m) →
       get_slot_fill cc id slot_name h'
       = Ok (default VNone (m !! slot_key id slot_name)) h').
Proof.
  intros Hs Hok Hnoloop.
  destruct (make_isolated_context_copy_spec behavior h c ds top d Hs Hok)
    as (h' & cc & base & orc & Hrun & _ & _ & _ & Hp & _ & _ & Hcopy).
  cbv zeta in Hcopy.
  assert (find_last_index ds (layer_has h "forloop") = None) as Hidx.
  { apply find_last_index_None. by apply (visible_None h ds _ (scope_layers _ _ _ _ _ Hs)). }
  rewrite Hidx in Hcopy.
  set (layer := <[_PARENT_COMP_KEY := _]> _) in Hcopy.
  assert (∀ k v, layer !! k = Some v → ctx_get cc k VNone h' = Ok v h') as Hget.
  { intros k v Hk. rewrite (ctx_get_Ok h' cc [base]); [|apply Hcopy..].
    by rewrite (visible_top h' cc [base] base layer k v Hcopy Hk). }
  exists h', cc, base. split_and!; [done|apply Hcopy|..].
  - intros k found Hk.
    pose proof (scope_preserved h h' c ds top d Hp Hs) as Hs'.
    rewrite (ctx_contains_Ok h c ds) in Hk; [|apply Hs..].
    rewrite (ctx_contains_Ok h' c ds); [|apply Hs'..].
    rewrite (visible_preserved h h' ds k Hp (scope_layers _ _ _ _ _ Hs)).
    by injection Hk as <-.
  - intros k Ha Hf Ho Hcu Hpa Hb.
    rewrite (ctx_contains_Ok h' cc [base]); [|apply Hcopy..].
    unfold ret. f_equal. apply bool_decide_eq_false_2.
    unfold visible. simpl. rewrite (scope_top _ _ _ _ _ Hcopy).
    unfold layer. rewrite !lookup_insert_ne by done. rewrite Hb. by intros [].
  - intros v Hv. apply Hget. unfold layer.
    rewrite !lookup_insert_ne by done. rewrite Hv. by rewrite lookup_insert_eq.
  - intros v Hv. apply Hget. unfold layer.
    rewrite !lookup_insert_ne by done. rewrite Hv. by rewrite lookup_insert_eq.
  - intros r m id slot_name Hreg Hr.
    apply (get_slot_fill_Ok h' cc [base] r m); [apply Hcopy..| |by apply Hp].
    eapply visible_top; [exact Hcopy|]. unfold layer.
    rewrite !lookup_insert_ne by done. rewrite Hreg. by rewrite lookup_insert_eq.
Qed.

Lemma make_isolated_context_copy_is_isolated_witness :
  ∃ h' cc,
    make_isolated_context_copy ISOLATED 3 nested_store = Ok cc h' ∧
    ctx_contains 3 "x" h' = Ok true h' ∧
    ctx_contains cc "x" h' = Ok false h' ∧
    ctx_get cc _SLOT_COMPONENT_ASSOC_KEY VNone h' = Ok (VRef 4) h' ∧
    get_slot_fill cc "comp-A" "header" h' = Ok VNone h'.
Proof.
  destruct (make_isolated_context_copy_is_isolated ISOLATED nested_store
              3 [0; 1; 2] 2 {[ "x" := VInt 1 ]})
    as (h' & cc & base & Hrun & _ & Hsource & Hiso & Hassoc & _ & Hfill);
    [concrete_scope | by left | vm_compute; reflexivity |].
  exists h', cc. split_and!; [done| |by apply Hiso|..].
  - apply Hsource. vm_compute. reflexivity.
  - apply Hassoc. vm_compute. reflexivity.
  - rewrite (Hfill 5 ∅ "comp-A" "header"); [reflexivity|vm_compute; reflexivity|reflexivity].
Defined.

(** X14.  Inside a loop the copy gets the layer of the loop: a copy of
    the last layer of the context that has the key ["forloop"] is the
    second layer of the copy.  Every entry of that layer, the loop
    variables included, resolves in the copy to the value it has in the
    layer (the two component id keys apart, which are written afterwards);
    a variable that only another layer of the context has is not visible
    in the copy. *)
Theorem make_isolated_context_copy_in_loop
    (behavior : SlotContextBehavior)
    (h : heap) (c : loc) (ds : list loc) (top : loc) (d : gmap string val)
    (i : nat) (r : loc) (dl : gmap string val) :
  scope h c ds top d →
  outer_ok h (default VNone (visible h ds _OUTER_ROOT_CTX_CONTEXT_KEY)) →
  ds !! i = Some r →
  h !! r = Some (ODict dl) →
  is_Some (dl !! "forloop") →
  (∀ j r', i < j → ds !! j = Some r' → layer_has h "forloop" r' = false) →
  ∃ h' cc base loop_layer,
    make_isolated_context_copy behavior c h = Ok cc h' ∧
    h' !! cc = Some (OCtx [base; loop_layer]) ∧
    h !! loop_layer = None ∧
    (∀ k v, k ≠ _CURRENT_COMP_KEY → k ≠ _PARENT_COMP_KEY →
            dl !! k = Some v →
            ctx_get cc k VNone h' = Ok v h') ∧
    (∀ k, k ≠ _SLOT_COMPONENT_ASSOC_KEY →
          k ≠ _FILLED_SLOTS_CONTENT_CONTEXT_KEY →
          k ≠ _OUTER_ROOT_CTX_CONTEXT_KEY →
          k ≠ _CURRENT_COMP_KEY →
          k ≠ _PARENT_COMP_KEY →
          builtins !! k = None →
          dl !! k = None →
          ctx_contains cc k h' = Ok false h').
Proof.
  intros Hs Hok Hi Hr Hmark Hlast.
  destruct (make_isolated_context_copy_spec behavior h c ds top d Hs Hok)
    as (h' & cc & base & orc & Hrun & _ & _ & _ & Hp & _ & _ & Hcopy).
  cbv zeta in Hcopy.
  assert (find_last_index ds (layer_has h "forloop") = Some i) as Hidx.
  { apply find_last_index_Some. split; [|done]. exists r. split; [done|].
    unfold layer_has. rewrite Hr. by apply bool_decide_eq_true. }
  rewrite Hidx in Hcopy.
  destruct Hcopy as (r' & dl' & loop_layer & Hi' & Hr' & Hnew & Hbase & Hscope).
  assert (r' = r) as -> by congruence.
  assert (dl' = dl) as -> by congruence.
  exists h', cc, base, loop_layer. split_and!; [done|apply Hscope|done|..].
  - intros k v Hcu Hpa Hk.
    rewrite (ctx_get_Ok h' cc [base; loop_layer]); [|apply Hscope..].
    rewrite (visible_top h' cc _ loop_layer _ k v Hscope); [done|].
    by rewrite !lookup_insert_ne.
  - intros k Ha Hf Ho Hcu Hpa Hb Hk.
    rewrite (ctx_contains_Ok h' cc [base; loop_layer]); [|apply Hscope..].
    unfold ret. f_equal. apply bool_decide_eq_false_2.
    unfold visible. simpl. rewrite (scope_top _ _ _ _ _ Hscope).
    rewrite !lookup_insert_ne by done. rewrite Hk, Hbase.
    rewrite !lookup_insert_ne by done. rewrite Hb. by intros [].
Qed.

Lemma make_isolated_context_copy_in_loop_witness :
  ∃ h' cc,
    make_isolated_context_copy DEFAULT 4 looping_store = Ok cc h' ∧
    ctx_get cc "cell" VNone h' = Ok (VInt 20) h' ∧
    ctx_get cc "forloop" VNone h' = Ok (VOpaque 2) h' ∧
    ctx_contains cc "row" h' = Ok false h' ∧
    ctx_contains cc "y" h' = Ok false h'.
Proof.
  destruct (make_isolated_context_copy_in_loop DEFAULT looping_store
              4 [0; 1; 2; 3] 3 {[ "y" := VInt 3 ]}
              2 2 {[ "forloop" := VOpaque 2; "cell" := VInt 20 ]})
    as (h' & cc & base & loop_layer & Hrun & _ & _ & Hkeys & Hnot);
    [concrete_scope | by left | reflexivity | reflexivity | vm_compute; eauto | |].
  { intros [|[|[|[|j]]]] r' Hj Hr'; try lia.
    - injection Hr' as <-. vm_compute. reflexivity.
    - destruct j; discriminate Hr'. }
  exists h', cc. split_and!; [done|..].
  - by apply Hkeys.
  - by apply Hkeys.
  - by apply Hnot.
  - by apply Hnot.
Defined.

(** ** The setting [SLOT_CONTEXT_BEHAVIOR] *)

Lemma bind_ext {A B} (m : M A) (k1 k2 : A → M B) h :
  (∀ a h', m h = Ok a h' → k1 a h' = k2 a h') →
  bind m k1 h = bind m k2 h.
Proof. intros Hk. unfold bind. destruct (m h); [by apply Hk|done]. Qed.

Lemma ctx_get_heap c k otherwise h v h' :
  ctx_get c k otherwise h = Ok v h' → h' = h.
Proof.
  unfold ctx_get, bind, load_dicts, get_heap.
  destruct (h !! c) as [[?|ds]|]; try done.
  destruct (find_key h (reverse ds) k); unfold ret, raise; congruence.
Qed.

(** The special case asks for [_OUTER_ROOT_CTX_CONTEXT_KEY in context]
    last: where that is false the condition is the same under both
    settings, whatever the other operands are, errors included. *)
Lemma is_isolated_top_level_first_time h c outer_ctx :
  ctx_contains c _OUTER_ROOT_CTX_CONTEXT_KEY h = Ok false h →
  is_isolated_top_level ISOLATED c outer_ctx h
  = is_isolated_top_level DEFAULT c outer_ctx h.
Proof.
  intros Hc. unfold is_isolated_top_level.
  apply bind_ext. intros given h1 [= <- <-].
  destruct (truthy h outer_ctx); [|done].
  apply bind_ext. intros parent h2 ->%ctx_get_heap.
  apply bind_ext. intros has_parent h3 [= <- <-].
  destruct (truthy h parent); [done|]. exact Hc.
Qed.

Lemma set_outer_root_context_first_time h c outer_ctx :
  ctx_contains c _OUTER_ROOT_CTX_CONTEXT_KEY h = Ok false h →
  set_outer_root_context ISOLATED c outer_ctx h
  = set_outer_root_context DEFAULT c outer_ctx h.
Proof.
  intros Hc. unfold set_outer_root_context, new_outer_root_context.
  unfold bind at 1 3. unfold bind at 1 4.
  by rewrite (is_isolated_top_level_first_time h c outer_ctx Hc).
Qed.

(** X15.  On a context that holds no outer root context yet, the setting
    [SLOT_CONTEXT_BEHAVIOR] plays no role: [set_outer_root_context] and
    [prepare_context] give the same outcome, result or error, and the same
    store under [ISOLATED] as under [DEFAULT], for any outer context and
    any component id. *)
Theorem prepare_context_first_time_ignores_setting
    (h : heap) (c : loc) (outer_ctx : val) :
  ctx_contains c _OUTER_ROOT_CTX_CONTEXT_KEY h = Ok false h →
  set_outer_root_context ISOLATED c outer_ctx h
  = set_outer_root_context DEFAULT c outer_ctx h ∧
  ∀ component_id,
    prepare_context ISOLATED c outer_ctx component_id h
    = prepare_context DEFAULT c outer_ctx component_id h.
Proof.
  intros Hc. split; [by apply set_outer_root_context_first_time|].
  intros component_id. unfold prepare_context.
  destruct outer_ctx; try done;
    unfold bind at 1 6;
    by rewrite (set_outer_root_context_first_time h c _ Hc).
Qed.

Lemma prepare_context_first_time_ignores_setting_witness :
  ctx_contains 6 _OUTER_ROOT_CTX_CONTEXT_KEY page_store = Ok false page_store ∧
  prepare_context ISOLATED 6 (VRef 3) "comp-A" page_store
  = prepare_context DEFAULT 6 (VRef 3) "comp-A" page_store.
Proof.
  split; [vm_compute; reflexivity|].
  apply (prepare_context_first_time_ignores_setting page_store 6 (VRef 3)).
  vm_compute. reflexivity.
Defined.

(** X16.  [make_isolated_context_copy] does not depend on the setting
    [SLOT_CONTEXT_BEHAVIOR]: the copy it hands to [set_outer_root_context]
    is a new context with the two mappings only, so the special case of
    the top-level component is never taken.  On every store and for every
    argument the function gives the same outcome and the same store under
    [ISOLATED] as under [DEFAULT]. *)
Theorem make_isolated_context_copy_ignores_setting (c : loc) (h : heap) :
  make_isolated_context_copy ISOLATED c h = make_isolated_context_copy DEFAULT c h.
Proof.
  unfold make_isolated_context_copy.
  apply bind_ext. intros root_ctx h1 _.
  apply bind_ext. intros no_assoc h2 _.
  apply bind_ext. intros slot_assoc h3 _.
  apply bind_ext. intros no_fills h4 _.
  apply bind_ext. intros slot_fills h5 _.
  apply bind_ext. intros cc h6 Hnew.
  apply bind_ext. intros [] h7 Hassoc.
  apply bind_ext. intros [] h8 Hfills.
  unfold ctx_new, bind, load_dicts in Hnew.
  destruct (h5 !! c) as [[?|ds]|]; try done.
  rewrite Context_new_Ok in Hnew. injection Hnew as <- <-.
  assert (scope (h5 ++ [ODict builtins; OCtx [length h5 + 0]])
            (length h5 + 1) [length h5 + 0] (length h5 + 0) builtins) as Hs6
    by new_scope.
  rewrite (ctx_setitem_Ok _ _ _ _ _ _SLOT_COMPONENT_ASSOC_KEY slot_assoc Hs6) in Hassoc.
  injection Hassoc as <-.
  pose proof (scope_set_top _ _ _ _ _ _SLOT_COMPONENT_ASSOC_KEY slot_assoc Hs6) as Hs7.
  rewrite (ctx_setitem_Ok _ _ _ _ _ _FILLED_SLOTS_CONTENT_CONTEXT_KEY slot_fills Hs7)
    in Hfills.
  injection Hfills as <-.
  pose proof (scope_set_top _ _ _ _ _ _FILLED_SLOTS_CONTENT_CONTEXT_KEY slot_fills Hs7)
    as Hs8.
  unfold bind at 1 3.
  rewrite set_outer_root_context_first_time; [done|].
  rewrite (ctx_contains_Ok _ _ _ (scope_ctx _ _ _ _ _ Hs8) (scope_layers _ _ _ _ _ Hs8)).
  unfold ret. f_equal. apply bool_decide_eq_false_2.
  unfold visible. simpl. rewrite (scope_top _ _ _ _ _ Hs8).
  by intros [].
Qed.
